(** * convertz-backend: the conversion orchestration of the three server variants

    The repository holds three variants of one Express server:
    - [ServerCjs]   : src/server.cjs        (converter classes, placeholder notes)
    - [Part000]     : src/unnamed/part_000  (capability probing, LibreOffice helper)
    - [Part001]     : src/unnamed/part_001  (uuid-named uploads, outputs directory)

    The external collaborators (sharp, ffmpeg, LibreOffice, the clock, the uuid
    generator) are not part of the repository; they enter the model as an
    oracle [World] that decides, for every invocation, how long the tool runs,
    whether it succeeds and which files it leaves on disk, and that tells
    which directories exist.  A handler is run until its last callback has
    finished; a request that is never answered ends in [Halt].

    Strings are Rocq [string]s (sequences of 8-bit characters); case mapping is
    the ASCII one.  A form field is a string (a repeated multipart field, which
    would reach the handler as an array, is outside the model). *)

From Stdlib Require Import String Ascii List Bool Arith NArith Lia.
From Stdlib Require Import DecimalString.
From Stdlib Require Import Sorted Permutation.
Import ListNotations.
Local Open Scope string_scope.

(* ===================================================================== *)
(** ** JavaScript strings *)
(* ===================================================================== *)

Module JsString.

Definition lower_ascii (c : ascii) : ascii :=
  let n := nat_of_ascii c in
  if ((65 <=? n) && (n <=? 90))%nat then ascii_of_nat (n + 32) else c.

Definition upper_ascii (c : ascii) : ascii :=
  let n := nat_of_ascii c in
  if ((97 <=? n) && (n <=? 122))%nat then ascii_of_nat (n - 32) else c.

Fixpoint map_string (f : ascii -> ascii) (s : string) : string :=
  match s with
  | EmptyString => EmptyString
  | String c r => String (f c) (map_string f r)
  end.

(** [s.toLowerCase()] and [s.toUpperCase()]. *)
Definition toLowerCase : string -> string := map_string lower_ascii.
Definition toUpperCase : string -> string := map_string upper_ascii.

(** [s.slice(1)] and [s.substring(1)]. *)
Definition slice1 (s : string) : string :=
  match s with
  | EmptyString => EmptyString
  | String _ r => r
  end.

(** [s.startsWith(p)]. *)
Definition startsWith (s p : string) : bool := String.prefix p s.

(** [arr.includes(x)] on an array of strings. *)
Definition includes (arr : list string) (x : string) : bool :=
  existsb (String.eqb x) arr.

(** [arr.find(pred)]. *)
Definition find {A} (pred : A -> bool) (arr : list A) : option A :=
  List.find pred arr.

(** The replacement-text expansion of [String.prototype.replace] for a string
    pattern: [$$] is a dollar sign, [$&] the matched text, [$`] the text
    before the match, [$'] the text after it; any other [$] is literal. *)
Fixpoint expand (matched before after repl : string) : string :=
  match repl with
  | EmptyString => EmptyString
  | String c r =>
      if Ascii.eqb c "$"%char then
        match r with
        | String d r' =>
            if Ascii.eqb d "$"%char then String "$"%char (expand matched before after r')
            else if Ascii.eqb d "&"%char then matched ++ expand matched before after r'
            else if Ascii.eqb d "`"%char then before ++ expand matched before after r'
            else if Ascii.eqb d "'"%char then after ++ expand matched before after r'
            else String c (expand matched before after r)
        | EmptyString => String c EmptyString
        end
      else String c (expand matched before after r)
  end.

(** [s.replace(pat, repl)] with a string pattern: only the first occurrence is
    replaced; the empty pattern matches at position 0. *)
Definition replace (s pat repl : string) : string :=
  match String.index 0 pat s with
  | None => s
  | Some i =>
      let before := String.substring 0 i s in
      let after := String.substring (i + String.length pat)
                     (String.length s - (i + String.length pat)) s in
      before ++ expand pat before after repl ++ after
  end.

(** Decimal rendering of a number in a template literal. *)
Definition of_N (n : N) : string := NilEmpty.string_of_uint (N.to_uint n).

End JsString.

(* ===================================================================== *)
(** ** Node's [path] module (POSIX flavour) *)
(* ===================================================================== *)

Module Path.

Definition is_slash (c : ascii) : bool := Ascii.eqb c "/"%char.
Definition is_dot (c : ascii) : bool := Ascii.eqb c "."%char.

Fixpoint takeWhile {A} (p : A -> bool) (l : list A) : list A :=
  match l with
  | [] => []
  | x :: r => if p x then x :: takeWhile p r else []
  end.

Fixpoint dropWhile {A} (p : A -> bool) (l : list A) : list A :=
  match l with
  | [] => []
  | x :: r => if p x then dropWhile p r else l
  end.

Definition chars (s : string) : list ascii := list_ascii_of_string s.
Definition str (l : list ascii) : string := string_of_list_ascii l.

(** The right-most path component, read right to left: trailing separators
    are skipped, then everything up to the next separator is taken. *)
Definition rev_component (p : string) : list ascii :=
  takeWhile (fun c => negb (is_slash c)) (dropWhile is_slash (rev (chars p))).

(** [path.basename(p)]. *)
Definition basename (p : string) : string := str (rev (rev_component p)).

(** [path.extname(p)]: from the last dot of the right-most component to its
    end; empty when there is no dot, when the only dot is the component's
    first character, and for the component [..]. *)
Definition extname (p : string) : string :=
  let rc := rev_component p in
  let ext := takeWhile (fun c => negb (is_dot c)) rc in
  match dropWhile (fun c => negb (is_dot c)) rc with
  | [] => ""                                  (* no dot at all *)
  | _dot :: stem =>
      match stem with
      | [] => ""                              (* the dot opens the component *)
      | _ =>
          if (String.eqb (str (rev rc)) "..") then ""
          else str ("."%char :: rev ext)
      end
  end.

(** [path.parse(p).name]: the right-most component without its extension. *)
Definition parse_name (p : string) : string :=
  let b := basename p in
  String.substring 0 (String.length b - String.length (extname p)) b.

Definition ends_with (s suf : string) : bool :=
  let n := String.length s in
  let k := String.length suf in
  (k <=? n)%nat && String.eqb (String.substring (n - k) k s) suf.

(** [path.basename(p, ext)]: the right-most component, with [ext] removed when
    it is a proper, non-empty suffix of that component. *)
Definition basename_ext (p ext : string) : string :=
  let b := basename p in
  if negb (String.eqb ext "") && ends_with b ext
     && (String.length ext <? String.length b)%nat
  then String.substring 0 (String.length b - String.length ext) b
  else b.

(** [path.dirname(p)]. *)
Definition dirname (p : string) : string :=
  let rooted := match chars p with c :: _ => is_slash c | [] => false end in
  let r := dropWhile is_slash (rev (chars p)) in
  match dropWhile (fun c => negb (is_slash c)) r with
  | [] => if rooted then "/" else "."
  | _slash :: d =>
      match d with
      | [] => "/"
      | [c] => if is_slash c then "//" else str [c]
      | _ => str (rev d)
      end
  end.

(** Splitting at separators. *)
Fixpoint split_aux (cur : list ascii) (l : list ascii) : list (list ascii) :=
  match l with
  | [] => [rev cur]
  | c :: r => if is_slash c then rev cur :: split_aux [] r
              else split_aux (c :: cur) r
  end.

Definition segments (p : string) : list (list ascii) := split_aux [] (chars p).

Definition is_dotdot (seg : list ascii) : bool := String.eqb (str seg) "..".

(** One step of [normalizeString]: [acc] holds the kept segments, last first. *)
Definition push_segment (absolute : bool) (acc : list (list ascii))
    (seg : list ascii) : list (list ascii) :=
  match seg with
  | [] => acc
  | _ =>
      if String.eqb (str seg) "." then acc
      else if is_dotdot seg then
        match acc with
        | top :: rest => if is_dotdot top then seg :: acc else rest
        | [] => if absolute then [] else [seg]
        end
      else seg :: acc
  end.

Fixpoint join_segments (l : list (list ascii)) : list ascii :=
  match l with
  | [] => []
  | [s] => s
  | s :: r => s ++ "/"%char :: join_segments r
  end.

(** [path.normalize(p)]. *)
Definition normalize (p : string) : string :=
  match chars p with
  | [] => "."
  | c :: _ =>
      let absolute := is_slash c in
      let trailing := match rev (chars p) with e :: _ => is_slash e | [] => false end in
      let body := join_segments (rev (fold_left (push_segment absolute) (segments p) [])) in
      match body with
      | [] => if absolute then "/" else if trailing then "./" else "."
      | _ => str ((if absolute then ["/"%char] else [])
                    ++ body ++ (if trailing then ["/"%char] else []))%list
      end
  end.

(** [path.join(a, b)]: the non-empty arguments joined by a separator, then
    normalised. *)
Definition join (a b : string) : string :=
  match a, b with
  | EmptyString, EmptyString => "."
  | EmptyString, _ => normalize b
  | _, EmptyString => normalize a
  | _, _ => normalize (a ++ "/" ++ b)
  end.

End Path.

Import JsString.

Definition nl : string := String (ascii_of_nat 10) EmptyString.
Definition dquote : string := String (ascii_of_nat 34) EmptyString.

(* ===================================================================== *)
(** ** The scratch file system *)
(* ===================================================================== *)

(** Files only, as (path, content) pairs kept in directory order.  Which
    directories exist is part of the environment ([dir_exists] below). *)
Module Fs.

Definition t := list (string * string).

Definition is_path (p : string) (e : string * string) : bool := String.eqb (fst e) p.

(** [fs.existsSync(p)]. *)
Definition existsSync (p : string) (fs : t) : bool := existsb (is_path p) fs.

Definition read (p : string) (fs : t) : option string :=
  option_map snd (List.find (is_path p) fs).

(** [fs.unlinkSync(p)] on an existing file, and [fs.remove(p)] on a file. *)
Definition unlinkSync (p : string) (fs : t) : t :=
  filter (fun e => negb (is_path p e)) fs.

(** [fs.writeFileSync(p, c)]: the file is replaced, or created last. *)
Definition writeFileSync (p c : string) (fs : t) : t :=
  if existsSync p fs
  then map (fun e => if is_path p e then (p, c) else e) fs
  else (fs ++ [(p, c)])%list.

Definition writeAll (files : list (string * string)) (fs : t) : t :=
  fold_left (fun acc e => writeFileSync (fst e) (snd e) acc) files fs.

(** [fs.readdirSync(d)]: the names of the files directly inside [d], in the
    order the list keeps them (sub-directories are not part of the model). *)
Definition readdirSync (d : string) (fs : t) : list string :=
  map (fun e => Path.basename (fst e))
      (filter (fun e => String.eqb (Path.dirname (fst e)) d) fs).

(** [fs.removeSync(d)] on a directory: [d] and everything below it. *)
Definition removeSync (d : string) (fs : t) : t :=
  filter (fun e => negb (is_path d e || String.prefix (d ++ "/") (fst e))) fs.

End Fs.

(* ===================================================================== *)
(** ** External collaborators and the effect monad *)
(* ===================================================================== *)

Inductive Encoder :=
| EncJpeg (quality : N)
| EncPng
| EncPngQuality (quality : N)
| EncPngCompression (level : N)
| EncWebp (quality : N)
| EncGif
| EncBmp
| EncTiff.

(** The output methods of a sharp pipeline, of those the servers call: sharp
    has [jpeg], [png], [webp], [gif] and [tiff], and no [bmp]. *)
Definition sharp_has (enc : Encoder) : bool :=
  match enc with
  | EncBmp => false
  | _ => true
  end.

Inductive FfOpt :=
| AudioCodec (c : string)
| VideoCodec (c : string)
| Format (f : string).

(** What the program asks of the outside. *)
Inductive Invocation :=
| Exec (command : string)                        (* child_process.exec *)
| SpawnProc (prog : string) (args : list string) (* child_process.spawn *)
| SharpToFile (input : string) (enc : option Encoder) (output : string)
| FfmpegRun (input : string) (opts : list FfOpt) (output : string).

(** Only sharp runs inside the server process. *)
Definition is_process (i : Invocation) : bool :=
  match i with
  | SharpToFile _ _ _ => false
  | _ => true
  end.

Inductive Ending :=
| Exited (code : N)    (* the tool ended with this exit code; 0 is success *)
| Failed.              (* the tool could not be started or signalled an error *)

(** One run of a tool: how long it takes when left alone ([None]: it never
    ends), how it ends, its diagnostic, and the files it leaves behind. *)
Record Run := {
  run_time : option N;
  run_end : Ending;
  run_msg : string;
  run_files : list (string * string)
}.

Definition run_ok (r : Run) : bool :=
  match run_end r with
  | Exited 0 => true
  | _ => false
  end.

Record World := {
  behaves : Invocation -> Fs.t -> Run;
  clock_ms : N;            (* Date.now() *)
  clock_iso : string;      (* new Date().toISOString() *)
  uuid : string;           (* uuidv4() *)
  app_dir : string;        (* __dirname *)
  dir_exists : string -> bool   (* the directories present on disk *)
}.

(** The JSON bodies the servers write: one object whose fields hold a
    string, a boolean, an array of strings, an empty object, or an object
    whose fields hold arrays of strings. *)
Inductive JsonValue :=
| JStr (s : string)
| JBool (b : bool)
| JArr (items : list string)
| JEmptyObj
| JObj (fields : list (string * list string)).

Definition Json := list (string * JsonValue).

Inductive Response :=
| Reply (status : nat) (body : Json)                          (* res.status(n).json(body) *)
| Download (path filename : string) (content : option string). (* res.download(path, filename) *)

Inductive Event :=
| EvAdapter (name : string)                      (* a backend adapter was entered *)
| EvRun (inv : Invocation) (timeout : option N)  (* a tool was started *)
| EvSend (r : Response).                         (* res.json or res.download was called *)

Record St := {
  files : Fs.t;
  trace : list Event;
  elapsed : N              (* milliseconds spent waiting for tools *)
}.

(** Why a request is never answered. *)
Inductive Stuck :=
| NeverSettles             (* a promise that is neither resolved nor rejected *)
| Uncaught (msg : string). (* an exception thrown inside an event callback *)

Inductive Outcome (A : Type) :=
| Ret (a : A)
| Throw (msg : string)
| Halt (why : Stuck).
Arguments Ret {A} a.
Arguments Throw {A} msg.
Arguments Halt {A} why.

Definition M (A : Type) := St -> Outcome A * St.

Definition ret {A} (a : A) : M A := fun st => (Ret a, st).
Definition throw {A} (msg : string) : M A := fun st => (Throw msg, st).
Definition halt {A} (why : Stuck) : M A := fun st => (Halt why, st).

Definition bind {A B} (c : M A) (k : A -> M B) : M B := fun st =>
  match c st with
  | (Ret a, st') => k a st'
  | (Throw msg, st') => (Throw msg, st')
  | (Halt why, st') => (Halt why, st')
  end.

(** [try { body } catch (e) { handler(e.message) }]. *)
Definition try_catch {A} (body : M A) (handler : string -> M A) : M A := fun st =>
  match body st with
  | (Throw msg, st') => handler msg st'
  | other => other
  end.

(** Code that runs inside an event callback: an exception there escapes the
    promise and is never delivered to the caller. *)
Definition in_callback {A} (body : M A) : M A := fun st =>
  match body st with
  | (Throw msg, st') => (Halt (Uncaught msg), st')
  | other => other
  end.

Declare Scope js_scope.
Delimit Scope js_scope with js.
Notation "x <- c ;; k" := (bind c (fun x => k))
  (at level 61, c at next level, right associativity) : js_scope.
Notation "c ;; k" := (bind c (fun _ => k))
  (at level 61, right associativity) : js_scope.
Local Open Scope js_scope.

(** The state after one more event. *)
Definition push (e : Event) (st : St) : St :=
  {| files := files st; trace := (trace st ++ [e])%list; elapsed := elapsed st |}.

Definition log (e : Event) : M unit := fun st => (Ret tt, push e st).

(** The state with another file system. *)
Definition with_files (fs : Fs.t) (st : St) : St :=
  {| files := fs; trace := trace st; elapsed := elapsed st |}.

Definition update_fs (f : Fs.t -> Fs.t) : M unit := fun st =>
  (Ret tt, with_files (f (files st)) st).

Definition existsSync (p : string) : M bool := fun st => (Ret (Fs.existsSync p (files st)), st).
Definition readdirSync (d : string) : M (list string) := fun st =>
  (Ret (Fs.readdirSync d (files st)), st).
Definition unlinkSync (p : string) : M unit := update_fs (Fs.unlinkSync p).

(** [if (fs.existsSync(p)) fs.unlinkSync(p)], and fs-extra's [fs.remove(p)]. *)
Definition unlink_if_exists (p : string) : M unit :=
  e <- existsSync p ;; if e then unlinkSync p else ret tt.

(** [fs.writeFileSync(p, c)]: fails when the directory of [p] is missing. *)
Definition writeFileSync (w : World) (p c : string) : M unit := fun st =>
  if dir_exists w (Path.dirname p)
  then update_fs (Fs.writeFileSync p c) st
  else (Throw ("ENOENT: no such file or directory, open '" ++ p ++ "'"), st).

(** fs-extra's [fs.moveSync(src, dst)]: refuses an existing destination. *)
Definition moveSync (src dst : string) : M unit := fun st =>
  match Fs.read src (files st) with
  | None => (Throw ("ENOENT: no such file or directory, " ++ src), st)
  | Some c =>
      if Fs.existsSync dst (files st) then (Throw "dest already exists.", st)
      else update_fs (fun fs => Fs.writeFileSync dst c (Fs.unlinkSync src fs)) st
  end.

(** [fs.copyFileSync(src, dst)]. *)
Definition copyFileSync (src dst : string) : M unit := fun st =>
  match Fs.read src (files st) with
  | None => (Throw ("ENOENT: no such file or directory, " ++ src), st)
  | Some c => update_fs (Fs.writeFileSync dst c) st
  end.

(** [res.status(n).json(body)] and [res.download(path, name)].  The download
    is recorded as the call that is made; every handler runs the clean-up of
    its callback whether or not Express could send the file.  When Express
    sends it, and under which name, is [served] and [plain_name] below. *)
Definition res_json (status : nat) (body : Json) : M unit := log (EvSend (Reply status body)).
Definition res_download (path name : string) : M unit := fun st =>
  log (EvSend (Download path name (Fs.read path (files st)))) st.

(** How a caller sees one run of a tool under an optional timeout (in
    milliseconds): with a timeout the tool is killed once it has run that
    long; without one, a tool that never ends keeps the caller waiting. *)
Inductive Verdict :=
| Succeeded
| Errored (msg : string)
| TimedOut
| Never.

Definition ended (r : Run) : Verdict :=
  if run_ok r then Succeeded else Errored (run_msg r).

Definition verdict (r : Run) (timeout : option N) : Verdict :=
  match timeout, run_time r with
  | Some t, Some d => if (t <? d)%N then TimedOut else ended r
  | Some t, None => TimedOut
  | None, Some d => ended r
  | None, None => Never
  end.

(** The time the caller waits. *)
Definition waiting_time (r : Run) (timeout : option N) : N :=
  match timeout, run_time r with
  | Some t, Some d => N.min t d
  | Some t, None => t
  | None, Some d => d
  | None, None => 0
  end.

(** The state once the caller stops waiting: the invocation is on record and
    the files the tool left are on disk. *)
Definition after_run (w : World) (inv : Invocation) (timeout : option N) (st : St) : St :=
  let r := behaves w inv (files st) in
  {| files := Fs.writeAll (run_files r) (files st);
     trace := (trace st ++ [EvRun inv timeout])%list;
     elapsed := elapsed st + waiting_time r timeout |}.

(** [attempt] turns an exception into a value, as a Node callback receives
    its [error] argument. *)
Definition attempt {A} (c : M A) : M (string + A) := fun st =>
  match c st with
  | (Ret a, st') => (Ret (inr a), st')
  | (Throw msg, st') => (Ret (inl msg), st')
  | (Halt why, st') => (Halt why, st')
  end.

Definition command_failed (command diagnostic : string) : string :=
  "Command failed: " ++ command ++ nl ++ diagnostic.

(** [child_process.exec(command, {timeout})]: the error of a command that was
    killed and of one that exited non-zero look alike. *)
Definition exec (w : World) (command : string) (timeout : option N) : M unit := fun st =>
  let r := behaves w (Exec command) (files st) in
  (match verdict r timeout with
   | Succeeded => Ret tt
   | Errored msg => Throw (command_failed command msg)
   | TimedOut => Throw (command_failed command (run_msg r))
   | Never => Halt NeverSettles
   end,
   after_run w (Exec command) timeout st).

(** A sharp pipeline ending in [toFile], an ffmpeg command run to its [end] or
    [error] event: the promise is rejected with the tool's diagnostic. *)
Definition run_tool (w : World) (inv : Invocation) : M unit := fun st =>
  let r := behaves w inv (files st) in
  (match verdict r None with
   | Succeeded => Ret tt
   | Errored msg => Throw msg
   | TimedOut | Never => Halt NeverSettles
   end,
   after_run w inv None st).

(** [child_process.spawn(prog, args)], followed to its [close] or [error]
    event; no timeout is set. *)
Definition spawn (w : World) (prog : string) (args : list string) : M Run := fun st =>
  let r := behaves w (SpawnProc prog args) (files st) in
  (match run_time r with
   | Some _ => Ret r
   | None => Halt NeverSettles
   end,
   after_run w (SpawnProc prog args) None st).

Definition initial (fs : Fs.t) : St := {| files := fs; trace := []; elapsed := 0 |}.

(** The responses written during a run, in order. *)
Fixpoint responses (tr : list Event) : list Response :=
  match tr with
  | [] => []
  | EvSend r :: rest => r :: responses rest
  | _ :: rest => responses rest
  end.

(** The tools started during a run, in order. *)
Fixpoint invocations (tr : list Event) : list (Invocation * option N) :=
  match tr with
  | [] => []
  | EvRun i t :: rest => (i, t) :: invocations rest
  | _ :: rest => invocations rest
  end.

(** The uploaded file as multer hands it to the handler. *)
Record File := {
  originalname : string;
  path : string;
  mimetype : string
}.

Record Request := {
  file : option File;            (* req.file *)
  outputFormat : option string   (* req.body.outputFormat *)
}.

(** [!outputFormat]: the field is missing or empty. *)
Definition missing (f : option string) : bool :=
  match f with
  | None => true
  | Some s => String.eqb s ""
  end.

(* ===================================================================== *)
(** ** src/server.cjs *)
(* ===================================================================== *)

Module ServerCjs.

Definition SUPPORTED_FORMATS : list (string * list string) :=
  [ ("images", ["PNG"; "JPG"; "JPEG"; "WEBP"; "GIF"; "BMP"; "TIFF"]);
    ("documents", ["PDF"; "DOCX"; "DOC"; "TXT"; "RTF"; "HTML"; "ODT"]);
    ("audio", ["MP3"; "WAV"; "FLAC"; "AAC"; "OGG"; "M4A"]);
    ("video", ["MP4"; "AVI"; "MOV"; "MKV"; "WEBM"; "WMV"]) ].

Definition imageExts := ["png"; "jpg"; "jpeg"; "webp"; "gif"; "bmp"; "tiff"].
Definition docExts := ["pdf"; "doc"; "docx"; "txt"; "rtf"; "html"; "odt"].
Definition audioExts := ["mp3"; "wav"; "flac"; "aac"; "ogg"; "m4a"].
Definition videoExts := ["mp4"; "avi"; "mov"; "mkv"; "webm"; "wmv"].

(** The extension [getFileCategory] classifies by. *)
Definition file_ext (fileName : string) : string :=
  toLowerCase (slice1 (Path.extname fileName)).

(** The chain of [includes] tests, on the extension computed above. *)
Definition category_of (ext : string) : string :=
  if includes imageExts ext then "images"
  else if includes docExts ext then "documents"
  else if includes audioExts ext then "audio"
  else if includes videoExts ext then "video"
  else "documents".

Definition getFileCategory (fileName : string) : string :=
  category_of (file_ext fileName).

(** The four extension arrays with the category each one stands for. *)
Definition extension_sets : list (string * list string) :=
  [ ("images", imageExts); ("documents", docExts);
    ("audio", audioExts); ("video", videoExts) ].

(** Whether [SUPPORTED_FORMATS] lists the target for the category. *)
Definition in_matrix (category outputFormat : string) : bool :=
  existsb (fun row => (fst row =? category) && includes (snd row) (toUpperCase outputFormat))
          SUPPORTED_FORMATS.

(** The [switch] of [ImageConverter.convert]: the output method each [case]
    calls; [None] is its [default].  The case [BMP] calls [bmp()], which
    sharp does not have (see [sharp_has]). *)
Definition image_encoder (outputFormat : string) : option Encoder :=
  let f := toUpperCase outputFormat in
  if f =? "PNG" then Some (EncPngQuality 90)
  else if (f =? "JPG") || (f =? "JPEG") then Some (EncJpeg 90)
  else if f =? "WEBP" then Some (EncWebp 90)
  else if f =? "GIF" then Some EncGif
  else if f =? "BMP" then Some EncBmp
  else if f =? "TIFF" then Some EncTiff
  else None.

(** The [switch] of [MediaConverter.convert]. *)
Definition media_options (outputFormat : string) : list FfOpt :=
  let f := toUpperCase outputFormat in
  if f =? "MP3" then [AudioCodec "libmp3lame"; Format "mp3"]
  else if f =? "WAV" then [AudioCodec "pcm_s16le"; Format "wav"]
  else if f =? "MP4" then [VideoCodec "libx264"; AudioCodec "aac"; Format "mp4"]
  else if f =? "AVI" then [VideoCodec "libx264"; AudioCodec "libmp3lame"; Format "avi"]
  else if f =? "WEBM" then [VideoCodec "libvpx"; AudioCodec "libvorbis"; Format "webm"]
  else [Format (toLowerCase outputFormat)].

Definition which_command : string := "which soffice || which libreoffice".

Definition soffice_command (inputPath outputDir outputFormat : string) : string :=
  "soffice --headless --convert-to " ++ toLowerCase outputFormat ++ " "
    ++ dquote ++ inputPath ++ dquote ++ " --outdir " ++ dquote ++ outputDir ++ dquote.

Definition source_format (inputPath : string) : string :=
  toUpperCase (slice1 (Path.extname inputPath)).

Definition txt_content (iso inputPath : string) : string :=
  "Document converted from " ++ source_format inputPath ++ " to TXT" ++ nl ++ nl
    ++ "Original file: " ++ Path.basename inputPath ++ nl
    ++ "Converted on: " ++ iso ++ nl ++ nl
    ++ "Note: This is a basic text conversion. For full document conversion, LibreOffice is required.".

Definition document_note (inputPath outputFormat : string) : string :=
  "# Conversion Note" ++ nl ++ nl
    ++ "This file requires LibreOffice for proper conversion." ++ nl
    ++ "Original format: " ++ source_format inputPath ++ nl
    ++ "Requested format: " ++ toUpperCase outputFormat ++ nl ++ nl
    ++ "To enable full document conversion, install LibreOffice:" ++ nl
    ++ "sudo apt-get install libreoffice  # Linux" ++ nl
    ++ "brew install --cask libreoffice  # macOS".

Definition media_note (inputPath outputFormat : string) : string :=
  "# Media Conversion Note" ++ nl ++ nl
    ++ "This file requires FFmpeg for proper conversion." ++ nl
    ++ "Original format: " ++ source_format inputPath ++ nl
    ++ "Requested format: " ++ toUpperCase outputFormat ++ nl ++ nl
    ++ "To enable media conversion, install FFmpeg:" ++ nl
    ++ "sudo apt-get install ffmpeg  # Linux" ++ nl
    ++ "brew install ffmpeg  # macOS" ++ nl
    ++ "choco install ffmpeg  # Windows".

Definition failure (msg : string) : Json :=
  [("success", JBool false); ("error", JStr msg)].

(** The path [DocumentConverter.convert] expects the tool to write. *)
Definition document_output (inputPath outputFormat : string) : string :=
  Path.join (Path.dirname inputPath)
    (Path.parse_name inputPath ++ "." ++ toLowerCase outputFormat).

(** The path both other converters derive from the stored upload. *)
Definition replaced_output (inputPath outputFormat : string) : string :=
  replace inputPath (Path.extname inputPath) ("." ++ toLowerCase outputFormat).

Definition media_note_path (inputPath : string) : string :=
  replace inputPath (Path.extname inputPath) "_conversion_note.txt".

Section WithWorld.
Variable w : World.

(** [ImageConverter.convert(inputPath, outputFormat)]. *)
Definition ImageConverter_convert (inputPath outputFormat : string) : M string :=
  let outputPath := replaced_output inputPath outputFormat in
  log (EvAdapter "ImageConverter") ;;
  match image_encoder outputFormat with
  | Some enc =>
      if sharp_has enc then
        run_tool w (SharpToFile inputPath (Some enc) outputPath) ;;
        ret outputPath
      else throw "sharpInstance.bmp is not a function"
  | None => throw ("Unsupported image format: " ++ outputFormat)
  end.

(** The [try] block of [DocumentConverter.convert]. *)
Definition document_try (inputPath outputFormat : string) : M string :=
  let outputDir := Path.dirname inputPath in
  let outputPath := document_output inputPath outputFormat in
  exec w which_command None ;;
  exec w (soffice_command inputPath outputDir outputFormat) (Some 30000%N) ;;
  e <- existsSync outputPath ;;
  if e then ret outputPath else throw "LibreOffice conversion failed".

(** Its [catch] block. *)
Definition document_fallback (inputPath outputFormat : string) : M string :=
  let outputDir := Path.dirname inputPath in
  let baseName := Path.parse_name inputPath in
  let outputPath := document_output inputPath outputFormat in
  if toUpperCase outputFormat =? "TXT" then
    writeFileSync w outputPath (txt_content (clock_iso w) inputPath) ;;
    ret outputPath
  else
    let noteOutputPath := Path.join outputDir (baseName ++ "_conversion_note.txt") in
    writeFileSync w noteOutputPath (document_note inputPath outputFormat) ;;
    ret noteOutputPath.

(** The file that [catch] block leaves: its path and its text. *)
Definition document_placeholder (inputPath outputFormat : string) : string * string :=
  if toUpperCase outputFormat =? "TXT"
  then (document_output inputPath outputFormat, txt_content (clock_iso w) inputPath)
  else (Path.join (Path.dirname inputPath)
          (Path.parse_name inputPath ++ "_conversion_note.txt"),
        document_note inputPath outputFormat).

(** [DocumentConverter.convert(inputPath, outputFormat)]. *)
Definition DocumentConverter_convert (inputPath outputFormat : string) : M string :=
  log (EvAdapter "DocumentConverter") ;;
  try_catch (document_try inputPath outputFormat)
            (fun _ => document_fallback inputPath outputFormat).

(** The ffmpeg command of [MediaConverter.convert], run to its [end] event
    (which resolves with the output path) or its [error] event. *)
Definition media_try (inputPath outputFormat : string) : M string :=
  let outputPath := replaced_output inputPath outputFormat in
  run_tool w (FfmpegRun inputPath (media_options outputFormat) outputPath) ;;
  ret outputPath.

(** The [error] listener: it writes the note and resolves with its path.  It
    runs as an event callback, outside the promise's executor. *)
Definition media_fallback (inputPath outputFormat : string) : M string :=
  let noteOutputPath := media_note_path inputPath in
  in_callback (writeFileSync w noteOutputPath (media_note inputPath outputFormat)) ;;
  ret noteOutputPath.

(** [MediaConverter.convert(inputPath, outputFormat)]. *)
Definition MediaConverter_convert (inputPath outputFormat : string) : M string :=
  log (EvAdapter "MediaConverter") ;;
  try_catch (media_try inputPath outputFormat)
            (fun _ => media_fallback inputPath outputFormat).

(** The [switch (category)] of the handler. *)
Definition dispatch (category inputPath outputFormat : string) : M string :=
  if category =? "images" then ImageConverter_convert inputPath outputFormat
  else if category =? "documents" then DocumentConverter_convert inputPath outputFormat
  else if (category =? "audio") || (category =? "video")
  then MediaConverter_convert inputPath outputFormat
  else throw ("Unsupported file category: " ++ category).

(** The clean-up that the download callback schedules with [setTimeout]. *)
Definition cleanup_after_download (inputPath outputPath : string) : M unit :=
  try_catch
    (unlink_if_exists inputPath ;; unlink_if_exists outputPath)
    (fun _ => ret tt).

(** [app.post('/api/convert', upload.single('file'), ...)], run until its last
    callback has finished. *)
Definition post_convert (req : Request) : M unit :=
  try_catch
    (match file req with
     | None => res_json 400 (failure "No file uploaded")
     | Some inputFile =>
         if missing (outputFormat req)
         then res_json 400 (failure "Output format not specified")
         else
           let outputFormat := match outputFormat req with Some s => s | None => "" end in
           let category := getFileCategory (originalname inputFile) in
           try_catch
             (outputPath <- dispatch category (path inputFile) outputFormat ;;
              e <- existsSync outputPath ;;
              if negb e then throw "Conversion failed - output file not created"
              else
                let outputFileName :=
                  Path.parse_name (originalname inputFile) ++ "." ++ toLowerCase outputFormat in
                res_download outputPath outputFileName ;;
                cleanup_after_download (path inputFile) outputPath)
             (fun msg =>
                unlink_if_exists (path inputFile) ;;
                res_json 500 (failure ("Conversion failed: " ++ msg)))
     end)
    (fun msg =>
       res_json 500 (failure (if msg =? "" then "Server error occurred" else msg))).

End WithWorld.

End ServerCjs.

(* ===================================================================== *)
(** ** src/unnamed/part_000 *)
(* ===================================================================== *)

Module Part000.

Record Capabilities := {
  sharp : bool;
  ffmpeg : bool;
  libreoffice : bool
}.

(** A JavaScript value as a property read of [formatMap] can produce it. *)
Inductive JsValue :=
| VArray (items : list string)
| VFunction (name : string)
| VObjectPrototype
| VUndefined.

(** What an object literal inherits from [Object.prototype]. *)
Definition object_prototype (key : string) : JsValue :=
  if key =? "__proto__" then VObjectPrototype
  else if includes ["constructor"; "hasOwnProperty"; "isPrototypeOf";
                    "propertyIsEnumerable"; "toLocaleString"; "toString"; "valueOf";
                    "__defineGetter__"; "__defineSetter__";
                    "__lookupGetter__"; "__lookupSetter__"] key
  then VFunction key
  else VUndefined.

Fixpoint own_property (obj : list (string * list string)) (key : string)
  : option (list string) :=
  match obj with
  | [] => None
  | (k, v) :: rest => if k =? key then Some v else own_property rest key
  end.

(** [obj[key]]: own properties first, then the prototype. *)
Definition get (obj : list (string * list string)) (key : string) : JsValue :=
  match own_property obj key with
  | Some v => VArray v
  | None => object_prototype key
  end.

(** [v || []]: every array, function and object is truthy. *)
Definition or_empty (v : JsValue) : JsValue :=
  match v with
  | VUndefined => VArray []
  | _ => v
  end.

(** [JSON.stringify({ formats: v })]: a function-valued property is left out,
    [Object.prototype] has no enumerable property of its own. *)
Definition formats_body (v : JsValue) : Json :=
  match v with
  | VArray items => [("formats", JArr items)]
  | VObjectPrototype => [("formats", JEmptyObj)]
  | VFunction _ => []
  | VUndefined => []
  end.

Definition formatMap (capabilities : Capabilities) : list (string * list string) :=
  let ff (l : list string) := if ffmpeg capabilities then l else [] in
  let lo (l : list string) := if libreoffice capabilities then l else [] in
  [ ("jpg", ["png"; "webp"; "tiff"; "bmp"; "jpeg"]);
    ("jpeg", ["png"; "webp"; "tiff"; "bmp"; "jpg"]);
    ("png", ["jpg"; "jpeg"; "webp"; "tiff"; "bmp"]);
    ("webp", ["jpg"; "jpeg"; "png"; "tiff"; "bmp"]);
    ("tiff", ["jpg"; "jpeg"; "png"; "webp"; "bmp"]);
    ("bmp", ["jpg"; "jpeg"; "png"; "webp"; "tiff"]);
    ("mp4", ff ["avi"; "mov"; "wmv"; "flv"]);
    ("avi", ff ["mp4"; "mov"; "wmv"; "flv"]);
    ("mov", ff ["mp4"; "avi"; "wmv"; "flv"]);
    ("wmv", ff ["mp4"; "avi"; "mov"; "flv"]);
    ("flv", ff ["mp4"; "avi"; "mov"; "wmv"]);
    ("mp3", ff ["wav"; "ogg"; "aac"; "m4a"]);
    ("wav", ff ["mp3"; "ogg"; "aac"; "m4a"]);
    ("ogg", ff ["mp3"; "wav"; "aac"; "m4a"]);
    ("aac", ff ["mp3"; "wav"; "ogg"; "m4a"]);
    ("m4a", ff ["mp3"; "wav"; "ogg"; "aac"]);
    ("pdf", lo ["docx"; "odt"; "txt"; "rtf"]);
    ("doc", lo ["pdf"; "docx"; "odt"; "txt"; "rtf"]);
    ("docx", lo ["pdf"; "doc"; "odt"; "txt"; "rtf"]);
    ("xls", lo ["xlsx"; "ods"; "csv"]);
    ("xlsx", lo ["xls"; "ods"; "csv"]);
    ("ppt", lo ["pptx"; "odp"; "pdf"]);
    ("pptx", lo ["ppt"; "odp"; "pdf"]);
    ("odt", lo ["pdf"; "doc"; "docx"; "txt"; "rtf"]);
    ("ods", lo ["xls"; "xlsx"; "csv"]);
    ("odp", lo ["ppt"; "pptx"; "pdf"]);
    ("rtf", lo ["pdf"; "doc"; "docx"; "odt"; "txt"]);
    ("txt", lo ["pdf"; "doc"; "docx"; "odt"; "rtf"]) ].

(** [formatMap[inputFormat.toLowerCase()] || []]. *)
Definition supportedFormats (capabilities : Capabilities) (inputFormat : string) : JsValue :=
  or_empty (get (formatMap capabilities) (toLowerCase inputFormat)).

(** The extension lists by which the convert handler picks its backend. *)
Definition image_formats := ["jpg"; "jpeg"; "png"; "webp"; "tiff"; "bmp"].
Definition media_formats :=
  ["mp4"; "avi"; "mov"; "wmv"; "flv"; "mp3"; "wav"; "ogg"; "aac"; "m4a"].
Definition document_formats :=
  ["pdf"; "doc"; "docx"; "xls"; "xlsx"; "ppt"; "pptx"; "odt"; "ods"; "odp"; "rtf"; "txt"].

Inductive Backend := Sharp | Ffmpeg | LibreOffice.

(** The backend the convert handler uses for a source extension. *)
Definition backend_of (inputExt : string) : option Backend :=
  if includes image_formats inputExt then Some Sharp
  else if includes media_formats inputExt then Some Ffmpeg
  else if includes document_formats inputExt then Some LibreOffice
  else None.

Definition available (capabilities : Capabilities) (b : Backend) : bool :=
  match b with
  | Sharp => sharp capabilities
  | Ffmpeg => ffmpeg capabilities
  | LibreOffice => libreoffice capabilities
  end.

(** The listing when every backend is present. *)
Definition all_available : Capabilities :=
  {| sharp := true; ffmpeg := true; libreoffice := true |}.

Definition static_targets (ext : string) : list string :=
  match get (formatMap all_available) ext with
  | VArray items => items
  | _ => []
  end.

(** The flag that gates a backend's rows of [formatMap]; the image rows are
    not gated. *)
Definition gate (c : Capabilities) (b : Backend) : bool :=
  match b with
  | Sharp => true
  | Ffmpeg => ffmpeg c
  | LibreOffice => libreoffice c
  end.

Definition libreoffice_command (outputFormat outputDir tempInputPath : string) : string :=
  "libreoffice --headless --convert-to " ++ outputFormat ++ " --outdir "
    ++ dquote ++ outputDir ++ dquote ++ " " ++ dquote ++ tempInputPath ++ dquote.

Definition failure (details : string) : Json :=
  [("error", JStr "Conversion failed"); ("details", JStr details)].

Definition not_found : string :=
  "LibreOffice conversion completed but output file not found".

Section WithWorld.
Variable w : World.

Definition uploadsDir : string := Path.join (app_dir w) "uploads".

(** [checkCapabilities()]. *)
Definition checkCapabilities : M Capabilities :=
  ff <- attempt (exec w "ffmpeg -version" None) ;;
  lo <- attempt
          (try_catch (exec w "libreoffice --headless --version" None)
             (fun _ => exec w "soffice --headless --version" None)) ;;
  ret {| sharp := true;
         ffmpeg := match ff with inr _ => true | inl _ => false end;
         libreoffice := match lo with inr _ => true | inl _ => false end |}.

(** The tail of the [exec] callback in [convertWithLibreOffice], from the
    comment [// Find the output file] on. *)
Definition find_output (inputPath outputDir outputFormat : string) : M string :=
  let baseNameWithoutExt := Path.parse_name (Path.basename inputPath) in
  let expectedOutputPath :=
    Path.join outputDir (baseNameWithoutExt ++ "." ++ outputFormat) in
  e <- existsSync expectedOutputPath ;;
  if e then ret expectedOutputPath
  else
    files <- readdirSync outputDir ;;
    match find (fun file => startsWith file baseNameWithoutExt) files with
    | Some outputFile =>
        if outputFile =? ""
        then throw not_found
        else ret (Path.join outputDir outputFile)
    | None => throw not_found
    end.

(** [convertWithLibreOffice(inputPath, outputDir, outputFormat)]. *)
Definition convertWithLibreOffice (inputPath outputDir outputFormat : string) : M string :=
  let tempDir := Path.join (Path.join (app_dir w) "temp") (uuid w) in
  let tempInputPath := Path.join tempDir (Path.basename inputPath) in
  copyFileSync inputPath tempInputPath ;;
  error <- attempt (exec w (libreoffice_command outputFormat outputDir tempInputPath)
                      (Some 30000%N)) ;;
  update_fs (Fs.removeSync tempDir) ;;
  match error with
  | inl msg => throw ("LibreOffice conversion failed: " ++ msg)
  | inr _ => find_output inputPath outputDir outputFormat
  end.

(** [tempFiles.forEach(file => { try { if exists, unlink } catch {} })]. *)
Fixpoint cleanup (tempFiles : list string) : M unit :=
  match tempFiles with
  | [] => ret tt
  | file :: rest =>
      try_catch (unlink_if_exists file) (fun _ => ret tt) ;;
      cleanup rest
  end.

(** The encoder options the image branch sets before [toFile]; [None] leaves
    the choice to sharp, by the output file's extension. *)
Definition image_encoder (outputFormat : string) : option Encoder :=
  if (outputFormat =? "jpg") || (outputFormat =? "jpeg") then Some (EncJpeg 90)
  else if outputFormat =? "png" then Some (EncPngCompression 6)
  else if outputFormat =? "webp" then Some (EncWebp 90)
  else None.

(** The conversion proper, between the two pushes onto [tempFiles] and the
    download. *)
Definition convert_body (originalname filePath outputFormat outputPath : string) : M unit :=
  let inputExt := slice1 (toLowerCase (Path.extname originalname)) in
  (if includes image_formats inputExt && includes image_formats outputFormat then
     run_tool w (SharpToFile filePath (image_encoder outputFormat) outputPath)
   else if includes media_formats inputExt then
     run_tool w (FfmpegRun filePath [] outputPath)
   else if includes document_formats inputExt then
     convertWithLibreOffice filePath uploadsDir outputFormat ;;
     let baseNameWithoutExt := Path.parse_name originalname in
     let libreOfficeOutputPath :=
       Path.join uploadsDir (baseNameWithoutExt ++ "." ++ outputFormat) in
     e <- existsSync libreOfficeOutputPath ;;
     if e then moveSync libreOfficeOutputPath outputPath
     else throw "LibreOffice conversion failed - output file not found"
   else throw ("Unsupported conversion: " ++ inputExt ++ " to " ++ outputFormat)) ;;
  e <- existsSync outputPath ;;
  if negb e then throw "Conversion completed but output file not found" else ret tt.

(** [app.post('/api/convert', ...)].  Both pushes onto [tempFiles] precede
    every statement that can throw, so the [catch] block always sees the
    stored upload and the planned output path. *)
Definition post_convert (req : Request) : M unit :=
  match file req with
  | None => res_json 400 [("error", JStr "No file uploaded")]
  | Some f =>
      if missing (outputFormat req)
      then res_json 400 [("error", JStr "Output format not specified")]
      else
        let outputFormat := match outputFormat req with Some s => s | None => "" end in
        let filePath := path f in
        let outputFileName := Path.parse_name (originalname f) ++ "." ++ outputFormat in
        let outputPath :=
          Path.join uploadsDir ("converted_" ++ of_N (clock_ms w) ++ "_" ++ outputFileName) in
        let tempFiles := [filePath; outputPath] in
        try_catch
          (convert_body (originalname f) filePath outputFormat outputPath ;;
           res_download outputPath outputFileName ;;
           cleanup tempFiles)
          (fun msg =>
             cleanup tempFiles ;;
             res_json 500 (failure msg))
  end.

(** [app.get('/api/formats/:inputFormat', ...)]. *)
Definition get_formats (inputFormat : string) : M unit :=
  capabilities <- checkCapabilities ;;
  res_json 200 (formats_body (supportedFormats capabilities inputFormat)).

End WithWorld.

End Part000.

(* ===================================================================== *)
(** ** src/unnamed/part_001 *)
(* ===================================================================== *)

Module Part001.

Definition categories : list (string * list string) :=
  [ ("image", ["jpg"; "jpeg"; "png"; "webp"; "gif"; "bmp"; "tiff"; "svg"; "ico"]);
    ("document", ["pdf"; "docx"; "doc"; "txt"; "rtf"; "odt"; "pages"]);
    ("audio", ["mp3"; "wav"; "flac"; "aac"; "ogg"; "m4a"; "wma"]);
    ("video", ["mp4"; "avi"; "mov"; "mkv"; "wmv"; "flv"; "webm"]) ].

(** The extension [getFileCategory] classifies by. *)
Definition file_ext (filename : string) : string :=
  slice1 (toLowerCase (Path.extname filename)).

(** The [for ... of Object.entries(categories)] loop. *)
Fixpoint first_category (entries : list (string * list string)) (ext : string)
  : option string :=
  match entries with
  | [] => None
  | (category, extensions) :: rest =>
      if includes extensions ext then Some category else first_category rest ext
  end.

Definition category_of (ext : string) : string :=
  match first_category categories ext with
  | Some category => category
  | None => "document"
  end.

Definition getFileCategory (filename : string) : string :=
  category_of (file_ext filename).

(** The [filename] callback of [multer.diskStorage], given the token that
    [uuidv4()] returned for this upload. *)
Definition storage_filename (token originalname : string) : string :=
  token ++ "-" ++ originalname.

(** The [switch] of [convertImage]. *)
Definition image_encoder (format : string) : Encoder :=
  let f := toLowerCase format in
  if (f =? "jpg") || (f =? "jpeg") then EncJpeg 85
  else if f =? "png" then EncPng
  else if f =? "webp" then EncWebp 85
  else if f =? "bmp" then EncPng
  else if f =? "tiff" then EncTiff
  else EncPng.

(** The formats with a [case] of their own in that [switch]. *)
Definition image_cases := ["jpg"; "jpeg"; "png"; "webp"; "bmp"; "tiff"].

(** The codec calls of [convertMedia], in the order they are made. *)
Definition media_options (format : string) : list FfOpt :=
  let f := toLowerCase format in
  ((if includes ["mp3"; "wav"; "flac"; "aac"; "ogg"; "m4a"] f then
      [AudioCodec "libmp3lame"]
        ++ (if f =? "wav" then [AudioCodec "pcm_s16le"] else [])
        ++ (if f =? "flac" then [AudioCodec "flac"] else [])
        ++ (if f =? "aac" then [AudioCodec "aac"] else [])
    else [])
   ++
   (if includes ["mp4"; "avi"; "mov"; "mkv"; "webm"] f then
      [VideoCodec "libx264"; AudioCodec "aac"]
        ++ (if f =? "webm" then [VideoCodec "libvpx"; AudioCodec "libvorbis"] else [])
    else []))%list.

Definition failure (details : string) : Json :=
  [("error", JStr "Conversion failed"); ("details", JStr details)].

Section WithWorld.
Variable w : World.

Definition uploadsDir : string := Path.join (app_dir w) "uploads".
Definition outputsDir : string := Path.join (app_dir w) "outputs".

(** Where multer stores an upload named [originalname]. *)
Definition storage_path (token originalname : string) : string :=
  Path.join uploadsDir (storage_filename token originalname).

(** [convertImage(inputPath, outputPath, format)]. *)
Definition convertImage (inputPath outputPath format : string) : M unit :=
  log (EvAdapter "convertImage") ;;
  run_tool w (SharpToFile inputPath (Some (image_encoder format)) outputPath).

(** [convertMedia(inputPath, outputPath, format)]. *)
Definition convertMedia (inputPath outputPath format : string) : M unit :=
  log (EvAdapter "convertMedia") ;;
  run_tool w (FfmpegRun inputPath (media_options format) outputPath).

(** [convertDocument(inputPath, outputPath, format)]: the process is spawned
    without a timeout; the promise is settled by its [close] or [error]
    event. *)
Definition convertDocument (inputPath outputPath format : string) : M unit :=
  let outputDir := Path.dirname outputPath in
  let inputName := Path.basename_ext inputPath (Path.extname inputPath) in
  log (EvAdapter "convertDocument") ;;
  r <- spawn w "libreoffice"
         ["--headless"; "--convert-to"; toLowerCase format;
          "--outdir"; outputDir; inputPath] ;;
  match run_end r with
  | Failed => throw (run_msg r)
  | Exited 0 =>
      let generatedFile :=
        Path.join outputDir (inputName ++ "." ++ toLowerCase format) in
      e <- existsSync generatedFile ;;
      if e then in_callback (moveSync generatedFile outputPath)
      else throw "Conversion failed - output file not found"
  | Exited code =>
      throw ("LibreOffice conversion failed with code " ++ of_N code)
  end.

(** The [switch (category)] of the handler. *)
Definition dispatch (category inputPath outputPath outputFormat : string) : M unit :=
  if category =? "image" then convertImage inputPath outputPath outputFormat
  else if (category =? "audio") || (category =? "video")
  then convertMedia inputPath outputPath outputFormat
  else if category =? "document" then convertDocument inputPath outputPath outputFormat
  else throw ("Unsupported file category: " ++ category).

(** The [outputFileName] and [outputPath] the handler computes for a job. *)
Definition output_file_name (originalname outputFormat : string) : string :=
  Path.basename_ext originalname (Path.extname originalname) ++ "." ++ outputFormat.

Definition output_path (originalname outputFormat : string) : string :=
  Path.join outputsDir (output_file_name originalname outputFormat).

(** [app.post('/api/convert', upload.single('file'), ...)]. *)
Definition post_convert (req : Request) : M unit :=
  try_catch
    (match file req with
     | None => res_json 400 [("error", JStr "No file uploaded")]
     | Some f =>
         if missing (outputFormat req)
         then res_json 400 [("error", JStr "Output format not specified")]
         else
           let outputFormat := match outputFormat req with Some s => s | None => "" end in
           let inputPath := path f in
           let category := getFileCategory (originalname f) in
           let outputFileName := output_file_name (originalname f) outputFormat in
           let outputPath := output_path (originalname f) outputFormat in
           try_catch
             (dispatch category inputPath outputPath outputFormat ;;
              e <- existsSync outputPath ;;
              if negb e then throw "Conversion failed - output file not created"
              else
                res_download outputPath outputFileName ;;
                unlink_if_exists inputPath ;;
                unlink_if_exists outputPath)
             (fun msg =>
                unlink_if_exists inputPath ;;
                res_json 500 (failure msg))
     end)
    (fun msg =>
       res_json 500 [("error", JStr "Internal server error"); ("details", JStr msg)]).

End WithWorld.

End Part001.

(* ===================================================================== *)
(** ** Sample environments *)
(* ===================================================================== *)

Module Samples.

(** A run that ends after [ms] milliseconds. *)
Definition ends (ms : N) (e : Ending) (msg : string) (out : list (string * string)) : Run :=
  {| run_time := Some ms; run_end := e; run_msg := msg; run_files := out |}.

(** A run that never ends. *)
Definition hangs : Run :=
  {| run_time := None; run_end := Exited 0; run_msg := ""; run_files := [] |}.

Definition world (b : Invocation -> Fs.t -> Run) : World :=
  {| behaves := b;
     clock_ms := 1700000000000;
     clock_iso := "2024-05-01T10:00:00.000Z";
     uuid := "9b2e4f0a-7c1d-4e8b-a3f6-5d0c1b2a3e4f";
     app_dir := "/app";
     dir_exists := includes ["uploads"; "/app/uploads"; "/app/outputs"; "/app/temp"] |}.

(** No tool is installed: every invocation fails at once. *)
Definition bare : World :=
  world (fun _ _ => ends 3 Failed "not found" []).

(** Only LibreOffice is installed. *)
Definition office_only : World :=
  world (fun inv _ =>
           match inv with
           | Exec c => if c =? "ffmpeg -version" then ends 3 (Exited 127) "ffmpeg: not found" []
                       else ends 40 (Exited 0) "" []
           | _ => ends 3 Failed "not found" []
           end).

(** Every tool starts and none ever finishes. *)
Definition stalled : World := world (fun _ _ => hangs).

(** LibreOffice is found by the probe and then never finishes. *)
Definition stalled_office : World :=
  world (fun inv _ =>
           match inv with
           | Exec c => if String.prefix "which" c then ends 2 (Exited 0) "" [] else hangs
           | _ => hangs
           end).

(** The tools are installed; sharp and ffmpeg write the requested output,
    LibreOffice writes [office_out]. *)
Definition healthy (office_out : list (string * string)) : World :=
  world (fun inv _ =>
           match inv with
           | SharpToFile _ _ o => ends 25 (Exited 0) "" [(o, "image bytes")]
           | FfmpegRun _ _ o => ends 900 (Exited 0) "" [(o, "media bytes")]
           | Exec c => if String.prefix "which" c || String.prefix "ffmpeg -version" c
                          || String.prefix "libreoffice --headless --version" c
                       then ends 2 (Exited 0) "" []
                       else ends 1500 (Exited 0) "" office_out
           | SpawnProc _ _ => ends 1500 (Exited 0) "" office_out
           end).

(** The tools are installed but every conversion fails. *)
Definition failing : World :=
  world (fun inv _ =>
           match inv with
           | Exec c => if String.prefix "which" c then ends 2 (Exited 0) "" []
                       else ends 700 (Exited 1) "Error: source file could not be loaded" []
           | SpawnProc _ _ => ends 700 (Exited 1) "Error: source file could not be loaded" []
           | SharpToFile _ _ _ => ends 5 Failed "Input file contains unsupported image format" []
           | FfmpegRun _ _ _ => ends 60 Failed "ffmpeg exited with code 1: Invalid data found when processing input" []
           end).

(** sharp writes part of the output and then reports an error. *)
Definition truncating : World :=
  world (fun inv _ =>
           match inv with
           | SharpToFile _ _ o => ends 5 Failed "Input buffer has corrupt header" [(o, "partial")]
           | _ => ends 3 Failed "not found" []
           end).

Definition upload (name stored : string) : File :=
  {| originalname := name; path := stored; mimetype := "application/octet-stream" |}.

Definition request (name stored format : string) : Request :=
  {| file := Some (upload name stored); outputFormat := Some format |}.

End Samples.


(* ===================================================================== *)
(** ** Replacement text *)
(* ===================================================================== *)

(** Whether a string is free of dollar signs, the only character that the
    replacement text of [replace] treats specially. *)
Fixpoint no_dollar (s : string) : bool :=
  match s with
  | EmptyString => true
  | String c r => negb (Ascii.eqb c "$"%char) && no_dollar r
  end.

(* ===================================================================== *)
(** ** The static listings *)
(* ===================================================================== *)

Module Listings.

(** [[...new Set(arr)]]: the first occurrence of every element, in order. *)
Fixpoint unique (arr : list string) : list string :=
  match arr with
  | [] => []
  | x :: rest => x :: filter (fun y => negb (String.eqb y x)) (unique rest)
  end.

(** [arr.sort()] with the default comparison, by character codes. *)
Fixpoint insert (x : string) (sorted : list string) : list string :=
  match sorted with
  | [] => [x]
  | y :: rest => if String.leb x y then x :: sorted else y :: insert x rest
  end.

Fixpoint sort (arr : list string) : list string :=
  match arr with
  | [] => []
  | x :: rest => insert x (sort rest)
  end.

(** [Object.values(table).flat()]. *)
Definition flat (table : list (string * list string)) : list string :=
  concat (map snd table).

(** The [formats] field of server.cjs's [GET /api/formats], for a table of
    categories. *)
Definition all_formats (table : list (string * list string)) : list string :=
  sort (unique (flat table)).

(** The body of part_001's [GET /api/formats]. *)
Definition part001_formats : list (string * list string) :=
  [ ("image", ["jpg"; "jpeg"; "png"; "webp"; "gif"; "bmp"; "tiff"; "svg"; "ico"]);
    ("document", ["pdf"; "docx"; "doc"; "txt"; "rtf"; "odt"]);
    ("audio", ["mp3"; "wav"; "flac"; "aac"; "ogg"; "m4a"]);
    ("video", ["mp4"; "avi"; "mov"; "mkv"; "webm"]) ].

(** The order [sort] puts strings in. *)
Definition le (a b : string) : Prop := String.leb a b = true.

(** [app.get('/api/formats', ...)] of server.cjs: the body is built from the
    constant table, no tool is asked. *)
Definition server_formats_body : Json :=
  [ ("success", JBool true);
    ("formats", JArr (all_formats ServerCjs.SUPPORTED_FORMATS));
    ("categories", JObj ServerCjs.SUPPORTED_FORMATS) ].

Definition server_get_formats : M unit := res_json 200 server_formats_body.

End Listings.

(* ===================================================================== *)
(** ** Vocabulary of the further properties *)
(* ===================================================================== *)

(** Whether a string holds ASCII characters only.  On such strings
    [toLowerCase] and [toUpperCase] above are JavaScript's; on other strings
    JavaScript applies the Unicode mappings, which can turn one character
    into several. *)
Definition ascii_only (s : string) : bool :=
  forallb (fun c => (nat_of_ascii c <? 128)%nat) (list_ascii_of_string s).

(** [path.resolve(p)] in the working directory [cwd]. *)
Definition resolve (cwd p : string) : string :=
  match Path.chars p with
  | c :: _ =>
      if Path.is_slash c then Path.normalize p else Path.normalize (cwd ++ "/" ++ p)
  | [] => Path.normalize cwd
  end.

(** The test for a dot file in [send], the module [res.download] hands the
    file to: a path component of more than one character that starts with a
    dot. *)
Definition dotfile (part : list ascii) : bool :=
  match part with
  | c :: _ :: _ => Path.is_dot c
  | [_] | [] => false
  end.

(** A path that [res.download] sends: no component of the resolved path is a
    dot file.  For a dot file [send] answers Not Found, the error goes to the
    callback of [res.download] and no response is written. *)
Definition served (cwd p : string) : bool :=
  negb (existsb dotfile (Path.segments (resolve cwd p))).

(** A download name that reaches the client as it is passed:
    [Content-Disposition] carries the base name of the name. *)
Definition plain_name (name : string) : bool := String.eqb (Path.basename name) name.

(** A character map that leaves dots and separators alone and creates none. *)
Definition keeps_marks (f : ascii -> ascii) : Prop :=
  forall c, Path.is_slash (f c) = Path.is_slash c /\ Path.is_dot (f c) = Path.is_dot c.

(* ===================================================================== *)
(** * Properties *)
(* ===================================================================== *)

(** ** Strings, arrays and the file system *)

Example extname_png : Path.extname "photo.png" = ".png". Proof. reflexivity. Qed.
Example extname_tar_gz : Path.extname "a/b.c/x.tar.gz" = ".gz". Proof. reflexivity. Qed.
Example extname_hidden : Path.extname ".bashrc" = "". Proof. reflexivity. Qed.
Example extname_none : Path.extname "uploads/3f2a" = "". Proof. reflexivity. Qed.
Example extname_trailing_dot : Path.extname "x." = ".". Proof. reflexivity. Qed.
Example extname_dotdot : Path.extname ".." = "". Proof. reflexivity. Qed.
Example extname_dotdotx : Path.extname "..x" = ".x". Proof. reflexivity. Qed.
Example extname_dir : Path.extname "a.b/c" = "". Proof. reflexivity. Qed.
Example parse_name_ex : Path.parse_name "uploads/report.final.docx" = "report.final".
Proof. reflexivity. Qed.
Example dirname_ex : Path.dirname "uploads/3f2a" = "uploads". Proof. reflexivity. Qed.
Example dirname_bare : Path.dirname "3f2a" = ".". Proof. reflexivity. Qed.
Example dirname_root : Path.dirname "/x" = "/". Proof. reflexivity. Qed.
Example dirname_abs : Path.dirname "/app/outputs/x.pdf" = "/app/outputs". Proof. reflexivity. Qed.
Example join_ex : Path.join "/app" "uploads" = "/app/uploads". Proof. reflexivity. Qed.
Example join_dot : Path.join "." "x.pdf" = "x.pdf". Proof. reflexivity. Qed.
Example join_up : Path.join "/app/uploads" "../x" = "/app/x". Proof. reflexivity. Qed.
Example replace_ext : replace "uploads/a.png" ".png" ".webp" = "uploads/a.webp".
Proof. reflexivity. Qed.
Example replace_empty_pattern : replace "uploads/3f2a" "" ".webp" = ".webpuploads/3f2a".
Proof. reflexivity. Qed.
Example lower_ex : toLowerCase "WebP" = "webp". Proof. reflexivity. Qed.
Example of_N_ex : of_N 1700000000000 = "1700000000000". Proof. reflexivity. Qed.
Example served_plain : served "/srv/app" "uploads/3f2a.pdf" = true. Proof. reflexivity. Qed.
Example served_dot_file : served "/srv/app" "/app/outputs/.photo.webp" = false.
Proof. reflexivity. Qed.
Example served_traversal :
  served "/srv/app" (Path.join "/app/uploads" "converted_17_clip.a/../.mp4") = false.
Proof. reflexivity. Qed.
Example plain_name_traversal : plain_name "clip.a/../.mp4" = false. Proof. reflexivity. Qed.
Example ascii_only_ex : ascii_only "Holiday.JPEG" = true. Proof. reflexivity. Qed.


Lemma includes_In (arr : list string) (x : string) :
  includes arr x = true <-> In x arr.
Proof.
  unfold includes. rewrite existsb_exists. split.
  - intros [y [Hy Heq]]. apply String.eqb_eq in Heq. now subst.
  - intros H. exists x. split; [assumption | apply String.eqb_refl].
Qed.

Lemma includes_not_In (arr : list string) (x : string) :
  includes arr x = false <-> ~ In x arr.
Proof.
  rewrite <- includes_In. destruct (includes arr x); split; congruence.
Qed.

Lemma slice1_toLowerCase (s : string) :
  slice1 (toLowerCase s) = toLowerCase (slice1 s).
Proof. destruct s; reflexivity. Qed.

Lemma toLowerCase_empty_inv (s : string) : toLowerCase s = "" -> s = "".
Proof. destruct s; [reflexivity | discriminate]. Qed.

Module FsFacts.

Lemma exists_app p (a b : Fs.t) :
  Fs.existsSync p (a ++ b)%list = Fs.existsSync p a || Fs.existsSync p b.
Proof. unfold Fs.existsSync. apply existsb_app. Qed.

Lemma read_write p c (fs : Fs.t) : Fs.read p (Fs.writeFileSync p c fs) = Some c.
Proof.
  unfold Fs.writeFileSync, Fs.read.
  destruct (Fs.existsSync p fs) eqn:E.
  - induction fs as [|e fs IH]; [discriminate|].
    simpl in E |- *. destruct (Fs.is_path p e) eqn:Ee.
    + simpl. unfold Fs.is_path at 1. simpl. now rewrite String.eqb_refl.
    + simpl in E. simpl. rewrite Ee. now apply IH.
  - induction fs as [|e fs IH].
    + simpl. unfold Fs.is_path. simpl. now rewrite String.eqb_refl.
    + simpl in E |- *. destruct (Fs.is_path p e); [discriminate|].
      simpl in E. now apply IH.
Qed.

Lemma exists_read p (fs : Fs.t) :
  Fs.existsSync p fs = true <-> exists c, Fs.read p fs = Some c.
Proof.
  unfold Fs.existsSync, Fs.read. induction fs as [|e fs IH]; simpl.
  - split; [discriminate | intros [c H]; discriminate].
  - destruct (Fs.is_path p e); simpl.
    + split; [intros _; now exists (snd e) | reflexivity].
    + exact IH.
Qed.

Lemma exists_write p c (fs : Fs.t) : Fs.existsSync p (Fs.writeFileSync p c fs) = true.
Proof. apply exists_read. exists c. apply read_write. Qed.

Lemma exists_unlink_same p (fs : Fs.t) : Fs.existsSync p (Fs.unlinkSync p fs) = false.
Proof.
  unfold Fs.existsSync, Fs.unlinkSync. induction fs as [|e fs IH]; [reflexivity|].
  simpl. destruct (Fs.is_path p e) eqn:E; simpl; [|rewrite E]; exact IH.
Qed.

Lemma exists_unlink_other p q (fs : Fs.t) :
  Fs.existsSync p fs = false -> Fs.existsSync p (Fs.unlinkSync q fs) = false.
Proof.
  unfold Fs.existsSync, Fs.unlinkSync. induction fs as [|e fs IH]; [reflexivity|].
  simpl. intros H. apply orb_false_iff in H as [H1 H2].
  destruct (Fs.is_path q e); simpl; [|rewrite H1]; now apply IH.
Qed.

Lemma unlink_absent p (fs : Fs.t) :
  Fs.existsSync p fs = false -> Fs.unlinkSync p fs = fs.
Proof.
  unfold Fs.existsSync, Fs.unlinkSync. induction fs as [|e fs IH]; [reflexivity|].
  simpl. intros H. apply orb_false_iff in H as [H1 H2].
  rewrite H1. simpl. now rewrite IH.
Qed.

End FsFacts.

(** ** Running the effect monad *)

Lemma unlink_if_exists_run (p : string) (st : St) :
  unlink_if_exists p st = (Ret tt, with_files (Fs.unlinkSync p (files st)) st).
Proof.
  unfold unlink_if_exists, bind, existsSync, unlinkSync, update_fs, ret.
  destruct (Fs.existsSync p (files st)) eqn:E; [reflexivity |].
  rewrite FsFacts.unlink_absent by assumption. now destruct st.
Qed.


Lemma invocations_app (a b : list Event) :
  invocations (a ++ b) = (invocations a ++ invocations b)%list.
Proof.
  induction a as [|[n | i t | r] a IH]; simpl; [reflexivity | | |]; now rewrite ?IH.
Qed.

(** Evaluates a monadic computation, splitting on every verdict of a tool and
    on every test it meets. *)
Ltac crunch :=
  repeat first
    [ progress unfold bind, try_catch, attempt, in_callback, ret, throw, halt, log,
        existsSync, readdirSync, writeFileSync, unlink_if_exists, unlinkSync, update_fs,
        res_json, res_download, exec, run_tool, spawn
    | progress cbn [files trace elapsed initial fst snd negb push with_files after_run]
    | match goal with
      | |- context [match verdict ?r ?t with _ => _ end] => destruct (verdict r t) eqn:?
      | |- context [if ?b then _ else _] => destruct b eqn:?
      end ].

(** ** C6: classification by extension *)

Module Classification.

Lemma server_sets_disjoint :
  NoDup (concat (map snd ServerCjs.extension_sets)).
Proof.
  apply (NoDup_count_occ' string_dec). intros x Hx.
  cbv [ServerCjs.extension_sets ServerCjs.imageExts ServerCjs.docExts
       ServerCjs.audioExts ServerCjs.videoExts map snd concat app] in Hx |- *.
  repeat (destruct Hx as [<- | Hx]; [vm_compute; reflexivity |]).
  destruct Hx.
Qed.

Lemma part001_sets_disjoint :
  NoDup (concat (map snd Part001.categories)).
Proof.
  apply (NoDup_count_occ' string_dec). intros x Hx.
  cbv [Part001.categories map snd concat app] in Hx |- *.
  repeat (destruct Hx as [<- | Hx]; [vm_compute; reflexivity |]).
  destruct Hx.
Qed.

(** In server.cjs an extension listed in one of the four arrays gets that
    array's category, whatever the order of the tests. *)
Lemma server_category_of_member (cat : string) (exts : list string) (ext : string) :
  In (cat, exts) ServerCjs.extension_sets -> In ext exts ->
  ServerCjs.category_of ext = cat.
Proof.
  intros Hset Hext.
  cbv [ServerCjs.extension_sets] in Hset.
  repeat (destruct Hset as [Hset | Hset];
          [injection Hset as <- <-;
           cbv [ServerCjs.imageExts ServerCjs.docExts ServerCjs.audioExts
                ServerCjs.videoExts] in Hext;
           repeat (destruct Hext as [<- | Hext]; [reflexivity |]);
           destruct Hext |]).
  destruct Hset.
Qed.

Lemma part001_category_of_member (cat : string) (exts : list string) (ext : string) :
  In (cat, exts) Part001.categories -> In ext exts ->
  Part001.category_of ext = cat.
Proof.
  intros Hset Hext.
  cbv [Part001.categories] in Hset.
  repeat (destruct Hset as [Hset | Hset];
          [injection Hset as <- <-;
           repeat (destruct Hext as [<- | Hext]; [reflexivity |]);
           destruct Hext |]).
  destruct Hset.
Qed.

Lemma server_category_of_unknown (ext : string) :
  (forall cat exts, In (cat, exts) ServerCjs.extension_sets -> ~ In ext exts) ->
  ServerCjs.category_of ext = "documents".
Proof.
  intros H. unfold ServerCjs.category_of.
  assert (Hn : forall cat exts, In (cat, exts) ServerCjs.extension_sets ->
                                includes exts ext = false).
  { intros cat exts Hin. apply includes_not_In. eauto. }
  rewrite (Hn "images" ServerCjs.imageExts) by (simpl; auto).
  rewrite (Hn "documents" ServerCjs.docExts) by (simpl; auto).
  rewrite (Hn "audio" ServerCjs.audioExts) by (simpl; auto).
  rewrite (Hn "video" ServerCjs.videoExts) by (simpl; auto).
  reflexivity.
Qed.

Lemma part001_first_category_none (entries : list (string * list string)) (ext : string) :
  (forall cat exts, In (cat, exts) entries -> ~ In ext exts) ->
  Part001.first_category entries ext = None.
Proof.
  induction entries as [|[cat exts] rest IH]; intros H; [reflexivity|].
  simpl. rewrite (proj2 (includes_not_In exts ext)).
  - apply IH. intros c e Hin. apply (H c). now right.
  - apply (H cat). now left.
Qed.

Lemma part001_category_of_unknown (ext : string) :
  (forall cat exts, In (cat, exts) Part001.categories -> ~ In ext exts) ->
  Part001.category_of ext = "document".
Proof.
  intros H. unfold Part001.category_of.
  now rewrite part001_first_category_none.
Qed.

Lemma no_extension_unknown (sets : list (string * list string)) :
  forallb (fun row => negb (includes (snd row) "")) sets = true ->
  forall cat exts, In (cat, exts) sets -> ~ In "" exts.
Proof.
  intros H cat exts Hin. rewrite forallb_forall in H.
  specialize (H _ Hin). simpl in H.
  apply includes_not_In. now destruct (includes exts "").
Qed.

End Classification.

(** Closes [In (cat, exts) sets -> ~ In ext exts] for a literal extension and
    a literal table. *)
Ltac not_in_any_set :=
  let cat := fresh "cat" in
  let exts := fresh "exts" in
  let Hset := fresh "Hset" in
  let Hext := fresh "Hext" in
  intros cat exts Hset Hext; vm_compute in Hset;
  repeat (destruct Hset as [Hset | Hset];
          [injection Hset as <- <-; vm_compute in Hext;
           repeat (destruct Hext as [Hext | Hext]; [discriminate Hext |]);
           exact Hext |]);
  exact Hset.

(** C6. For every file name, both [getFileCategory] functions (server.cjs and
    part_001) classify by the lower-cased extension without its dot; the four
    extension arrays are pairwise disjoint, an extension found in one of them
    gets that array's category, and an extension found in none of them --
    in particular the empty extension of a name without one -- is classified
    as a document. *)
Theorem C6_unknown_extension_is_document (fileName : string) :
  let ext := toLowerCase (slice1 (Path.extname fileName)) in
  ServerCjs.file_ext fileName = ext /\
  Part001.file_ext fileName = ext /\
  (length ServerCjs.extension_sets = 4 /\
   NoDup (concat (map snd ServerCjs.extension_sets))) /\
  (length Part001.categories = 4 /\
   NoDup (concat (map snd Part001.categories))) /\
  (forall cat exts,
      In (cat, exts) ServerCjs.extension_sets -> In ext exts ->
      ServerCjs.getFileCategory fileName = cat) /\
  (forall cat exts,
      In (cat, exts) Part001.categories -> In ext exts ->
      Part001.getFileCategory fileName = cat) /\
  ((forall cat exts, In (cat, exts) ServerCjs.extension_sets -> ~ In ext exts) ->
   ServerCjs.getFileCategory fileName = "documents") /\
  ((forall cat exts, In (cat, exts) Part001.categories -> ~ In ext exts) ->
   Part001.getFileCategory fileName = "document") /\
  (Path.extname fileName = "" ->
   ServerCjs.getFileCategory fileName = "documents" /\
   Part001.getFileCategory fileName = "document").
Proof.
  intros ext.
  assert (E1 : ServerCjs.file_ext fileName = ext) by reflexivity.
  assert (E2 : Part001.file_ext fileName = ext)
    by (unfold Part001.file_ext; apply slice1_toLowerCase).
  unfold ServerCjs.getFileCategory, Part001.getFileCategory. rewrite E1, E2.
  split; [reflexivity |]. split; [reflexivity |].
  split; [split; [reflexivity | apply Classification.server_sets_disjoint] |].
  split; [split; [reflexivity | apply Classification.part001_sets_disjoint] |].
  split; [intros cat exts; apply Classification.server_category_of_member |].
  split; [intros cat exts; apply Classification.part001_category_of_member |].
  split; [apply Classification.server_category_of_unknown |].
  split; [apply Classification.part001_category_of_unknown |].
  intros Hnone. subst ext. rewrite Hnone. split; reflexivity.
Qed.

Lemma C6_unknown_extension_is_document_witness :
  ServerCjs.getFileCategory "archive.zip" = "documents" /\
  Part001.getFileCategory "archive.zip" = "document" /\
  ServerCjs.getFileCategory "Makefile" = "documents" /\
  Part001.getFileCategory "Makefile" = "document" /\
  ServerCjs.getFileCategory "Clip.MOV" = "video" /\
  Part001.getFileCategory "Clip.MOV" = "video".
Proof.
  destruct (C6_unknown_extension_is_document "archive.zip")
    as (_ & _ & _ & _ & _ & _ & Hs & Hp & _).
  destruct (C6_unknown_extension_is_document "Makefile")
    as (_ & _ & _ & _ & _ & _ & _ & _ & Hnone).
  destruct (C6_unknown_extension_is_document "Clip.MOV")
    as (_ & _ & _ & _ & Hms & Hmp & _).
  split; [apply Hs; not_in_any_set |].
  split; [apply Hp; not_in_any_set |].
  split; [apply Hnone; reflexivity |].
  split; [apply Hnone; reflexivity |].
  split.
  - apply (Hms "video" ServerCjs.videoExts); vm_compute; tauto.
  - apply (Hmp "video" ["mp4"; "avi"; "mov"; "mkv"; "wmv"; "flv"; "webm"]);
      vm_compute; tauto.
Defined.

(** ** part_000: what probing finds *)

Module Probing.

Lemma exec_ended (w : World) (command : string) (st : St) :
  run_time (behaves w (Exec command) (files st)) <> None ->
  exec w command None st =
    (if run_ok (behaves w (Exec command) (files st)) then Ret tt
     else Throw (command_failed command (run_msg (behaves w (Exec command) (files st)))),
     after_run w (Exec command) None st).
Proof.
  intros Hd. unfold exec, verdict, ended.
  destruct (run_time _); [| now elim Hd].
  now destruct (run_ok _).
Qed.

(** Without a timeout, a command that never ends keeps [exec] pending. *)
Lemma exec_stalled (w : World) (command : string) (st : St) :
  run_time (behaves w (Exec command) (files st)) = None ->
  exec w command None st = (Halt NeverSettles, after_run w (Exec command) None st).
Proof. intros Hd. unfold exec, verdict. now rewrite Hd. Qed.

(** The flags [checkCapabilities] returns once its probes have ended. *)
Lemma flags (w : World) (st : St) :
  let ff := Exec "ffmpeg -version" in
  let lo := Exec "libreoffice --headless --version" in
  let so := Exec "soffice --headless --version" in
  let s1 := after_run w ff None st in
  let s2 := after_run w lo None s1 in
  let s3 := after_run w so None s2 in
  run_time (behaves w ff (files st)) <> None ->
  run_time (behaves w lo (files s1)) <> None ->
  (run_ok (behaves w lo (files s1)) = false -> run_time (behaves w so (files s2)) <> None) ->
  Part000.checkCapabilities w st =
    (Ret {| Part000.sharp := true;
            Part000.ffmpeg := run_ok (behaves w ff (files st));
            Part000.libreoffice :=
              run_ok (behaves w lo (files s1)) || run_ok (behaves w so (files s2)) |},
     if run_ok (behaves w lo (files s1)) then s2 else s3).
Proof.
  intros ff lo so s1 s2 s3 Hff Hlo Hso.
  assert (Hoffice :
    try_catch (exec w "libreoffice --headless --version" None)
      (fun _ => exec w "soffice --headless --version" None) s1
    = (if run_ok (behaves w lo (files s1)) || run_ok (behaves w so (files s2))
       then Ret tt
       else Throw (command_failed "soffice --headless --version"
                     (run_msg (behaves w so (files s2)))),
       if run_ok (behaves w lo (files s1)) then s2 else s3)).
  { unfold try_catch.
    rewrite (exec_ended w "libreoffice --headless --version" s1 Hlo). fold lo. fold s2.
    destruct (run_ok (behaves w lo (files s1))) eqn:Elo; [reflexivity |].
    now rewrite (exec_ended w "soffice --headless --version" s2 (Hso eq_refl)). }
  unfold Part000.checkCapabilities, bind, attempt.
  rewrite (exec_ended w "ffmpeg -version" st Hff). fold ff. fold s1.
  destruct (run_ok (behaves w ff (files st)));
    rewrite Hoffice;
    destruct (run_ok (behaves w lo (files s1)) || run_ok (behaves w so (files s2)));
    reflexivity.
Qed.

(** A first probe that never ends keeps [checkCapabilities] pending. *)
Lemma stalled (w : World) (st : St) :
  run_time (behaves w (Exec "ffmpeg -version") (files st)) = None ->
  Part000.checkCapabilities w st
    = (Halt NeverSettles, after_run w (Exec "ffmpeg -version") None st).
Proof.
  intros Hd. unfold Part000.checkCapabilities, bind, attempt.
  now rewrite (exec_stalled w "ffmpeg -version" st Hd).
Qed.

End Probing.

(** ** C7 and C10: the listings of formats *)

Module Formats.
Import Part000.

(** Probing never reports the image backend as missing. *)
Lemma probed_sharp (w : World) (st st' : St) (capabilities : Capabilities) :
  checkCapabilities w st = (Ret capabilities, st') -> sharp capabilities = true.
Proof.
  unfold checkCapabilities, bind. intros H.
  destruct (attempt (exec w "ffmpeg -version" None) st) as [[ff | msg | why] st1];
    try discriminate.
  destruct (attempt _ st1) as [[lo | msg | why] st2]; try discriminate.
  unfold ret in H. injection H as <- _. reflexivity.
Qed.

Lemma get_formats_after_probe (w : World) (st st' : St) (capabilities : Capabilities)
    (inputFormat : string) :
  checkCapabilities w st = (Ret capabilities, st') ->
  get_formats w inputFormat st =
    (Ret tt, push (EvSend (Reply 200 (formats_body (supportedFormats capabilities inputFormat)))) st').
Proof.
  intros H. unfold get_formats, bind. rewrite H. reflexivity.
Qed.

(** The source formats the convert handler knows, with their backend. *)
Lemma backend_of_cases (ext : string) (b : Backend) :
  backend_of ext = Some b ->
  (b = Sharp /\ In ext image_formats) \/
  (b = Ffmpeg /\ In ext media_formats) \/
  (b = LibreOffice /\ In ext document_formats).
Proof.
  unfold backend_of.
  destruct (includes image_formats ext) eqn:E1;
    [intros [= <-]; left; split; [reflexivity | now apply includes_In] |].
  destruct (includes media_formats ext) eqn:E2;
    [intros [= <-]; right; left; split; [reflexivity | now apply includes_In] |].
  destruct (includes document_formats ext) eqn:E3;
    [intros [= <-]; right; right; split; [reflexivity | now apply includes_In] |].
  discriminate.
Qed.

(** For a known source format the listing is the static list when the gate of
    its own backend is open and the empty array when it is closed. *)
Lemma targets_by_backend (ext : string) (b : Backend) :
  backend_of ext = Some b ->
  static_targets ext <> [] /\
  forall c : Capabilities,
    or_empty (get (formatMap c) ext) = VArray (if gate c b then static_targets ext else []).
Proof.
  intros Hb. apply backend_of_cases in Hb as [[-> Hin] | [[-> Hin] | [-> Hin]]].
  - cbv [image_formats] in Hin.
    repeat (destruct Hin as [<- | Hin];
            [split; [vm_compute; discriminate | intros [s f l]; reflexivity] |]).
    destruct Hin.
  - cbv [media_formats] in Hin.
    repeat (destruct Hin as [<- | Hin];
            [split; [vm_compute; discriminate | intros [s [] l]; reflexivity] |]).
    destruct Hin.
  - cbv [document_formats] in Hin.
    repeat (destruct Hin as [<- | Hin];
            [split; [vm_compute; discriminate | intros [s f []]; reflexivity] |]).
    destruct Hin.
Qed.

Lemma gate_probed (w : World) (st st' : St) (c : Capabilities) (b : Backend) :
  checkCapabilities w st = (Ret c, st') -> gate c b = available c b.
Proof.
  intros H. destruct b; try reflexivity.
  simpl. symmetry. eapply probed_sharp; eassumption.
Qed.

(** A key that is neither a row of [formatMap] nor inherited from
    [Object.prototype] is answered with the empty list. *)
Lemma unknown_key_empty_list (c : Capabilities) (inputFormat : string) :
  own_property (formatMap c) (toLowerCase inputFormat) = None ->
  object_prototype (toLowerCase inputFormat) = VUndefined ->
  formats_body (supportedFormats c inputFormat) = [("formats", JArr [])].
Proof.
  intros Hown Hproto. unfold supportedFormats, get. now rewrite Hown, Hproto.
Qed.

End Formats.

(** The claim fails on server.cjs: in a world where nothing is installed --
    the probe [which ffmpeg] of its capabilities endpoint fails --
    GET /api/formats starts no probe and still lists every audio and video
    format. *)
Lemma C7_counterexample :
  (exists msg, fst (exec Samples.bare "which ffmpeg" None (initial [])) = Throw msg) /\
  Listings.server_get_formats (initial [])
    = (Ret tt,
       {| files := [];
          trace := [EvSend (Reply 200
                      [ ("success", JBool true);
                        ("formats",
                         JArr ["AAC"; "AVI"; "BMP"; "DOC"; "DOCX"; "FLAC"; "GIF"; "HTML";
                               "JPEG"; "JPG"; "M4A"; "MKV"; "MOV"; "MP3"; "MP4"; "ODT";
                               "OGG"; "PDF"; "PNG"; "RTF"; "TIFF"; "TXT"; "WAV"; "WEBM";
                               "WEBP"; "WMV"]);
                        ("categories",
                         JObj [ ("images", ["PNG"; "JPG"; "JPEG"; "WEBP"; "GIF"; "BMP"; "TIFF"]);
                                ("documents",
                                 ["PDF"; "DOCX"; "DOC"; "TXT"; "RTF"; "HTML"; "ODT"]);
                                ("audio", ["MP3"; "WAV"; "FLAC"; "AAC"; "OGG"; "M4A"]);
                                ("video", ["MP4"; "AVI"; "MOV"; "MKV"; "WEBM"; "WMV"]) ]) ])];
          elapsed := 0 |}).
Proof. split; [eexists; reflexivity | reflexivity]. Qed.

(** C7 (amended). Only part_000 gates its listing.  There, for every source
    format that the convert handler routes to a backend, once the probes of
    [checkCapabilities] have ended: when the probe of that backend failed,
    GET /api/formats/:inputFormat answers 200 with the empty list; when it
    succeeded, the answer is the format's static, non-empty target list, the
    same whatever the other backends' flags are.  The probes run without a
    timeout: while [ffmpeg -version] does not end, the request is not
    answered.  In server.cjs GET /api/formats asks no tool: in every state it
    answers with the same body, in which every category of
    [SUPPORTED_FORMATS] is listed in full. *)
Theorem C7_targets_gated_in_part000_only
    (w : World) (st : St) (inputFormat : string) (b : Part000.Backend) :
  let ff := Exec "ffmpeg -version" in
  let lo := Exec "libreoffice --headless --version" in
  let so := Exec "soffice --headless --version" in
  let s1 := after_run w ff None st in
  let s2 := after_run w lo None s1 in
  let s3 := after_run w so None s2 in
  let probed :=
    {| Part000.sharp := true;
       Part000.ffmpeg := run_ok (behaves w ff (files st));
       Part000.libreoffice :=
         run_ok (behaves w lo (files s1)) || run_ok (behaves w so (files s2)) |} in
  let st' := if run_ok (behaves w lo (files s1)) then s2 else s3 in
  Part000.backend_of (toLowerCase inputFormat) = Some b ->
  (run_time (behaves w ff (files st)) <> None ->
   run_time (behaves w lo (files s1)) <> None ->
   (run_ok (behaves w lo (files s1)) = false ->
    run_time (behaves w so (files s2)) <> None) ->
   (Part000.available probed b = false ->
    Part000.get_formats w inputFormat st =
      (Ret tt, push (EvSend (Reply 200 [("formats", JArr [])])) st')) /\
   (Part000.available probed b = true ->
    exists items,
      items <> [] /\
      Part000.get_formats w inputFormat st =
        (Ret tt, push (EvSend (Reply 200 [("formats", JArr items)])) st') /\
      forall other : Part000.Capabilities,
        Part000.sharp other = true -> Part000.available other b = true ->
        Part000.supportedFormats other inputFormat = Part000.VArray items)) /\
  (run_time (behaves w ff (files st)) = None ->
   Part000.get_formats w inputFormat st = (Halt NeverSettles, s1)) /\
  (forall st0 : St,
     Listings.server_get_formats st0
     = (Ret tt,
        push (EvSend (Reply 200
                [ ("success", JBool true);
                  ("formats", JArr (Listings.all_formats ServerCjs.SUPPORTED_FORMATS));
                  ("categories", JObj ServerCjs.SUPPORTED_FORMATS) ])) st0)) /\
  (forall category formats,
     In (category, formats) ServerCjs.SUPPORTED_FORMATS ->
     formats <> [] /\
     forall x, In x formats -> In x (Listings.all_formats ServerCjs.SUPPORTED_FORMATS)).
Proof.
  intros ff lo so s1 s2 s3 probed st' Hb.
  destruct (Formats.targets_by_backend _ _ Hb) as [Hne Hall].
  split; [| split; [| split]].
  - intros Hff Hlo Hso.
    pose proof (Probing.flags w st Hff Hlo Hso) as Hprobe.
    fold ff lo so s1 s2 s3 in Hprobe. fold probed st' in Hprobe.
    pose proof (Formats.gate_probed w st st' probed b Hprobe) as Hgate.
    rewrite (Formats.get_formats_after_probe w st st' probed inputFormat Hprobe).
    unfold Part000.supportedFormats. split; intros Hav.
    + now rewrite Hall, Hgate, Hav.
    + exists (Part000.static_targets (toLowerCase inputFormat)).
      split; [exact Hne |]. split.
      * now rewrite Hall, Hgate, Hav.
      * intros other Hsharp Hother. rewrite Hall.
        replace (Part000.gate other b) with true; [reflexivity |].
        destruct b; simpl in *; congruence.
  - intros Hff. unfold Part000.get_formats, bind.
    now rewrite (Probing.stalled w st Hff).
  - reflexivity.
  - intros category formats Hrow.
    cbv [ServerCjs.SUPPORTED_FORMATS In] in Hrow.
    repeat (destruct Hrow as [Hrow | Hrow];
            [injection Hrow as <- <-; split; [discriminate |];
             intros x Hx; cbv [In] in Hx;
             repeat (destruct Hx as [<- | Hx]; [vm_compute; tauto |]);
             destruct Hx |]).
    destruct Hrow.
Qed.

Lemma C7_targets_gated_in_part000_only_witness :
  Part000.get_formats Samples.office_only "MP4" (initial []) =
    (Ret tt,
     push (EvSend (Reply 200 [("formats", JArr [])]))
       (snd (Part000.checkCapabilities Samples.office_only (initial [])))) /\
  responses (trace (snd (Part000.get_formats Samples.office_only "docx" (initial []))))
    = [Reply 200 [("formats", JArr ["pdf"; "doc"; "odt"; "txt"; "rtf"])]] /\
  fst (Part000.get_formats Samples.stalled "docx" (initial [])) = Halt NeverSettles.
Proof.
  split; [| split].
  - destruct (C7_targets_gated_in_part000_only Samples.office_only (initial []) "MP4"
                Part000.Ffmpeg eq_refl) as (Hgated & _).
    destruct Hgated as [Hoff _]; [discriminate | discriminate | discriminate |].
    rewrite (Hoff eq_refl). reflexivity.
  - destruct (C7_targets_gated_in_part000_only Samples.office_only (initial []) "docx"
                Part000.LibreOffice eq_refl) as (Hgated & _).
    destruct Hgated as [_ Hon]; [discriminate | discriminate | discriminate |].
    destruct (Hon eq_refl) as (items & _ & Hrun & Hother).
    specialize (Hother Part000.all_available eq_refl eq_refl).
    vm_compute in Hother. injection Hother as <-.
    rewrite Hrun. reflexivity.
  - destruct (C7_targets_gated_in_part000_only Samples.stalled (initial []) "docx"
                Part000.LibreOffice eq_refl) as (_ & Hstalled & _).
    rewrite (Hstalled eq_refl). reflexivity.
Defined.

(** C10. In part_000 the fallback [|| []] of GET /api/formats/:inputFormat is
    reached only when the property read gives [undefined]: for a string that
    is no row of [formatMap] and names nothing inherited from
    [Object.prototype] the answer is 200 with the empty list, but for
    [constructor] the answer is 200 with a body that has no [formats] field,
    and for [__proto__] it is 200 with an empty object in place of the
    list. *)
Theorem C10_inherited_key_is_not_an_empty_list
    (w : World) (st st' : St) (capabilities : Part000.Capabilities) :
  Part000.checkCapabilities w st = (Ret capabilities, st') ->
  Part000.own_property (Part000.formatMap capabilities) "constructor" = None /\
  Part000.get_formats w "constructor" st =
    (Ret tt, push (EvSend (Reply 200 [])) st') /\
  Part000.own_property (Part000.formatMap capabilities) "__proto__" = None /\
  Part000.get_formats w "__proto__" st =
    (Ret tt, push (EvSend (Reply 200 [("formats", JEmptyObj)])) st') /\
  (forall inputFormat,
      Part000.own_property (Part000.formatMap capabilities) (toLowerCase inputFormat) = None ->
      Part000.object_prototype (toLowerCase inputFormat) = Part000.VUndefined ->
      Part000.get_formats w inputFormat st =
        (Ret tt, push (EvSend (Reply 200 [("formats", JArr [])])) st')).
Proof.
  intros Hprobe.
  split; [reflexivity |].
  split; [now rewrite (Formats.get_formats_after_probe w st st' capabilities) |].
  split; [reflexivity |].
  split; [now rewrite (Formats.get_formats_after_probe w st st' capabilities) |].
  intros inputFormat Hown Hproto.
  rewrite (Formats.get_formats_after_probe w st st' capabilities) by assumption.
  now rewrite Formats.unknown_key_empty_list.
Qed.

Lemma C10_inherited_key_is_not_an_empty_list_witness :
  responses (trace (snd (Part000.get_formats Samples.bare "constructor" (initial []))))
    = [Reply 200 []] /\
  responses (trace (snd (Part000.get_formats Samples.bare "heic" (initial []))))
    = [Reply 200 [("formats", JArr [])]].
Proof.
  destruct (C10_inherited_key_is_not_an_empty_list
              Samples.bare (initial []) _ _ eq_refl)
    as (_ & Hctor & _ & _ & Hother).
  split.
  - rewrite Hctor. reflexivity.
  - rewrite (Hother "heic" eq_refl eq_refl). reflexivity.
Defined.

(** ** C8: a target without a case of its own in the image switch *)

Module ImageDefault.

Lemma part001_default_encoder (format : string) :
  includes Part001.image_cases (toLowerCase format) = false ->
  Part001.image_encoder format = EncPng.
Proof.
  unfold Part001.image_encoder, Part001.image_cases, includes. simpl.
  intros H. repeat (apply orb_false_iff in H as [? H]).
  repeat match goal with E : (_ =? _) = false |- _ => rewrite E; clear E end.
  reflexivity.
Qed.

End ImageDefault.

(** The claim fails on server.cjs: its image switch has no case for [svg], and
    [ImageConverter.convert] raises the unsupported-format error without
    running any encoder. *)
Lemma C8_counterexample :
  ServerCjs.image_encoder "svg" = None /\
  ServerCjs.ImageConverter_convert (Samples.healthy []) "uploads/3f2a.png" "svg"
      (initial [("uploads/3f2a.png", "png bytes")])
    = (Throw "Unsupported image format: svg",
       push (EvAdapter "ImageConverter") (initial [("uploads/3f2a.png", "png bytes")])).
Proof. split; reflexivity. Qed.

(** C8 (amended). In part_001, for every target format without a case of its
    own in the switch of [convertImage], the adapter hands the image to the
    default PNG encoder, writing to the output path the handler chose, and
    fails only if that encoder fails.  In server.cjs, for every target format
    without a case in the switch of [ImageConverter.convert], the adapter
    raises [Unsupported image format] and no encoder runs. *)
Theorem C8_default_case_by_variant
    (w : World) (inputPath outputPath format : string) (st : St) :
  (includes Part001.image_cases (toLowerCase format) = false ->
   Part001.convertImage w inputPath outputPath format st =
     run_tool w (SharpToFile inputPath (Some EncPng) outputPath)
       (push (EvAdapter "convertImage") st)) /\
  (ServerCjs.image_encoder format = None ->
   ServerCjs.ImageConverter_convert w inputPath format st =
     (Throw ("Unsupported image format: " ++ format),
      push (EvAdapter "ImageConverter") st)).
Proof.
  split; intros H.
  - unfold Part001.convertImage, bind, log.
    now rewrite ImageDefault.part001_default_encoder.
  - unfold ServerCjs.ImageConverter_convert, bind, log. now rewrite H.
Qed.

Lemma C8_default_case_by_variant_witness :
  Part001.convertImage (Samples.healthy []) "/app/uploads/u-photo.png"
      "/app/outputs/photo.svg" "svg" (initial [])
    = (Ret tt,
       {| files := [("/app/outputs/photo.svg", "image bytes")];
          trace := [EvAdapter "convertImage";
                    EvRun (SharpToFile "/app/uploads/u-photo.png" (Some EncPng)
                             "/app/outputs/photo.svg") None];
          elapsed := 25 |}) /\
  fst (ServerCjs.ImageConverter_convert (Samples.healthy []) "uploads/3f2a" "svg" (initial []))
    = Throw "Unsupported image format: svg".
Proof.
  destruct (C8_default_case_by_variant (Samples.healthy []) "/app/uploads/u-photo.png"
              "/app/outputs/photo.svg" "svg" (initial [])) as [Hp _].
  destruct (C8_default_case_by_variant (Samples.healthy []) "uploads/3f2a"
              "" "svg" (initial [])) as [_ Hs].
  split.
  - rewrite (Hp eq_refl). reflexivity.
  - rewrite (Hs eq_refl). reflexivity.
Defined.

(** ** C9: scratch paths of two jobs *)

Module Scratch.

Lemma append_same_length_inj (a b x y : string) :
  String.length a = String.length b -> a ++ x = b ++ y -> a = b.
Proof.
  revert b. induction a as [|c a IH]; intros [|d b] Hlen Heq; try discriminate.
  - reflexivity.
  - simpl in Hlen, Heq. injection Hlen as Hlen. injection Heq as -> Heq.
    f_equal. now apply IH.
Qed.

(** Uploads stored under tokens of equal length that differ get different
    file names, whatever the original names are. *)
Lemma storage_filename_distinct (t1 t2 n1 n2 : string) :
  String.length t1 = String.length t2 -> t1 <> t2 ->
  Part001.storage_filename t1 n1 <> Part001.storage_filename t2 n2.
Proof.
  unfold Part001.storage_filename. intros Hlen Hne Heq.
  apply Hne. eapply append_same_length_inj; eassumption.
Qed.

End Scratch.


(** What part_001's handler asks of sharp for an image job: the stored upload
    in, the planned output path out. *)
Lemma part001_image_job_invocations (w : World) (f : File) (format : string) (fs : Fs.t) :
  format <> "" ->
  Part001.getFileCategory (originalname f) = "image" ->
  invocations
    (trace (snd (Part001.post_convert w
                   {| file := Some f; outputFormat := Some format |} (initial fs))))
  = [(SharpToFile (path f) (Some (Part001.image_encoder format))
        (Part001.output_path w (originalname f) format), None)].
Proof.
  intros Hf Hc.
  unfold Part001.post_convert. cbn [file outputFormat missing].
  apply String.eqb_neq in Hf. rewrite Hf, Hc.
  unfold Part001.dispatch. cbn [String.eqb Ascii.eqb Bool.eqb].
  unfold Part001.convertImage. crunch; reflexivity.
Qed.

(** C9 (the code at the failing input). In part_001 two image jobs that
    upload a file of the same name and ask for the same target format are
    stored under different names when their tokens differ, but both have
    their output written to one and the same path: the output path is
    computed from the original name and the format alone. *)
Theorem C9_output_path_shared_between_jobs
    (w : World) (token1 token2 name format mime : string) (fs1 fs2 : Fs.t) :
  String.length token1 = String.length token2 -> token1 <> token2 ->
  format <> "" -> Part001.getFileCategory name = "image" ->
  let job token :=
    {| file := Some {| originalname := name;
                       path := Part001.storage_path w token name;
                       mimetype := mime |};
       outputFormat := Some format |} in
  Part001.storage_filename token1 name <> Part001.storage_filename token2 name /\
  invocations (trace (snd (Part001.post_convert w (job token1) (initial fs1))))
    = [(SharpToFile (Part001.storage_path w token1 name)
          (Some (Part001.image_encoder format))
          (Part001.output_path w name format), None)] /\
  invocations (trace (snd (Part001.post_convert w (job token2) (initial fs2))))
    = [(SharpToFile (Part001.storage_path w token2 name)
          (Some (Part001.image_encoder format))
          (Part001.output_path w name format), None)].
Proof.
  intros Hlen Hne Hf Hc job.
  split; [now apply Scratch.storage_filename_distinct |].
  split; apply (part001_image_job_invocations w); assumption.
Qed.

Lemma C9_output_path_shared_between_jobs_witness :
  Part001.storage_path (Samples.healthy []) "1b9d6bcd-bbfd-4b2d-9b5d-ab8dfbbd4bed" "photo.png"
    = "/app/uploads/1b9d6bcd-bbfd-4b2d-9b5d-ab8dfbbd4bed-photo.png" /\
  Part001.storage_path (Samples.healthy []) "6ec0bd7f-11c0-43da-975e-2a8ad9ebae0b" "photo.png"
    = "/app/uploads/6ec0bd7f-11c0-43da-975e-2a8ad9ebae0b-photo.png" /\
  Part001.output_path (Samples.healthy []) "photo.png" "webp" = "/app/outputs/photo.webp" /\
  map (fun i => match fst i with SharpToFile _ _ o => o | _ => "" end)
      (invocations (trace (snd (Part001.post_convert (Samples.healthy [])
         (Samples.request "photo.png"
            "/app/uploads/1b9d6bcd-bbfd-4b2d-9b5d-ab8dfbbd4bed-photo.png" "webp")
         (initial []))))) = ["/app/outputs/photo.webp"] /\
  map (fun i => match fst i with SharpToFile _ _ o => o | _ => "" end)
      (invocations (trace (snd (Part001.post_convert (Samples.healthy [])
         (Samples.request "photo.png"
            "/app/uploads/6ec0bd7f-11c0-43da-975e-2a8ad9ebae0b-photo.png" "webp")
         (initial []))))) = ["/app/outputs/photo.webp"].
Proof.
  destruct (C9_output_path_shared_between_jobs (Samples.healthy [])
              "1b9d6bcd-bbfd-4b2d-9b5d-ab8dfbbd4bed"
              "6ec0bd7f-11c0-43da-975e-2a8ad9ebae0b"
              "photo.png" "webp" "application/octet-stream" [] [])
    as (_ & H1 & H2);
    [reflexivity | discriminate | discriminate | reflexivity |].
  split; [reflexivity |]. split; [reflexivity |]. split; [reflexivity |].
  split.
  - change (Samples.request "photo.png"
              "/app/uploads/1b9d6bcd-bbfd-4b2d-9b5d-ab8dfbbd4bed-photo.png" "webp")
      with {| file := Some {| originalname := "photo.png";
                              path := Part001.storage_path (Samples.healthy [])
                                        "1b9d6bcd-bbfd-4b2d-9b5d-ab8dfbbd4bed" "photo.png";
                              mimetype := "application/octet-stream" |};
              outputFormat := Some "webp" |}.
    rewrite H1. reflexivity.
  - change (Samples.request "photo.png"
              "/app/uploads/6ec0bd7f-11c0-43da-975e-2a8ad9ebae0b-photo.png" "webp")
      with {| file := Some {| originalname := "photo.png";
                              path := Part001.storage_path (Samples.healthy [])
                                        "6ec0bd7f-11c0-43da-975e-2a8ad9ebae0b" "photo.png";
                              mimetype := "application/octet-stream" |};
              outputFormat := Some "webp" |}.
    rewrite H2. reflexivity.
Defined.

(** ** C5: finding the file LibreOffice wrote *)

Module Discovery.

Lemma find_first {A} (p : A -> bool) (pre post : list A) (x : A) :
  (forall y, In y pre -> p y = false) -> p x = true ->
  List.find p (pre ++ x :: post) = Some x.
Proof.
  intros Hpre Hx. induction pre as [|y pre IH]; simpl.
  - now rewrite Hx.
  - rewrite (Hpre y) by now left. apply IH. intros z Hz. apply Hpre. now right.
Qed.

Lemma find_nothing {A} (p : A -> bool) (l : list A) :
  (forall y, In y l -> p y = false) -> List.find p l = None.
Proof.
  intros H. induction l as [|y l IH]; simpl; [reflexivity |].
  rewrite (H y) by now left. apply IH. intros z Hz. apply H. now right.
Qed.

(** When the command succeeded, [convertWithLibreOffice] ends in the search
    for the output, on the disk as the tool left it minus the temporary
    directory. *)
Lemma convert_reaches_find_output (w : World) (inputPath outputDir outputFormat : string)
    (st st0 st1 : St) :
  let tempDir := Path.join (Path.join (app_dir w) "temp") (uuid w) in
  let tempInputPath := Path.join tempDir (Path.basename inputPath) in
  copyFileSync inputPath tempInputPath st = (Ret tt, st0) ->
  exec w (Part000.libreoffice_command outputFormat outputDir tempInputPath)
    (Some 30000%N) st0 = (Ret tt, st1) ->
  Part000.convertWithLibreOffice w inputPath outputDir outputFormat st
    = Part000.find_output inputPath outputDir outputFormat
        (with_files (Fs.removeSync tempDir (files st1)) st1).
Proof.
  intros tempDir tempInputPath Hcopy Hexec.
  unfold Part000.convertWithLibreOffice.
  fold tempDir. fold tempInputPath.
  unfold bind at 1. rewrite Hcopy.
  unfold bind at 1. unfold attempt. rewrite Hexec.
  reflexivity.
Qed.

End Discovery.

(** The claim fails on server.cjs: with the expected [report.pdf] missing and
    two files in the output directory whose names start with [report],
    [DocumentConverter.convert] neither takes the first of them nor reports a
    failure; it writes a note and returns the note's path. *)
Lemma C5_counterexample :
  let w := Samples.healthy [("uploads/report.docx.pdf", "pdf bytes")] in
  let st := initial [("uploads/report.docx", "docx bytes")] in
  let result := ServerCjs.DocumentConverter_convert w "uploads/report.docx" "pdf" st in
  Fs.existsSync (ServerCjs.document_output "uploads/report.docx" "pdf")
    (files (snd result)) = false /\
  find (fun file => startsWith file "report")
    (Fs.readdirSync "uploads" (files (snd result))) = Some "report.docx" /\
  fst result = Ret "uploads/report_conversion_note.txt" /\
  ~ In "report_conversion_note.txt" (Fs.readdirSync "uploads" (files st)).
Proof.
  vm_compute. repeat split; try reflexivity.
  intros [H | [ ]]. discriminate H.
Qed.

(** C5 (amended). In part_000, once the LibreOffice command has succeeded,
    [convertWithLibreOffice] looks for the produced file in this order: the
    exact path [{outputDir}/{baseName}.{outputFormat}] if it exists; else the
    first entry of the output directory whose name starts with [baseName];
    and it rejects with "output file not found" only when neither exists.
    In server.cjs, [DocumentConverter.convert] checks the exact path only and,
    when it is missing, returns what its fallback writes, whatever else the
    directory holds. *)
Theorem C5_output_discovery
    (w : World) (inputPath outputDir outputFormat : string) (st : St) :
  let baseName := Path.parse_name (Path.basename inputPath) in
  let expected := Path.join outputDir (baseName ++ "." ++ outputFormat) in
  let listing := Fs.readdirSync outputDir (files st) in
  (Fs.existsSync expected (files st) = true ->
   Part000.find_output inputPath outputDir outputFormat st = (Ret expected, st)) /\
  (Fs.existsSync expected (files st) = false ->
   forall pre file post,
     listing = (pre ++ file :: post)%list ->
     (forall other, In other pre -> startsWith other baseName = false) ->
     startsWith file baseName = true -> file <> "" ->
     Part000.find_output inputPath outputDir outputFormat st
       = (Ret (Path.join outputDir file), st)) /\
  (Fs.existsSync expected (files st) = false ->
   (forall other, In other listing -> startsWith other baseName = false) ->
   Part000.find_output inputPath outputDir outputFormat st
     = (Throw Part000.not_found, st)) /\
  (forall msg st',
     (forall other, In other listing -> other <> "") ->
     Part000.find_output inputPath outputDir outputFormat st = (Throw msg, st') ->
     Fs.existsSync expected (files st) = false /\
     forall other, In other listing -> startsWith other baseName = false) /\
  (forall sa sb,
     exec w ServerCjs.which_command None (push (EvAdapter "DocumentConverter") st)
       = (Ret tt, sa) ->
     exec w (ServerCjs.soffice_command inputPath (Path.dirname inputPath) outputFormat)
       (Some 30000%N) sa = (Ret tt, sb) ->
     Fs.existsSync (ServerCjs.document_output inputPath outputFormat) (files sb) = false ->
     ServerCjs.DocumentConverter_convert w inputPath outputFormat st
       = ServerCjs.document_fallback w inputPath outputFormat sb).
Proof.
  intros baseName expected listing.
  unfold Part000.find_output. fold baseName. fold expected.
  unfold bind, existsSync, readdirSync, ret, throw. subst listing.
  split; [intros ->; reflexivity |].
  split.
  { intros -> pre file post Hl Hpre Hfile Hne. unfold find.
    rewrite Hl, (Discovery.find_first _ pre post file Hpre Hfile).
    apply String.eqb_neq in Hne. now rewrite Hne. }
  split.
  { intros -> Hnone. unfold find. now rewrite Discovery.find_nothing. }
  split.
  { intros msg st' Hnames.
    destruct (Fs.existsSync expected (files st)); [discriminate |].
    unfold find. destruct (List.find _ _) as [file |] eqn:Hfind.
    - apply find_some in Hfind as [Hin _].
      apply Hnames, String.eqb_neq in Hin. rewrite Hin. discriminate.
    - intros _. split; [reflexivity |]. intros other Hin.
      apply (find_none _ _ Hfind other Hin). }
  intros sa sb Hwhich Hsoffice Hmissing.
  unfold ServerCjs.DocumentConverter_convert, ServerCjs.document_try.
  unfold bind at 1. unfold log.
  unfold try_catch. unfold bind at 1. rewrite Hwhich.
  unfold bind at 1. rewrite Hsoffice.
  unfold bind, existsSync. rewrite Hmissing. reflexivity.
Qed.

Lemma C5_output_discovery_witness :
  Part000.find_output "/app/uploads/3f2a" "/app/uploads" "pdf"
     (initial [("/app/uploads/3f2a", "docx bytes"); ("/app/uploads/3f2a.pdf", "pdf bytes")])
   = (Ret "/app/uploads/3f2a.pdf",
      initial [("/app/uploads/3f2a", "docx bytes"); ("/app/uploads/3f2a.pdf", "pdf bytes")]) /\
  Part000.find_output "/app/uploads/report.docx" "/app/uploads" "pdf"
     (initial [("/app/uploads/notes.txt", "text"); ("/app/uploads/report_v2.pdf", "pdf bytes")])
   = (Ret "/app/uploads/report_v2.pdf",
      initial [("/app/uploads/notes.txt", "text"); ("/app/uploads/report_v2.pdf", "pdf bytes")]) /\
  Part000.find_output "/app/uploads/report.docx" "/app/uploads" "pdf"
     (initial [("/app/uploads/notes.txt", "text")])
   = (Throw Part000.not_found, initial [("/app/uploads/notes.txt", "text")]).
Proof.
  split; [| split].
  - apply (proj1 (C5_output_discovery Samples.bare "/app/uploads/3f2a" "/app/uploads" "pdf"
                    (initial [("/app/uploads/3f2a", "docx bytes");
                              ("/app/uploads/3f2a.pdf", "pdf bytes")]))).
    reflexivity.
  - apply (proj1 (proj2 (C5_output_discovery Samples.bare "/app/uploads/report.docx"
                           "/app/uploads" "pdf"
                           (initial [("/app/uploads/notes.txt", "text");
                                     ("/app/uploads/report_v2.pdf", "pdf bytes")])))
             eq_refl ["notes.txt"] "report_v2.pdf" []).
    + reflexivity.
    + intros other [<- | [ ]]. reflexivity.
    + reflexivity.
    + discriminate.
  - apply (proj1 (proj2 (proj2 (C5_output_discovery Samples.bare "/app/uploads/report.docx"
                                  "/app/uploads" "pdf"
                                  (initial [("/app/uploads/notes.txt", "text")]))))
             eq_refl).
    intros other [<- | [ ]]. reflexivity.
Defined.

(** ** C4: the time a document conversion may take *)

Module Timeouts.

Lemma waiting_time_bounded (r : Run) (t : N) : (waiting_time r (Some t) <= t)%N.
Proof.
  unfold waiting_time. destruct (run_time r); [apply N.le_min_l | apply N.le_refl].
Qed.

Lemma waiting_time_unbounded (r : Run) (d : N) :
  run_time r = Some d -> waiting_time r None = d.
Proof. unfold waiting_time. now intros ->. Qed.

Lemma timeout_settles (r : Run) (t : N) : verdict r (Some t) <> Never.
Proof.
  unfold verdict, ended.
  destruct (run_time r); [destruct (t <? n)%N |]; try discriminate.
  destruct (run_ok r); discriminate.
Qed.

Lemma no_timeout_settles (r : Run) (d : N) :
  run_time r = Some d -> verdict r None = ended r.
Proof. unfold verdict. now intros ->. Qed.

(** Under a timeout, [exec] always settles, within the timeout, and every
    failure -- a non-zero exit or the kill at expiry -- is thrown as the same
    [Command failed] error. *)
Lemma exec_with_timeout (w : World) (command : string) (t : N) (st : St) :
  let r := behaves w (Exec command) (files st) in
  (exec w command (Some t) st = (Ret tt, after_run w (Exec command) (Some t) st)
   /\ verdict r (Some t) = Succeeded)
  \/
  (exec w command (Some t) st =
     (Throw (command_failed command (run_msg r)), after_run w (Exec command) (Some t) st)
   /\ verdict r (Some t) <> Succeeded).
Proof.
  intros r. unfold exec. fold r.
  pose proof (timeout_settles r t) as Hsettles.
  destruct (verdict r (Some t)) eqn:Hv.
  - left. split; reflexivity.
  - right. split; [| discriminate].
    unfold verdict, ended in Hv.
    destruct (run_time r); [destruct (t <? n)%N |]; try discriminate;
      destruct (run_ok r); try discriminate. now injection Hv as <-.
  - right. split; [reflexivity | discriminate].
  - now elim Hsettles.
Qed.

Lemma after_run_elapsed (w : World) (inv : Invocation) (timeout : option N) (st : St) :
  elapsed (after_run w inv timeout st)
    = (elapsed st + waiting_time (behaves w inv (files st)) timeout)%N.
Proof. reflexivity. Qed.

Lemma after_run_invocations (w : World) (inv : Invocation) (timeout : option N) (st : St) :
  invocations (trace (after_run w inv timeout st))
    = (invocations (trace st) ++ [(inv, timeout)])%list.
Proof. unfold after_run. cbn [trace]. now rewrite invocations_app. Qed.

Lemma find_output_state (inputPath outputDir outputFormat : string) (st : St) :
  snd (Part000.find_output inputPath outputDir outputFormat st) = st /\
  forall why, fst (Part000.find_output inputPath outputDir outputFormat st) <> Halt why.
Proof.
  unfold Part000.find_output, bind, existsSync, readdirSync, ret, throw.
  destruct (Fs.existsSync _ _); [split; [reflexivity | discriminate] |].
  destruct (find _ _) as [file |]; [| split; [reflexivity | discriminate]].
  destruct (file =? ""); split; try reflexivity; discriminate.
Qed.

End Timeouts.

Module DocumentTime.
Import Timeouts.

(** part_000: the conversion settles, and within 30 seconds of waiting. *)
Lemma part000_bounded (w : World) (inputPath outputDir outputFormat : string) (st : St) :
  let res := Part000.convertWithLibreOffice w inputPath outputDir outputFormat st in
  (forall why, fst res <> Halt why) /\
  (elapsed (snd res) <= elapsed st + 30000)%N /\
  (forall i, In i (invocations (trace (snd res))) ->
             In i (invocations (trace st)) \/ snd i = Some 30000%N).
Proof.
  intros res. destruct res as [o s] eqn:Hres. subst res. cbn [fst snd].
  unfold Part000.convertWithLibreOffice in Hres.
  set (tempDir := Path.join (Path.join (app_dir w) "temp") (uuid w)) in *.
  set (tempInputPath := Path.join tempDir (Path.basename inputPath)) in *.
  set (command := Part000.libreoffice_command outputFormat outputDir tempInputPath) in *.
  unfold bind at 1 in Hres. unfold copyFileSync in Hres.
  destruct (Fs.read inputPath (files st)) as [c |].
  2:{ injection Hres as <- <-. split; [discriminate |]. split; [lia | auto]. }
  unfold update_fs at 1 in Hres. unfold bind at 1 in Hres. unfold attempt in Hres.
  set (st0 := with_files (Fs.writeFileSync tempInputPath c (files st)) st) in *.
  pose proof (waiting_time_bounded (behaves w (Exec command) (files st0)) 30000) as Hwait.
  pose proof (after_run_elapsed w (Exec command) (Some 30000%N) st0) as Hel.
  pose proof (after_run_invocations w (Exec command) (Some 30000%N) st0) as Hinv.
  change (trace st0) with (trace st) in Hinv.
  change (elapsed st0) with (elapsed st) in Hel.
  set (st1 := after_run w (Exec command) (Some 30000%N) st0) in *.
  assert (Hsame : forall i, In i (invocations (trace st1)) ->
                            In i (invocations (trace st)) \/ snd i = Some 30000%N).
  { intros i Hi. rewrite Hinv in Hi.
    apply in_app_or in Hi as [Hi | [<- | [ ]]]; [now left | now right]. }
  destruct (exec_with_timeout w command 30000 st0) as [[Hexec _] | [Hexec _]];
    fold st1 in Hexec; rewrite Hexec in Hres;
    unfold bind, update_fs in Hres.
  - destruct (find_output_state inputPath outputDir outputFormat
                (with_files (Fs.removeSync tempDir (files st1)) st1)) as [Hst Hnohalt].
    rewrite Hres in Hst, Hnohalt. cbn [fst snd] in Hst, Hnohalt. subst s.
    split; [exact Hnohalt |]. cbn [elapsed trace with_files].
    split; [lia | exact Hsame].
  - unfold throw in Hres. injection Hres as <- <-. cbn [elapsed trace with_files].
    split; [discriminate |]. split; [lia | exact Hsame].
Qed.

(** part_000: a kill at expiry and a failing exit are rejected alike. *)
Lemma part000_failure_shape (w : World) (inputPath outputDir outputFormat : string)
    (st st0 : St) :
  let tempDir := Path.join (Path.join (app_dir w) "temp") (uuid w) in
  let tempInputPath := Path.join tempDir (Path.basename inputPath) in
  let command := Part000.libreoffice_command outputFormat outputDir tempInputPath in
  let r := behaves w (Exec command) (files st0) in
  copyFileSync inputPath tempInputPath st = (Ret tt, st0) ->
  verdict r (Some 30000%N) <> Succeeded ->
  fst (Part000.convertWithLibreOffice w inputPath outputDir outputFormat st)
    = Throw ("LibreOffice conversion failed: " ++ command_failed command (run_msg r)).
Proof.
  intros tempDir tempInputPath command r Hcopy Hv.
  unfold Part000.convertWithLibreOffice.
  fold tempDir. fold tempInputPath. fold command.
  unfold bind at 1. rewrite Hcopy. unfold bind at 1. unfold attempt.
  destruct (exec_with_timeout w command 30000 st0) as [[_ Hs] | [-> _]];
    [now elim Hv |].
  reflexivity.
Qed.

(** server.cjs: once the [which] probe has ended, the conversion settles,
    never with an error, and the soffice command adds at most 30 seconds. *)
Lemma server_bounded (w : World) (inputPath outputFormat : string) (st : St) (d : N) :
  run_time (behaves w (Exec ServerCjs.which_command) (files st)) = Some d ->
  let res := ServerCjs.DocumentConverter_convert w inputPath outputFormat st in
  (forall why, fst res <> Halt why) /\
  (elapsed (snd res) <= elapsed st + d + 30000)%N /\
  (forall i, In i (invocations (trace (snd res))) ->
             In i (invocations (trace st))
             \/ i = (Exec ServerCjs.which_command, None)
             \/ snd i = Some 30000%N).
Proof.
  intros Hd res. destruct res as [o s] eqn:Hres. subst res. cbn [fst snd].
  set (Good := fun s : St =>
         (elapsed s <= elapsed st + d + 30000)%N /\
         (forall i, In i (invocations (trace s)) ->
                    In i (invocations (trace st))
                    \/ i = (Exec ServerCjs.which_command, None)
                    \/ snd i = Some 30000%N)).
  change ((forall why, o <> Halt why) /\ Good s).
  unfold ServerCjs.DocumentConverter_convert, ServerCjs.document_try in Hres.
  unfold bind at 1 in Hres. unfold log in Hres. unfold try_catch in Hres.
  unfold bind at 1 in Hres.
  set (st0 := push (EvAdapter "DocumentConverter") st) in *.
  pose proof (after_run_elapsed w (Exec ServerCjs.which_command) None st0) as Hel.
  pose proof (after_run_invocations w (Exec ServerCjs.which_command) None st0) as Hinv.
  change (files st0) with (files st) in Hel.
  rewrite (waiting_time_unbounded _ d Hd) in Hel.
  assert (Hi0 : invocations (trace st0) = invocations (trace st)).
  { unfold st0, push. cbn [trace]. rewrite invocations_app. apply app_nil_r. }
  rewrite Hi0 in Hinv. change (elapsed st0) with (elapsed st) in Hel.
  unfold exec at 1 in Hres. change (files st0) with (files st) in Hres.
  rewrite (no_timeout_settles _ d Hd) in Hres.
  set (sa := after_run w (Exec ServerCjs.which_command) None st0) in *.
  assert (Hfallback : forall s0 o' s',
             Good s0 ->
             ServerCjs.document_fallback w inputPath outputFormat s0 = (o', s') ->
             (forall why, o' <> Halt why) /\ Good s').
  { intros s0 o' s' Hs0. unfold ServerCjs.document_fallback.
    destruct (toUpperCase outputFormat =? "TXT");
      unfold bind, writeFileSync, update_fs, ret;
      destruct (dir_exists w _); intros [= <- <-];
      (split; [discriminate | exact Hs0]). }
  assert (Hsa : Good sa).
  { split; [lia |]. intros i Hi. rewrite Hinv in Hi.
    apply in_app_or in Hi as [Hi | [<- | [ ]]]; auto. }
  unfold ended in Hres. destruct (run_ok _).
  2:{ eapply Hfallback; eassumption. }
  set (command := ServerCjs.soffice_command inputPath (Path.dirname inputPath) outputFormat)
    in *.
  pose proof (waiting_time_bounded (behaves w (Exec command) (files sa)) 30000) as Hwait.
  pose proof (after_run_elapsed w (Exec command) (Some 30000%N) sa) as Helb.
  pose proof (after_run_invocations w (Exec command) (Some 30000%N) sa) as Hinvb.
  set (sb := after_run w (Exec command) (Some 30000%N) sa) in *.
  assert (Hsb : Good sb).
  { destruct Hsa as [Ha1 Ha2]. split; [lia |]. intros i Hi. rewrite Hinvb in Hi.
    apply in_app_or in Hi as [Hi | [<- | [ ]]]; auto. }
  unfold bind at 1 in Hres.
  destruct (exec_with_timeout w command 30000 sa) as [[Hexec _] | [Hexec _]];
    fold sb in Hexec; rewrite Hexec in Hres.
  - unfold bind, existsSync in Hres.
    destruct (Fs.existsSync _ (files sb)).
    + unfold ret in Hres. injection Hres as <- <-.
      split; [discriminate | exact Hsb].
    + unfold throw in Hres. eapply Hfallback; eassumption.
  - eapply Hfallback; eassumption.
Qed.

(** server.cjs: a conversion command that fails or is killed at expiry is
    handed to the fallback of the converter. *)
Lemma server_expiry_to_fallback (w : World) (inputPath outputFormat : string) (st : St)
    (d : N) :
  let probe := behaves w (Exec ServerCjs.which_command) (files st) in
  let sa := after_run w (Exec ServerCjs.which_command) None
              (push (EvAdapter "DocumentConverter") st) in
  let command :=
    ServerCjs.soffice_command inputPath (Path.dirname inputPath) outputFormat in
  let sb := after_run w (Exec command) (Some 30000%N) sa in
  run_time probe = Some d ->
  run_ok probe = true ->
  verdict (behaves w (Exec command) (files sa)) (Some 30000%N) <> Succeeded ->
  ServerCjs.DocumentConverter_convert w inputPath outputFormat st
    = ServerCjs.document_fallback w inputPath outputFormat sb.
Proof.
  intros probe sa command sb Hd Hok Hv.
  unfold ServerCjs.DocumentConverter_convert, ServerCjs.document_try.
  unfold bind at 1. unfold log. unfold try_catch. unfold bind at 1.
  unfold exec at 1. change (files (push (EvAdapter "DocumentConverter") st)) with (files st).
  fold probe. rewrite (no_timeout_settles probe d Hd). unfold ended. rewrite Hok.
  fold sa. unfold bind at 1. fold command.
  destruct (exec_with_timeout w command 30000 sa) as [[_ Hs] | [-> _]];
    [now elim Hv | reflexivity].
Qed.

(** server.cjs: the probe runs without a timeout; while it does not end the
    converter stays pending. *)
Lemma server_probe_stalled (w : World) (inputPath outputFormat : string) (st : St) :
  run_time (behaves w (Exec ServerCjs.which_command) (files st)) = None ->
  ServerCjs.DocumentConverter_convert w inputPath outputFormat st
    = (Halt NeverSettles,
       after_run w (Exec ServerCjs.which_command) None
         (push (EvAdapter "DocumentConverter") st)).
Proof.
  intros Hd.
  unfold ServerCjs.DocumentConverter_convert, ServerCjs.document_try.
  unfold bind at 1. unfold log. unfold try_catch. unfold bind at 1.
  unfold exec at 1. change (files (push (EvAdapter "DocumentConverter") st)) with (files st).
  unfold verdict. now rewrite Hd.
Qed.

(** part_001: the caller waits exactly as long as the tool runs, for ever if
    the tool never ends. *)
Lemma part001_unbounded (w : World) (inputPath outputPath format : string) (st : St) :
  let inv := SpawnProc "libreoffice"
               ["--headless"; "--convert-to"; toLowerCase format;
                "--outdir"; Path.dirname outputPath; inputPath] in
  let res := Part001.convertDocument w inputPath outputPath format st in
  invocations (trace (snd res)) = (invocations (trace st) ++ [(inv, None)])%list /\
  (run_time (behaves w inv (files st)) = None ->
   res = (Halt NeverSettles, after_run w inv None (push (EvAdapter "convertDocument") st))) /\
  (forall d, run_time (behaves w inv (files st)) = Some d ->
             elapsed (snd res) = (elapsed st + d)%N).
Proof.
  intros inv res. destruct res as [o s] eqn:Hres. subst res. cbn [fst snd].
  unfold Part001.convertDocument in Hres. fold inv in Hres.
  unfold bind at 1 in Hres. unfold log in Hres. unfold bind at 1 in Hres.
  unfold spawn in Hres. fold inv in Hres.
  set (st0 := push (EvAdapter "convertDocument") st) in *.
  change (files st0) with (files st) in Hres.
  assert (Hinv : invocations (trace (after_run w inv None st0))
                 = (invocations (trace st) ++ [(inv, None)])%list).
  { rewrite after_run_invocations. unfold st0, push. cbn [trace].
    rewrite invocations_app. cbn [invocations]. now rewrite app_nil_r. }
  assert (Hel : forall d, run_time (behaves w inv (files st)) = Some d ->
                          elapsed (after_run w inv None st0) = (elapsed st + d)%N).
  { intros d Hd. rewrite after_run_elapsed. change (files st0) with (files st).
    now rewrite (waiting_time_unbounded _ d Hd). }
  destruct (run_time (behaves w inv (files st))) as [d |] eqn:Hd.
  - specialize (Hel d eq_refl).
    assert (Hkeep : trace s = trace (after_run w inv None st0)
                    /\ elapsed s = elapsed (after_run w inv None st0)).
    { destruct (run_end _) as [[|code] |];
        unfold bind, existsSync, throw, in_callback, moveSync, update_fs in Hres;
        repeat match type of Hres with
               | context [if ?b then _ else _] => destruct b
               | context [match Fs.read ?p ?f with _ => _ end] => destruct (Fs.read p f)
               end; injection Hres as <- <-; split; reflexivity. }
    destruct Hkeep as [Ht He]. rewrite Ht, He.
    split; [exact Hinv |]. split; [discriminate |]. now intros d' [= <-].
  - injection Hres as <- <-.
    split; [exact Hinv |]. split; [reflexivity | discriminate].
Qed.

End DocumentTime.

(** The claim fails on part_001: against a LibreOffice that never ends,
    [convertDocument], which spawns it without a timeout, stays pending. *)
Lemma C4_counterexample :
  let res := Part001.convertDocument Samples.stalled
               "/app/uploads/u-report.docx" "/app/outputs/report.pdf" "pdf"
               (initial [("/app/uploads/u-report.docx", "docx bytes")]) in
  fst res = Halt NeverSettles /\
  invocations (trace (snd res))
    = [(SpawnProc "libreoffice"
          ["--headless"; "--convert-to"; "pdf"; "--outdir"; "/app/outputs";
           "/app/uploads/u-report.docx"], None)].
Proof. split; reflexivity. Qed.

(** C4 (amended). part_000's [convertWithLibreOffice] runs its conversion
    command under a timeout of 30000 ms: it settles whatever the tool does,
    the caller waits at most 30 seconds, and an expired timeout is rejected
    with the same [LibreOffice conversion failed: Command failed: ...] error
    as a failing tool.  server.cjs's [DocumentConverter.convert] sets the same
    timeout on the conversion command but none on the [which] probe before
    it: once the probe has ended the converter settles within the probe's
    time plus 30 seconds, and a command that fails or is killed at expiry is
    handed to the fallback of the converter (a note, not a failure); while
    the probe does not end the converter stays pending.  part_001's
    [convertDocument] spawns the tool without a timeout: it waits as long as
    the tool runs, and for ever if the tool never ends. *)
Theorem C4_document_conversion_timeouts
    (w : World) (inputPath outputDir outputPath outputFormat : string) (st : St) :
  (let res := Part000.convertWithLibreOffice w inputPath outputDir outputFormat st in
   (forall why, fst res <> Halt why) /\
   (elapsed (snd res) <= elapsed st + 30000)%N /\
   (forall i, In i (invocations (trace (snd res))) ->
              In i (invocations (trace st)) \/ snd i = Some 30000%N)) /\
  (forall st0,
     let tempInputPath :=
       Path.join (Path.join (Path.join (app_dir w) "temp") (uuid w))
         (Path.basename inputPath) in
     let command := Part000.libreoffice_command outputFormat outputDir tempInputPath in
     let r := behaves w (Exec command) (files st0) in
     copyFileSync inputPath tempInputPath st = (Ret tt, st0) ->
     verdict r (Some 30000%N) <> Succeeded ->
     fst (Part000.convertWithLibreOffice w inputPath outputDir outputFormat st)
       = Throw ("LibreOffice conversion failed: " ++ command_failed command (run_msg r))) /\
  (forall d,
     run_time (behaves w (Exec ServerCjs.which_command) (files st)) = Some d ->
     let res := ServerCjs.DocumentConverter_convert w inputPath outputFormat st in
     (forall why, fst res <> Halt why) /\
     (elapsed (snd res) <= elapsed st + d + 30000)%N /\
     (forall i, In i (invocations (trace (snd res))) ->
                In i (invocations (trace st))
                \/ i = (Exec ServerCjs.which_command, None)
                \/ snd i = Some 30000%N)) /\
  (forall d,
     let probe := behaves w (Exec ServerCjs.which_command) (files st) in
     let sa := after_run w (Exec ServerCjs.which_command) None
                 (push (EvAdapter "DocumentConverter") st) in
     let command :=
       ServerCjs.soffice_command inputPath (Path.dirname inputPath) outputFormat in
     let sb := after_run w (Exec command) (Some 30000%N) sa in
     run_time probe = Some d ->
     run_ok probe = true ->
     verdict (behaves w (Exec command) (files sa)) (Some 30000%N) <> Succeeded ->
     ServerCjs.DocumentConverter_convert w inputPath outputFormat st
       = ServerCjs.document_fallback w inputPath outputFormat sb) /\
  (run_time (behaves w (Exec ServerCjs.which_command) (files st)) = None ->
   ServerCjs.DocumentConverter_convert w inputPath outputFormat st
     = (Halt NeverSettles,
        after_run w (Exec ServerCjs.which_command) None
          (push (EvAdapter "DocumentConverter") st))) /\
  (let inv := SpawnProc "libreoffice"
                ["--headless"; "--convert-to"; toLowerCase outputFormat;
                 "--outdir"; Path.dirname outputPath; inputPath] in
   let res := Part001.convertDocument w inputPath outputPath outputFormat st in
   invocations (trace (snd res)) = (invocations (trace st) ++ [(inv, None)])%list /\
   (run_time (behaves w inv (files st)) = None ->
    res = (Halt NeverSettles,
           after_run w inv None (push (EvAdapter "convertDocument") st))) /\
   (forall d, run_time (behaves w inv (files st)) = Some d ->
              elapsed (snd res) = (elapsed st + d)%N)).
Proof.
  split; [apply DocumentTime.part000_bounded |].
  split; [intros st0; apply DocumentTime.part000_failure_shape |].
  split; [intros d; apply DocumentTime.server_bounded |].
  split; [intros d; apply DocumentTime.server_expiry_to_fallback |].
  split; [apply DocumentTime.server_probe_stalled |].
  apply DocumentTime.part001_unbounded.
Qed.

Lemma C4_document_conversion_timeouts_witness :
  fst (Part000.convertWithLibreOffice Samples.stalled "/app/uploads/3f2a" "/app/uploads" "pdf"
         (initial [("/app/uploads/3f2a", "docx bytes")]))
    = Throw ("LibreOffice conversion failed: "
               ++ command_failed
                    (Part000.libreoffice_command "pdf" "/app/uploads"
                       "/app/temp/9b2e4f0a-7c1d-4e8b-a3f6-5d0c1b2a3e4f/3f2a") "") /\
  (elapsed (snd (ServerCjs.DocumentConverter_convert Samples.stalled_office
                   "uploads/3f2a" "pdf" (initial [("uploads/3f2a", "docx bytes")])))
   <= 0 + 2 + 30000)%N /\
  fst (ServerCjs.DocumentConverter_convert Samples.stalled_office
         "uploads/3f2a" "pdf" (initial [("uploads/3f2a", "docx bytes")]))
    = Ret "uploads/3f2a_conversion_note.txt" /\
  fst (ServerCjs.DocumentConverter_convert Samples.stalled
         "uploads/3f2a" "pdf" (initial [("uploads/3f2a", "docx bytes")]))
    = Halt NeverSettles /\
  Part001.convertDocument Samples.stalled "/app/uploads/u-report.docx"
      "/app/outputs/report.pdf" "pdf" (initial [])
    = (Halt NeverSettles,
       after_run Samples.stalled
         (SpawnProc "libreoffice"
            ["--headless"; "--convert-to"; "pdf"; "--outdir"; "/app/outputs";
             "/app/uploads/u-report.docx"]) None
         (push (EvAdapter "convertDocument") (initial []))).
Proof.
  destruct (C4_document_conversion_timeouts Samples.stalled "/app/uploads/3f2a"
              "/app/uploads" "" "pdf" (initial [("/app/uploads/3f2a", "docx bytes")]))
    as (_ & Hshape & _).
  destruct (C4_document_conversion_timeouts Samples.stalled_office "uploads/3f2a"
              "" "" "pdf" (initial [("uploads/3f2a", "docx bytes")]))
    as (_ & _ & Hserver & Hfallback & _).
  destruct (C4_document_conversion_timeouts Samples.stalled "uploads/3f2a"
              "" "" "pdf" (initial [("uploads/3f2a", "docx bytes")]))
    as (_ & _ & _ & _ & Hprobe & _).
  destruct (C4_document_conversion_timeouts Samples.stalled "/app/uploads/u-report.docx"
              "" "/app/outputs/report.pdf" "pdf" (initial []))
    as (_ & _ & _ & _ & _ & _ & Hnever & _).
  split; [| split; [| split; [| split]]].
  - apply (Hshape _ eq_refl). discriminate.
  - destruct (Hserver 2%N eq_refl) as (_ & Hbound & _). exact Hbound.
  - rewrite (Hfallback 2%N eq_refl eq_refl); [reflexivity | discriminate].
  - rewrite (Hprobe eq_refl). reflexivity.
  - apply Hnever. reflexivity.
Defined.

(** ** C3: what a failing backend turns into *)

Module Degradation.







Lemma document_fallback_run (w : World) (inputPath outputFormat : string) (st : St) :
  let ph := ServerCjs.document_placeholder w inputPath outputFormat in
  dir_exists w (Path.dirname (fst ph)) = true ->
  ServerCjs.document_fallback w inputPath outputFormat st
    = (Ret (fst ph), with_files (Fs.writeFileSync (fst ph) (snd ph) (files st)) st).
Proof.
  unfold ServerCjs.document_fallback, ServerCjs.document_placeholder.
  destruct (toUpperCase outputFormat =? "TXT"); cbn [fst snd]; intros Hdir;
    unfold bind, writeFileSync; rewrite Hdir; reflexivity.
Qed.

Lemma substring_all (s : string) : String.substring 0 (String.length s) s = s.
Proof. induction s as [|c s IH]; simpl; [reflexivity | now rewrite IH]. Qed.


(** The tail of server.cjs's handler once a converter has resolved with a
    path that exists: the file is sent, then both scratch files go. *)
Lemma server_deliver (inputPath outputPath name text : string) (st : St) :
  Fs.read outputPath (files st) = Some text ->
  (e <- existsSync outputPath ;;
   if negb e then throw "Conversion failed - output file not created"
   else res_download outputPath name ;;
        ServerCjs.cleanup_after_download inputPath outputPath)%js st
  = (Ret tt,
     with_files (Fs.unlinkSync outputPath (Fs.unlinkSync inputPath (files st)))
       (push (EvSend (Download outputPath name (Some text))) st)).
Proof.
  intros Hread.
  assert (He : Fs.existsSync outputPath (files st) = true)
    by (apply FsFacts.exists_read; eauto).
  unfold bind at 1. unfold existsSync. rewrite He. cbn [negb].
  unfold bind at 1. unfold res_download, log. rewrite Hread.
  unfold ServerCjs.cleanup_after_download, try_catch, bind.
  rewrite !unlink_if_exists_run. reflexivity.
Qed.



Example server_media_note_for_multer_dest_upload :
  ServerCjs.media_note_path "uploads/3f2a" = "_conversion_note.txtuploads/3f2a" /\
  fst (ServerCjs.post_convert Samples.failing
         (Samples.request "clip.mov" "uploads/3f2a" "mp4")
         (initial [("uploads/3f2a", "mov bytes")]))
    = Halt (Uncaught
        "ENOENT: no such file or directory, open '_conversion_note.txtuploads/3f2a'").
Proof. split; reflexivity. Qed.


End Degradation.




(** ** C2: what happens to a pair outside the support matrix *)

Module Dispatch.

(** The image switch of server.cjs has a case exactly for the targets that
    [SUPPORTED_FORMATS] lists for images. *)
Lemma image_outside_matrix (format : string) :
  ServerCjs.in_matrix "images" format = false <-> ServerCjs.image_encoder format = None.
Proof.
  unfold ServerCjs.in_matrix, ServerCjs.image_encoder, ServerCjs.SUPPORTED_FORMATS, includes.
  cbn [existsb fst snd String.eqb Ascii.eqb Bool.eqb andb].
  destruct (toUpperCase format =? "PNG"); [split; discriminate |].
  destruct (toUpperCase format =? "JPG"); [split; discriminate |].
  destruct (toUpperCase format =? "JPEG"); [split; discriminate |].
  destruct (toUpperCase format =? "WEBP"); [split; discriminate |].
  destruct (toUpperCase format =? "GIF"); [split; discriminate |].
  destruct (toUpperCase format =? "BMP"); [split; discriminate |].
  destruct (toUpperCase format =? "TIFF"); [split; discriminate |].
  split; reflexivity.
Qed.

(** An image job whose target has no case: the adapter is entered, throws at
    once, and the handler answers 500 after removing the stored upload. *)
Lemma image_job_rejected_by_adapter (w : World) (f : File) (format : string) (fs : Fs.t) :
  format <> "" ->
  ServerCjs.getFileCategory (originalname f) = "images" ->
  ServerCjs.image_encoder format = None ->
  ServerCjs.post_convert w {| file := Some f; outputFormat := Some format |} (initial fs)
    = (Ret tt,
       {| files := Fs.unlinkSync (path f) fs;
          trace := [EvAdapter "ImageConverter";
                    EvSend (Reply 500 (ServerCjs.failure
                      ("Conversion failed: Unsupported image format: " ++ format)))];
          elapsed := 0 |}).
Proof.
  intros Hf Hc Henc.
  unfold ServerCjs.post_convert. cbn [file outputFormat missing].
  apply String.eqb_neq in Hf. rewrite Hf, Hc.
  unfold ServerCjs.dispatch. cbn [String.eqb Ascii.eqb Bool.eqb].
  unfold ServerCjs.ImageConverter_convert. rewrite Henc.
  unfold try_catch, bind, log, throw. rewrite unlink_if_exists_run. reflexivity.
Qed.

(** An audio or video job: ffmpeg is started with whatever target was asked. *)
Lemma media_job_starts_ffmpeg (w : World) (f : File) (format : string) (fs : Fs.t) :
  format <> "" ->
  ServerCjs.getFileCategory (originalname f) = "audio"
  \/ ServerCjs.getFileCategory (originalname f) = "video" ->
  exists rest,
    trace (snd (ServerCjs.post_convert w
                  {| file := Some f; outputFormat := Some format |} (initial fs)))
    = EvAdapter "MediaConverter"
        :: EvRun (FfmpegRun (path f) (ServerCjs.media_options format)
                    (ServerCjs.replaced_output (path f) format)) None
        :: rest.
Proof.
  intros Hf Hc.
  unfold ServerCjs.post_convert. cbn [file outputFormat missing].
  apply String.eqb_neq in Hf. rewrite Hf.
  assert (Hd : ServerCjs.dispatch w (ServerCjs.getFileCategory (originalname f))
                 (path f) format
               = ServerCjs.MediaConverter_convert w (path f) format)
    by (destruct Hc as [-> | ->]; reflexivity).
  rewrite Hd.
  unfold ServerCjs.MediaConverter_convert, ServerCjs.media_try, ServerCjs.media_fallback,
    ServerCjs.cleanup_after_download.
  crunch; cbn [app]; eexists; reflexivity.
Qed.

(** A document job: the probe for LibreOffice is started. *)
Lemma document_job_starts_probe (w : World) (f : File) (format : string) (fs : Fs.t) :
  format <> "" ->
  ServerCjs.getFileCategory (originalname f) = "documents" ->
  exists rest,
    trace (snd (ServerCjs.post_convert w
                  {| file := Some f; outputFormat := Some format |} (initial fs)))
    = EvAdapter "DocumentConverter"
        :: EvRun (Exec ServerCjs.which_command) None
        :: rest.
Proof.
  intros Hf Hc.
  unfold ServerCjs.post_convert. cbn [file outputFormat missing].
  apply String.eqb_neq in Hf. rewrite Hf, Hc.
  unfold ServerCjs.dispatch. cbn [String.eqb Ascii.eqb Bool.eqb].
  unfold ServerCjs.DocumentConverter_convert, ServerCjs.document_try,
    ServerCjs.document_fallback, ServerCjs.cleanup_after_download.
  crunch; cbn [app]; eexists; reflexivity.
Qed.

End Dispatch.

(** The claim fails on server.cjs: [SUPPORTED_FORMATS] does not list PNG for
    audio, yet an mp3 upload with target [png] enters the media adapter,
    ffmpeg is spawned, and when ffmpeg obliges the result is downloaded. *)
Lemma C2_counterexample :
  let st := snd (ServerCjs.post_convert (Samples.healthy [])
                   (Samples.request "song.mp3" "uploads/3f2a.mp3" "png")
                   (initial [("uploads/3f2a.mp3", "mp3 bytes")])) in
  ServerCjs.in_matrix (ServerCjs.getFileCategory "song.mp3") "png" = false /\
  trace st
    = [EvAdapter "MediaConverter";
       EvRun (FfmpegRun "uploads/3f2a.mp3" [Format "png"] "uploads/3f2a.png") None;
       EvSend (Download "uploads/3f2a.png" "song.png" (Some "media bytes"))] /\
  existsb (fun i => is_process (fst i)) (invocations (trace st)) = true.
Proof. repeat split; reflexivity. Qed.

(** C2 (amended). server.cjs checks no support matrix before dispatch: every
    request with a file and a non-empty output format enters the adapter
    chosen by the file's category.  For an image-category file and a target
    that [SUPPORTED_FORMATS] does not list for images, the image adapter
    itself raises [Unsupported image format] before any encoder runs or any
    process is spawned, and the request is answered with HTTP 500 after the
    stored upload is removed.  For an audio or video file ffmpeg is started
    with whatever target was requested, and for a document file the
    LibreOffice probe is started, whether or not the matrix lists the pair. *)
Theorem C2_no_matrix_check_before_dispatch
    (w : World) (f : File) (format : string) (fs : Fs.t) :
  format <> "" ->
  let result := ServerCjs.post_convert w
                  {| file := Some f; outputFormat := Some format |} (initial fs) in
  (ServerCjs.getFileCategory (originalname f) = "images" ->
   ServerCjs.in_matrix "images" format = false ->
   result = (Ret tt,
             {| files := Fs.unlinkSync (path f) fs;
                trace := [EvAdapter "ImageConverter";
                          EvSend (Reply 500 (ServerCjs.failure
                            ("Conversion failed: Unsupported image format: " ++ format)))];
                elapsed := 0 |})) /\
  (ServerCjs.getFileCategory (originalname f) = "audio"
   \/ ServerCjs.getFileCategory (originalname f) = "video" ->
   exists rest,
     trace (snd result)
     = EvAdapter "MediaConverter"
         :: EvRun (FfmpegRun (path f) (ServerCjs.media_options format)
                     (ServerCjs.replaced_output (path f) format)) None
         :: rest) /\
  (ServerCjs.getFileCategory (originalname f) = "documents" ->
   exists rest,
     trace (snd result)
     = EvAdapter "DocumentConverter" :: EvRun (Exec ServerCjs.which_command) None :: rest).
Proof.
  intros Hf result. subst result.
  split; [intros Hc Hm; apply Dispatch.image_job_rejected_by_adapter;
          [assumption | assumption | now apply Dispatch.image_outside_matrix] |].
  split; [intros Hc; now apply Dispatch.media_job_starts_ffmpeg |].
  intros Hc. now apply Dispatch.document_job_starts_probe.
Qed.

Lemma C2_no_matrix_check_before_dispatch_witness :
  ServerCjs.post_convert (Samples.healthy [])
      (Samples.request "photo.png" "uploads/3f2a.png" "svg")
      (initial [("uploads/3f2a.png", "png bytes")])
    = (Ret tt,
       {| files := [];
          trace := [EvAdapter "ImageConverter";
                    EvSend (Reply 500 (ServerCjs.failure
                      "Conversion failed: Unsupported image format: svg"))];
          elapsed := 0 |}) /\
  (exists rest,
      trace (snd (ServerCjs.post_convert Samples.bare
                    (Samples.request "song.mp3" "uploads/3f2a.mp3" "png")
                    (initial [("uploads/3f2a.mp3", "mp3 bytes")])))
      = EvAdapter "MediaConverter"
          :: EvRun (FfmpegRun "uploads/3f2a.mp3" [Format "png"] "uploads/3f2a.png") None
          :: rest).
Proof.
  split.
  - refine (proj1 (C2_no_matrix_check_before_dispatch (Samples.healthy [])
                     (Samples.upload "photo.png" "uploads/3f2a.png") "svg"
                     [("uploads/3f2a.png", "png bytes")] _) eq_refl eq_refl).
    discriminate.
  - refine (proj1 (proj2 (C2_no_matrix_check_before_dispatch Samples.bare
                            (Samples.upload "song.mp3" "uploads/3f2a.mp3") "png"
                            [("uploads/3f2a.mp3", "mp3 bytes")] _))
              (or_introl eq_refl)).
    discriminate.
Defined.

(** ** C1: scratch files after the handler has finished *)
Module Cleanup.

Ltac gone :=
  cbn [files with_files push after_run] in *;
  first
    [ apply FsFacts.exists_unlink_same
    | apply FsFacts.exists_unlink_other; apply FsFacts.exists_unlink_same
    | assumption
    | apply FsFacts.exists_unlink_other; assumption ].

(** server.cjs: once a request with a file and an output format has been
    answered, the stored upload is gone. *)
Lemma server_upload_removed (w : World) (f : File) (format : string) (fs : Fs.t) :
  format <> "" ->
  let result := ServerCjs.post_convert w
                  {| file := Some f; outputFormat := Some format |} (initial fs) in
  responses (trace (snd result)) <> [] ->
  Fs.existsSync (path f) (files (snd result)) = false.
Proof.
  intros Hf result. subst result.
  unfold ServerCjs.post_convert. cbn [file outputFormat missing].
  apply String.eqb_neq in Hf. rewrite Hf.
  unfold ServerCjs.dispatch, ServerCjs.ImageConverter_convert,
    ServerCjs.DocumentConverter_convert, ServerCjs.document_try, ServerCjs.document_fallback,
    ServerCjs.MediaConverter_convert, ServerCjs.media_try, ServerCjs.media_fallback,
    ServerCjs.cleanup_after_download.
  destruct (ServerCjs.image_encoder format); crunch.
  all: cbn [app responses]; intros Hresp; try (now elim Hresp).
  all: try gone.
Qed.

End Cleanup.

(** C1 (the code at the failing inputs). (a) In all three variants a request
    that carries a file but no output format is answered with HTTP 400 and
    the file system is left as it was, the stored upload included.  (b) In
    part_000 a document job whose LibreOffice run succeeds writes
    [{uploads}/{stored name}.{format}]; the handler looks for
    [{uploads}/{original name}.{format}], fails, and its clean-up removes the
    stored upload and the planned output path only: LibreOffice's file stays.
    (c) In server.cjs and part_001 the conversion-error path removes the
    stored upload only: an output that the encoder wrote before it failed
    stays. *)
Theorem C1_scratch_files_left_behind :
  (forall (w : World) (f : File) (fs : Fs.t),
      ServerCjs.post_convert w {| file := Some f; outputFormat := None |} (initial fs)
        = (Ret tt, push (EvSend (Reply 400 (ServerCjs.failure "Output format not specified")))
                     (initial fs)) /\
      Part000.post_convert w {| file := Some f; outputFormat := None |} (initial fs)
        = (Ret tt, push (EvSend (Reply 400 [("error", JStr "Output format not specified")]))
                     (initial fs)) /\
      Part001.post_convert w {| file := Some f; outputFormat := None |} (initial fs)
        = (Ret tt, push (EvSend (Reply 400 [("error", JStr "Output format not specified")]))
                     (initial fs))) /\
  (let st := snd (Part000.post_convert
                    (Samples.healthy [("/app/uploads/3f2a.pdf", "pdf bytes")])
                    (Samples.request "report.docx" "/app/uploads/3f2a" "pdf")
                    (initial [("/app/uploads/3f2a", "docx bytes")])) in
   responses (trace st)
     = [Reply 500 (Part000.failure "LibreOffice conversion failed - output file not found")] /\
   files st = [("/app/uploads/3f2a.pdf", "pdf bytes")]) /\
  (let st := snd (ServerCjs.post_convert Samples.truncating
                    (Samples.request "photo.png" "uploads/3f2a.png" "webp")
                    (initial [("uploads/3f2a.png", "png bytes")])) in
   responses (trace st)
     = [Reply 500 (ServerCjs.failure "Conversion failed: Input buffer has corrupt header")] /\
   files st = [("uploads/3f2a.webp", "partial")]) /\
  (let st := snd (Part001.post_convert Samples.truncating
                    (Samples.request "photo.png" "/app/uploads/u-photo.png" "webp")
                    (initial [("/app/uploads/u-photo.png", "png bytes")])) in
   responses (trace st)
     = [Reply 500 (Part001.failure "Input buffer has corrupt header")] /\
   files st = [("/app/outputs/photo.webp", "partial")]).
Proof.
  split; [intros w f fs; repeat split; reflexivity |].
  repeat split; reflexivity.
Qed.

(* ===================================================================== *)
(** * Further properties of the three servers *)
(* ===================================================================== *)

(** ** part_000: capability probing *)

(** X1. [checkCapabilities] of part_000, when the probes it starts come to an
    end: the image flag is always on; the ffmpeg flag is the success of
    [ffmpeg -version]; the LibreOffice flag is on when
    [libreoffice --headless --version] succeeds, and otherwise -- and only
    then is the second command started -- when [soffice --headless --version]
    succeeds.  The function never throws. *)
Theorem X1_checkCapabilities_probes (w : World) (st : St) :
  let ff := Exec "ffmpeg -version" in
  let lo := Exec "libreoffice --headless --version" in
  let so := Exec "soffice --headless --version" in
  let s1 := after_run w ff None st in
  let s2 := after_run w lo None s1 in
  let s3 := after_run w so None s2 in
  run_time (behaves w ff (files st)) <> None ->
  run_time (behaves w lo (files s1)) <> None ->
  (run_ok (behaves w lo (files s1)) = false -> run_time (behaves w so (files s2)) <> None) ->
  Part000.checkCapabilities w st =
    (Ret {| Part000.sharp := true;
            Part000.ffmpeg := run_ok (behaves w ff (files st));
            Part000.libreoffice :=
              run_ok (behaves w lo (files s1)) || run_ok (behaves w so (files s2)) |},
     if run_ok (behaves w lo (files s1)) then s2 else s3).
Proof.
  intros ff lo so s1 s2 s3 Hff Hlo Hso.
  unfold Part000.checkCapabilities.
  unfold bind at 1. unfold attempt at 1.
  rewrite (Probing.exec_ended w "ffmpeg -version" st Hff).
  fold ff. fold s1.
  assert (Hnext :
    attempt (try_catch (exec w "libreoffice --headless --version" None)
               (fun _ => exec w "soffice --headless --version" None)) s1
    = (Ret (if run_ok (behaves w lo (files s1)) || run_ok (behaves w so (files s2))
            then inr tt else inl (command_failed "soffice --headless --version"
                                    (run_msg (behaves w so (files s2))))),
       if run_ok (behaves w lo (files s1)) then s2 else s3)).
  { unfold attempt, try_catch.
    rewrite (Probing.exec_ended w "libreoffice --headless --version" s1 Hlo).
    fold lo. fold s2.
    destruct (run_ok (behaves w lo (files s1))) eqn:Eok; [reflexivity |].
    rewrite (Probing.exec_ended w "soffice --headless --version" s2 (Hso eq_refl)).
    fold so. fold s3. cbn [orb].
    now destruct (run_ok (behaves w so (files s2))). }
  destruct (run_ok (behaves w ff (files st)));
    unfold bind; rewrite Hnext; unfold ret;
    destruct (run_ok (behaves w lo (files s1)) || run_ok (behaves w so (files s2)));
    reflexivity.
Qed.

Lemma X1_checkCapabilities_probes_witness :
  fst (Part000.checkCapabilities Samples.office_only (initial []))
    = Ret {| Part000.sharp := true; Part000.ffmpeg := false; Part000.libreoffice := true |} /\
  invocations (trace (snd (Part000.checkCapabilities Samples.bare (initial []))))
    = [(Exec "ffmpeg -version", None);
       (Exec "libreoffice --headless --version", None);
       (Exec "soffice --headless --version", None)] /\
  invocations (trace (snd (Part000.checkCapabilities Samples.office_only (initial []))))
    = [(Exec "ffmpeg -version", None);
       (Exec "libreoffice --headless --version", None)].
Proof.
  split; [| split].
  - rewrite (X1_checkCapabilities_probes Samples.office_only (initial []));
      [reflexivity | discriminate | discriminate | discriminate].
  - rewrite (X1_checkCapabilities_probes Samples.bare (initial []));
      [reflexivity | discriminate | discriminate | discriminate].
  - rewrite (X1_checkCapabilities_probes Samples.office_only (initial []));
      [reflexivity | discriminate | discriminate | discriminate].
Defined.

(** ** When a handler answers *)

(** Like [crunch], and also splits on file reads, directory searches, the
    ending of a spawned tool and the encoder switches. *)
Ltac crunch_all :=
  repeat first
    [ progress unfold bind, try_catch, attempt, in_callback, ret, throw, halt, log,
        existsSync, readdirSync, writeFileSync, unlink_if_exists, unlinkSync, update_fs,
        copyFileSync, moveSync, res_json, res_download, exec, run_tool, spawn, find
    | progress cbn [files trace elapsed initial fst snd negb push with_files after_run
                    Part000.cleanup app responses invocations length]
    | match goal with
      | |- context [match verdict ?r ?t with _ => _ end] => destruct (verdict r t) eqn:?
      | |- context [match Fs.read ?p ?f with _ => _ end] => destruct (Fs.read p f) eqn:?
      | |- context [match List.find ?p ?l with _ => _ end] => destruct (List.find p l) eqn:?
      | |- context [match run_time ?r with _ => _ end] => destruct (run_time r) eqn:?
      | |- context [match run_end ?r with _ => _ end] => destruct (run_end r) as [[|?]|] eqn:?
      | |- context [match ServerCjs.image_encoder ?f with _ => _ end] =>
          destruct (ServerCjs.image_encoder f) eqn:?
      | |- context [if ?b then _ else _] => destruct b eqn:?
      end ].

Module Answers.






End Answers.








(** ** What is left on disk once a request has been answered *)

Module Leftovers.

Ltac gone :=
  cbn [files with_files push after_run] in *;
  first
    [ apply FsFacts.exists_unlink_same
    | apply FsFacts.exists_unlink_other; apply FsFacts.exists_unlink_same
    | assumption
    | apply FsFacts.exists_unlink_other; assumption ].

(** Closes a goal [answer -> upload gone /\ (download -> file gone)] once the
    run has been evaluated. *)
Ltac settle :=
  let Hresp := fresh "Hresp" in
  intros Hresp;
  first
    [ now elim Hresp
    | split;
      [ gone
      | let p := fresh "p" in
        let n := fresh "n" in
        let c := fresh "c" in
        let H := fresh "H" in
        intros p n c H; first [discriminate H | injection H as <- _ _; gone] ] ].

End Leftovers.

(** X5. server.cjs: once the convert handler has answered a request that
    carried a file and an output format, the stored upload is no longer on
    disk; and when the answer was a download, neither is the file that was
    sent (the converted output or the note). *)
Theorem X5_server_answered_request_leaves_no_upload
    (w : World) (f : File) (format : string) (fs : Fs.t) :
  format <> "" ->
  let result := ServerCjs.post_convert w
                  {| file := Some f; outputFormat := Some format |} (initial fs) in
  responses (trace (snd result)) <> [] ->
  Fs.existsSync (path f) (files (snd result)) = false /\
  forall sent name content,
    responses (trace (snd result)) = [Download sent name content] ->
    Fs.existsSync sent (files (snd result)) = false.
Proof.
  intros Hf result. subst result.
  unfold ServerCjs.post_convert. cbn [file outputFormat missing].
  apply String.eqb_neq in Hf. rewrite Hf.
  unfold ServerCjs.dispatch, ServerCjs.ImageConverter_convert,
    ServerCjs.DocumentConverter_convert, ServerCjs.document_try, ServerCjs.document_fallback,
    ServerCjs.MediaConverter_convert, ServerCjs.media_try, ServerCjs.media_fallback,
    ServerCjs.cleanup_after_download.
  crunch_all; Leftovers.settle.
Qed.

Lemma X5_server_answered_request_leaves_no_upload_witness :
  Fs.existsSync "uploads/3f2a.png"
    (files (snd (ServerCjs.post_convert Samples.failing
                   (Samples.request "photo.png" "uploads/3f2a.png" "webp")
                   (initial [("uploads/3f2a.png", "png bytes")])))) = false.
Proof.
  refine (proj1 (X5_server_answered_request_leaves_no_upload Samples.failing
                   (Samples.upload "photo.png" "uploads/3f2a.png") "webp"
                   [("uploads/3f2a.png", "png bytes")] _ _));
    [discriminate | vm_compute; discriminate].
Defined.

(** X6. part_000: once the convert handler has answered a request that
    carried a file and an output format, neither the stored upload nor the
    planned output path [{uploads}/converted_{now}_{name}.{format}] is on
    disk. *)
Theorem X6_part000_answered_request_leaves_no_temp_file
    (w : World) (f : File) (format : string) (fs : Fs.t) :
  format <> "" ->
  let result := Part000.post_convert w
                  {| file := Some f; outputFormat := Some format |} (initial fs) in
  let outputPath :=
    Path.join (Part000.uploadsDir w)
      ("converted_" ++ of_N (clock_ms w) ++ "_"
         ++ (Path.parse_name (originalname f) ++ "." ++ format)) in
  responses (trace (snd result)) <> [] ->
  Fs.existsSync (path f) (files (snd result)) = false /\
  Fs.existsSync outputPath (files (snd result)) = false.
Proof.
  intros Hf result outputPath. subst result.
  unfold Part000.post_convert. cbn [file outputFormat missing].
  apply String.eqb_neq in Hf. rewrite Hf. fold outputPath.
  unfold Part000.convert_body, Part000.convertWithLibreOffice, Part000.find_output.
  crunch_all; intros Hresp; first [now elim Hresp | split; Leftovers.gone].
Qed.

Lemma X6_part000_answered_request_leaves_no_temp_file_witness :
  Fs.existsSync "/app/uploads/converted_1700000000000_clip.webm"
    (files (snd (Part000.post_convert (Samples.healthy [])
                   (Samples.request "clip.mov" "/app/uploads/3f2a" "webm")
                   (initial [("/app/uploads/3f2a", "mov bytes")])))) = false.
Proof.
  refine (proj2 (X6_part000_answered_request_leaves_no_temp_file (Samples.healthy [])
                   (Samples.upload "clip.mov" "/app/uploads/3f2a") "webm"
                   [("/app/uploads/3f2a", "mov bytes")] _ _));
    [discriminate | vm_compute; discriminate].
Defined.

(** X7. part_001: once the convert handler has answered a request that
    carried a file and an output format, the stored upload is no longer on
    disk; and when the answer was a download, neither is the output file. *)
Theorem X7_part001_answered_request_leaves_no_upload
    (w : World) (f : File) (format : string) (fs : Fs.t) :
  format <> "" ->
  let result := Part001.post_convert w
                  {| file := Some f; outputFormat := Some format |} (initial fs) in
  responses (trace (snd result)) <> [] ->
  Fs.existsSync (path f) (files (snd result)) = false /\
  forall sent name content,
    responses (trace (snd result)) = [Download sent name content] ->
    Fs.existsSync sent (files (snd result)) = false.
Proof.
  intros Hf result. subst result.
  unfold Part001.post_convert. cbn [file outputFormat missing].
  apply String.eqb_neq in Hf. rewrite Hf.
  unfold Part001.dispatch, Part001.convertImage, Part001.convertMedia,
    Part001.convertDocument.
  crunch_all; Leftovers.settle.
Qed.

Lemma X7_part001_answered_request_leaves_no_upload_witness :
  Fs.existsSync "/app/uploads/17-song.wav"
    (files (snd (Part001.post_convert (Samples.healthy [])
                   (Samples.request "song.wav" "/app/uploads/17-song.wav" "mp3")
                   (initial [("/app/uploads/17-song.wav", "wav bytes")])))) = false.
Proof.
  refine (proj1 (X7_part001_answered_request_leaves_no_upload (Samples.healthy [])
                   (Samples.upload "song.wav" "/app/uploads/17-song.wav") "mp3"
                   [("/app/uploads/17-song.wav", "wav bytes")] _ _));
    [discriminate | vm_compute; discriminate].
Defined.

(** ** Classification and target selection do not depend on letter case *)

Module CaseFacts.

Lemma lower_upper (c : ascii) : lower_ascii (upper_ascii c) = lower_ascii c.
Proof. destruct c as [[] [] [] [] [] [] [] []]; reflexivity. Qed.

Lemma upper_lower (c : ascii) : upper_ascii (lower_ascii c) = upper_ascii c.
Proof. destruct c as [[] [] [] [] [] [] [] []]; reflexivity. Qed.

Lemma lower_lower (c : ascii) : lower_ascii (lower_ascii c) = lower_ascii c.
Proof. destruct c as [[] [] [] [] [] [] [] []]; reflexivity. Qed.

Lemma upper_upper (c : ascii) : upper_ascii (upper_ascii c) = upper_ascii c.
Proof. destruct c as [[] [] [] [] [] [] [] []]; reflexivity. Qed.

Lemma toLowerCase_toUpperCase (s : string) : toLowerCase (toUpperCase s) = toLowerCase s.
Proof.
  unfold toLowerCase, toUpperCase.
  induction s as [|c s IH]; simpl; [reflexivity | now rewrite lower_upper, IH].
Qed.

Lemma toUpperCase_toLowerCase (s : string) : toUpperCase (toLowerCase s) = toUpperCase s.
Proof.
  unfold toLowerCase, toUpperCase.
  induction s as [|c s IH]; simpl; [reflexivity | now rewrite upper_lower, IH].
Qed.

Lemma toLowerCase_idem (s : string) : toLowerCase (toLowerCase s) = toLowerCase s.
Proof.
  unfold toLowerCase.
  induction s as [|c s IH]; simpl; [reflexivity | now rewrite lower_lower, IH].
Qed.

Lemma toUpperCase_idem (s : string) : toUpperCase (toUpperCase s) = toUpperCase s.
Proof.
  unfold toUpperCase.
  induction s as [|c s IH]; simpl; [reflexivity | now rewrite upper_upper, IH].
Qed.

Lemma lower_keeps_marks : keeps_marks lower_ascii.
Proof. intros c. destruct c as [[] [] [] [] [] [] [] []]; split; reflexivity. Qed.

Lemma upper_keeps_marks : keeps_marks upper_ascii.
Proof. intros c. destruct c as [[] [] [] [] [] [] [] []]; split; reflexivity. Qed.

Section Mapped.
Variable f : ascii -> ascii.
Hypothesis Hf : keeps_marks f.

Lemma chars_map (s : string) : Path.chars (map_string f s) = map f (Path.chars s).
Proof. unfold Path.chars. induction s as [|c s IH]; simpl; [reflexivity | now rewrite IH]. Qed.

Lemma str_map (l : list ascii) : Path.str (map f l) = map_string f (Path.str l).
Proof. unfold Path.str. induction l as [|c l IH]; simpl; [reflexivity | now rewrite IH]. Qed.

Lemma takeWhile_map (p : ascii -> bool) (l : list ascii) :
  (forall c, p (f c) = p c) ->
  Path.takeWhile p (map f l) = map f (Path.takeWhile p l).
Proof.
  intros Hp. induction l as [|c l IH]; simpl; [reflexivity |].
  rewrite Hp. destruct (p c); simpl; [now rewrite IH | reflexivity].
Qed.

Lemma dropWhile_map (p : ascii -> bool) (l : list ascii) :
  (forall c, p (f c) = p c) ->
  Path.dropWhile p (map f l) = map f (Path.dropWhile p l).
Proof.
  intros Hp. induction l as [|c l IH]; simpl; [reflexivity |].
  rewrite Hp. destruct (p c); simpl; [exact IH | reflexivity].
Qed.

Lemma not_slash_map (c : ascii) : negb (Path.is_slash (f c)) = negb (Path.is_slash c).
Proof. now rewrite (proj1 (Hf c)). Qed.

Lemma not_dot_map (c : ascii) : negb (Path.is_dot (f c)) = negb (Path.is_dot c).
Proof. now rewrite (proj2 (Hf c)). Qed.

Lemma rev_component_map (p : string) :
  Path.rev_component (map_string f p) = map f (Path.rev_component p).
Proof.
  unfold Path.rev_component.
  rewrite chars_map, <- map_rev.
  rewrite (dropWhile_map Path.is_slash) by (intros c; apply (Hf c)).
  apply takeWhile_map. exact not_slash_map.
Qed.

Lemma dotdot_map (l : list ascii) :
  (Path.str (map f l) =? "..") = (Path.str l =? "..").
Proof.
  destruct l as [|a [|b [|c l]]]; try reflexivity; unfold Path.str; simpl;
    change (Ascii.eqb (f a) ".") with (Path.is_dot (f a));
    rewrite (proj2 (Hf a)); try reflexivity;
    change (Ascii.eqb (f b) ".") with (Path.is_dot (f b));
    rewrite (proj2 (Hf b)); reflexivity.
Qed.

Lemma dot_fixed : f "."%char = "."%char.
Proof.
  pose proof (proj2 (Hf "."%char)) as H. unfold Path.is_dot in H.
  change (Ascii.eqb "." ".") with true in H. now apply Ascii.eqb_eq in H.
Qed.

(** The extension of a mapped path is the mapped extension. *)
Lemma extname_map (p : string) :
  Path.extname (map_string f p) = map_string f (Path.extname p).
Proof.
  unfold Path.extname. rewrite rev_component_map.
  rewrite (dropWhile_map _ _ not_dot_map), (takeWhile_map _ _ not_dot_map).
  destruct (Path.dropWhile _ (Path.rev_component p)) as [|d [|s stem]]; try reflexivity.
  cbn [map]. rewrite <- !map_rev, dotdot_map.
  destruct (Path.str (rev (Path.rev_component p)) =? ".."); [reflexivity |].
  rewrite <- dot_fixed at 1. rewrite <- map_cons. apply str_map.
Qed.

End Mapped.

Lemma slice1_map (f : ascii -> ascii) (s : string) :
  slice1 (map_string f s) = map_string f (slice1 s).
Proof. destruct s; reflexivity. Qed.

(** The key both classifiers use is the same for a name and for the name in
    capitals or in small letters. *)
Lemma ext_key_upper (name : string) :
  toLowerCase (slice1 (Path.extname (toUpperCase name)))
    = toLowerCase (slice1 (Path.extname name)).
Proof.
  unfold toUpperCase at 1. rewrite (extname_map _ upper_keeps_marks), slice1_map.
  apply toLowerCase_toUpperCase.
Qed.

Lemma ext_key_lower (name : string) :
  toLowerCase (slice1 (Path.extname (toLowerCase name)))
    = toLowerCase (slice1 (Path.extname name)).
Proof.
  unfold toLowerCase at 2. rewrite (extname_map _ lower_keeps_marks), slice1_map.
  apply toLowerCase_idem.
Qed.

End CaseFacts.

(** X8. Classification ignores letter case: in server.cjs and in part_001 a
    file name of ASCII characters, the same name in capitals and the same
    name in small letters get the same category.  (Beyond ASCII JavaScript's
    case mappings can change the extension, so the property stops there.) *)
Theorem X8_classification_ignores_case (name : string) :
  ascii_only name = true ->
  ServerCjs.getFileCategory (toUpperCase name) = ServerCjs.getFileCategory name /\
  ServerCjs.getFileCategory (toLowerCase name) = ServerCjs.getFileCategory name /\
  Part001.getFileCategory (toUpperCase name) = Part001.getFileCategory name /\
  Part001.getFileCategory (toLowerCase name) = Part001.getFileCategory name.
Proof.
  intros _.
  unfold ServerCjs.getFileCategory, ServerCjs.file_ext,
    Part001.getFileCategory, Part001.file_ext.
  rewrite !slice1_toLowerCase.
  now rewrite !CaseFacts.ext_key_upper, !CaseFacts.ext_key_lower.
Qed.

Lemma X8_classification_ignores_case_witness :
  ServerCjs.getFileCategory "HOLIDAY.JPEG" = ServerCjs.getFileCategory "Holiday.Jpeg" /\
  Part001.getFileCategory "holiday.jpeg" = Part001.getFileCategory "Holiday.Jpeg".
Proof.
  destruct (X8_classification_ignores_case "Holiday.Jpeg" eq_refl)
    as (Hupper & _ & _ & Hlower).
  split; [exact Hupper | exact Hlower].
Defined.

(** X9. The category switch of both handlers is exhaustive for what
    [getFileCategory] returns: the category is always one of the four names,
    so [dispatch] always enters one of the three converters and its
    [Unsupported file category] branch is never taken. *)
Theorem X9_dispatch_is_exhaustive
    (w : World) (name inputPath outputPath format : string) :
  (In (ServerCjs.getFileCategory name) ["images"; "documents"; "audio"; "video"] /\
   (ServerCjs.dispatch w (ServerCjs.getFileCategory name) inputPath format
      = ServerCjs.ImageConverter_convert w inputPath format
    \/ ServerCjs.dispatch w (ServerCjs.getFileCategory name) inputPath format
      = ServerCjs.DocumentConverter_convert w inputPath format
    \/ ServerCjs.dispatch w (ServerCjs.getFileCategory name) inputPath format
      = ServerCjs.MediaConverter_convert w inputPath format)) /\
  (In (Part001.getFileCategory name) ["image"; "document"; "audio"; "video"] /\
   (Part001.dispatch w (Part001.getFileCategory name) inputPath outputPath format
      = Part001.convertImage w inputPath outputPath format
    \/ Part001.dispatch w (Part001.getFileCategory name) inputPath outputPath format
      = Part001.convertDocument w inputPath outputPath format
    \/ Part001.dispatch w (Part001.getFileCategory name) inputPath outputPath format
      = Part001.convertMedia w inputPath outputPath format)).
Proof.
  split.
  - unfold ServerCjs.getFileCategory, ServerCjs.category_of.
    destruct (includes ServerCjs.imageExts _); [split; [simpl; tauto | left; reflexivity] |].
    destruct (includes ServerCjs.docExts _);
      [split; [simpl; tauto | right; left; reflexivity] |].
    destruct (includes ServerCjs.audioExts _);
      [split; [simpl; tauto | right; right; reflexivity] |].
    destruct (includes ServerCjs.videoExts _);
      [split; [simpl; tauto | right; right; reflexivity] |].
    split; [simpl; tauto | right; left; reflexivity].
  - unfold Part001.getFileCategory, Part001.category_of, Part001.categories,
      Part001.first_category.
    repeat match goal with
           | |- context [if includes ?l ?x then _ else _] => destruct (includes l x)
           end;
      (split; [simpl; tauto |]);
      first [ left; reflexivity | right; left; reflexivity | right; right; reflexivity ].
Qed.

(** X10. The two classifiers agree, up to the spelling of the category
    ([images]/[image], [documents]/[document]), on every file name whose
    lower-cased extension is not one of [svg], [ico], [wma], [flv]; those
    four part_001 knows as image, audio and video while server.cjs files them
    under documents. *)
Theorem X10_classifiers_agree (name : string) :
  let ext := toLowerCase (slice1 (Path.extname name)) in
  let singular (category : string) :=
    if category =? "images" then "image"
    else if category =? "documents" then "document"
    else category in
  (~ In ext ["svg"; "ico"; "wma"; "flv"] ->
   singular (ServerCjs.getFileCategory name) = Part001.getFileCategory name) /\
  (In ext ["svg"; "ico"; "wma"; "flv"] ->
   ServerCjs.getFileCategory name = "documents" /\
   Part001.getFileCategory name <> "document").
Proof.
  intros ext singular.
  unfold ServerCjs.getFileCategory, ServerCjs.file_ext,
    Part001.getFileCategory, Part001.file_ext.
  rewrite slice1_toLowerCase. fold ext.
  split.
  - intros Hnot. apply includes_not_In in Hnot.
    unfold includes in Hnot. cbn [existsb] in Hnot.
    repeat (apply orb_false_iff in Hnot as [? Hnot]).
    unfold ServerCjs.category_of, Part001.category_of, Part001.categories,
      Part001.first_category, ServerCjs.imageExts, ServerCjs.docExts,
      ServerCjs.audioExts, ServerCjs.videoExts, includes.
    cbn [existsb].
    repeat match goal with
           | H : (_ =? _) = false |- _ => rewrite H; clear H
           end.
    subst singular. clearbody ext.
    repeat match goal with
           | |- context [?e =? ?s] =>
               is_var e; destruct (String.eqb_spec e s) as [-> | ?]; [reflexivity |]
           end.
    reflexivity.
  - intros Hin. cbv [In] in Hin.
    repeat (destruct Hin as [<- | Hin]; [split; [reflexivity | discriminate] |]).
    destruct Hin.
Qed.

Lemma X10_classifiers_agree_witness :
  Part001.getFileCategory "Holiday.JPEG" = "image" /\
  ServerCjs.getFileCategory "Holiday.JPEG" = "images" /\
  ServerCjs.getFileCategory "logo.svg" = "documents" /\
  Part001.getFileCategory "logo.svg" = "image".
Proof.
  destruct (X10_classifiers_agree "Holiday.JPEG") as [Hagree _].
  destruct (X10_classifiers_agree "logo.svg") as [_ Hdiffer].
  split; [rewrite <- Hagree; [reflexivity | vm_compute; intuition discriminate] |].
  split; [reflexivity |].
  split; [apply Hdiffer; vm_compute; tauto | reflexivity].
Defined.

(** X11. The converters of server.cjs and part_001 choose encoder and codecs
    from the target format without regard to letter case: for a format of
    ASCII characters, asking for [WebP], [WEBP] or [webp] sets the same
    options. *)
Theorem X11_target_options_ignore_case (format : string) :
  ascii_only format = true ->
  ServerCjs.image_encoder (toLowerCase format) = ServerCjs.image_encoder format /\
  ServerCjs.image_encoder (toUpperCase format) = ServerCjs.image_encoder format /\
  ServerCjs.media_options (toLowerCase format) = ServerCjs.media_options format /\
  ServerCjs.media_options (toUpperCase format) = ServerCjs.media_options format /\
  Part001.image_encoder (toLowerCase format) = Part001.image_encoder format /\
  Part001.image_encoder (toUpperCase format) = Part001.image_encoder format /\
  Part001.media_options (toLowerCase format) = Part001.media_options format /\
  Part001.media_options (toUpperCase format) = Part001.media_options format.
Proof.
  intros _.
  unfold ServerCjs.image_encoder, ServerCjs.media_options,
    Part001.image_encoder, Part001.media_options.
  rewrite CaseFacts.toUpperCase_toLowerCase, CaseFacts.toUpperCase_idem,
    CaseFacts.toLowerCase_toUpperCase, CaseFacts.toLowerCase_idem.
  repeat split; reflexivity.
Qed.

Lemma X11_target_options_ignore_case_witness :
  ServerCjs.image_encoder "webp" = ServerCjs.image_encoder "WebP" /\
  Part001.media_options "WEBM" = Part001.media_options "WebM".
Proof.
  split.
  - exact (proj1 (X11_target_options_ignore_case "WebP" eq_refl)).
  - exact (proj2 (proj2 (proj2 (proj2 (proj2 (proj2 (proj2
             (X11_target_options_ignore_case "WebM" eq_refl)))))))).
Defined.

Module TempDir.

Lemma removed (d p : string) (fs : Fs.t) :
  String.prefix (d ++ "/") p = true ->
  Fs.existsSync p (Fs.removeSync d fs) = false.
Proof.
  intros Hp. unfold Fs.existsSync, Fs.removeSync.
  induction fs as [|e fs IH]; [reflexivity |].
  cbn [filter]. destruct (Fs.is_path p e) eqn:He.
  - unfold Fs.is_path in He. apply String.eqb_eq in He. rewrite He, Hp.
    rewrite orb_true_r. exact IH.
  - destruct (negb _); [cbn [existsb]; rewrite He |]; exact IH.
Qed.

End TempDir.

(** X12. [convertWithLibreOffice] of part_000 removes its temporary
    directory whatever the outcome: when the input file exists, no file below
    [{app}/temp/{uuid}] is on disk once the promise has settled -- neither the
    copy of the input nor anything the tool left there. *)
Theorem X12_temp_directory_removed
    (w : World) (inputPath outputDir outputFormat : string) (st : St) (p : string) :
  let tempDir := Path.join (Path.join (app_dir w) "temp") (uuid w) in
  Fs.read inputPath (files st) <> None ->
  String.prefix (tempDir ++ "/") p = true ->
  Fs.existsSync p
    (files (snd (Part000.convertWithLibreOffice w inputPath outputDir outputFormat st)))
    = false.
Proof.
  intros tempDir Hin Hp.
  destruct (Part000.convertWithLibreOffice w inputPath outputDir outputFormat st)
    as [o s] eqn:Hres. cbn [snd].
  unfold Part000.convertWithLibreOffice in Hres. fold tempDir in Hres.
  unfold bind at 1 in Hres. unfold copyFileSync in Hres.
  destruct (Fs.read inputPath (files st)) as [c |]; [| now elim Hin].
  unfold update_fs at 1 in Hres. unfold bind at 1 in Hres. unfold attempt in Hres.
  destruct (Timeouts.exec_with_timeout w
              (Part000.libreoffice_command outputFormat outputDir
                 (Path.join tempDir (Path.basename inputPath)))
              30000
              (with_files (Fs.writeFileSync (Path.join tempDir (Path.basename inputPath)) c
                             (files st)) st)) as [[Hexec _] | [Hexec _]];
    rewrite Hexec in Hres; unfold bind, update_fs in Hres.
  - match type of Hres with
    | Part000.find_output _ _ _ ?s1 = _ =>
        destruct (Timeouts.find_output_state inputPath outputDir outputFormat s1)
          as [Hst _]
    end.
    rewrite Hres in Hst. cbn [snd] in Hst. subst s.
    cbn [files with_files]. now apply TempDir.removed.
  - unfold throw in Hres. injection Hres as _ <-.
    cbn [files with_files]. now apply TempDir.removed.
Qed.

Lemma X12_temp_directory_removed_witness :
  let result := Part000.convertWithLibreOffice
                  (Samples.healthy [("/app/uploads/3f2a.pdf", "pdf bytes");
                                    ("/app/temp/9b2e4f0a-7c1d-4e8b-a3f6-5d0c1b2a3e4f/.lock",
                                     "lock")])
                  "/app/uploads/3f2a" "/app/uploads" "pdf"
                  (initial [("/app/uploads/3f2a", "docx bytes")]) in
  Fs.existsSync "/app/temp/9b2e4f0a-7c1d-4e8b-a3f6-5d0c1b2a3e4f/3f2a" (files (snd result))
    = false /\
  Fs.existsSync "/app/temp/9b2e4f0a-7c1d-4e8b-a3f6-5d0c1b2a3e4f/.lock" (files (snd result))
    = false /\
  fst result = Ret "/app/uploads/3f2a.pdf".
Proof.
  split; [| split].
  - apply (X12_temp_directory_removed
             (Samples.healthy [("/app/uploads/3f2a.pdf", "pdf bytes");
                               ("/app/temp/9b2e4f0a-7c1d-4e8b-a3f6-5d0c1b2a3e4f/.lock",
                                "lock")])); [discriminate | reflexivity].
  - apply (X12_temp_directory_removed
             (Samples.healthy [("/app/uploads/3f2a.pdf", "pdf bytes");
                               ("/app/temp/9b2e4f0a-7c1d-4e8b-a3f6-5d0c1b2a3e4f/.lock",
                                "lock")])); [discriminate | reflexivity].
  - reflexivity.
Defined.

(** X13. part_000 refuses what it has no branch for: when the upload's
    lower-cased extension is in neither the media nor the document list, and
    it is not an image asked to become one of the (lower-case) image formats,
    the handler starts no tool, removes the stored upload and answers 500
    with [Unsupported conversion: {ext} to {format}].  The target is compared
    as typed, so a png asked to become [JPG] is refused. *)
Theorem X13_part000_unsupported_conversion
    (w : World) (f : File) (format : string) (fs : Fs.t) :
  let inputExt := slice1 (toLowerCase (Path.extname (originalname f))) in
  let outputPath :=
    Path.join (Part000.uploadsDir w)
      ("converted_" ++ of_N (clock_ms w) ++ "_"
         ++ (Path.parse_name (originalname f) ++ "." ++ format)) in
  format <> "" ->
  includes Part000.image_formats inputExt && includes Part000.image_formats format = false ->
  includes Part000.media_formats inputExt = false ->
  includes Part000.document_formats inputExt = false ->
  Part000.post_convert w {| file := Some f; outputFormat := Some format |} (initial fs)
    = (Ret tt,
       {| files := Fs.unlinkSync outputPath (Fs.unlinkSync (path f) fs);
          trace := [EvSend (Reply 500 (Part000.failure
                      ("Unsupported conversion: " ++ inputExt ++ " to " ++ format)))];
          elapsed := 0 |}).
Proof.
  intros inputExt outputPath Hf Himg Hmedia Hdoc.
  unfold Part000.post_convert. cbn [file outputFormat missing].
  apply String.eqb_neq in Hf. rewrite Hf. fold outputPath.
  unfold Part000.convert_body. fold inputExt. rewrite Himg, Hmedia, Hdoc.
  unfold try_catch, bind at 1. unfold bind at 1. unfold throw at 1.
  cbn [Part000.cleanup]. unfold try_catch, bind.
  rewrite !unlink_if_exists_run. reflexivity.
Qed.

Lemma X13_part000_unsupported_conversion_witness :
  responses (trace (snd (Part000.post_convert (Samples.healthy [])
     (Samples.request "photo.png" "/app/uploads/3f2a" "JPG")
     (initial [("/app/uploads/3f2a", "png bytes")]))))
  = [Reply 500 (Part000.failure "Unsupported conversion: png to JPG")] /\
  responses (trace (snd (Part000.post_convert (Samples.healthy [])
     (Samples.request "archive.zip" "/app/uploads/77aa" "pdf")
     (initial [("/app/uploads/77aa", "zip bytes")]))))
  = [Reply 500 (Part000.failure "Unsupported conversion: zip to pdf")].
Proof.
  split.
  - rewrite (X13_part000_unsupported_conversion (Samples.healthy [])
               (Samples.upload "photo.png" "/app/uploads/3f2a") "JPG");
      [reflexivity | discriminate | reflexivity | reflexivity | reflexivity].
  - rewrite (X13_part000_unsupported_conversion (Samples.healthy [])
               (Samples.upload "archive.zip" "/app/uploads/77aa") "pdf");
      [reflexivity | discriminate | reflexivity | reflexivity | reflexivity].
Defined.

(** ** Deliveries, failures and refusals, variant by variant *)

(** X14. server.cjs, image jobs that fail.  The case [BMP] of the switch
    calls a method sharp does not have: the job ends before any tool is
    started, with HTTP 500 [Conversion failed: sharpInstance.bmp is not a
    function], and the stored upload is removed.  For the other targets of
    the switch, when sharp rejects, the answer is HTTP 500 with sharp's
    message and the stored upload is removed; nothing is downloaded. *)
Theorem X14_server_image_failure
    (w : World) (f : File) (format : string) (fs : Fs.t) :
  let request := {| file := Some f; outputFormat := Some format |} in
  format <> "" ->
  ServerCjs.getFileCategory (originalname f) = "images" ->
  (toUpperCase format = "BMP" ->
   ServerCjs.post_convert w request (initial fs)
     = (Ret tt,
        {| files := Fs.unlinkSync (path f) fs;
           trace := [EvAdapter "ImageConverter";
                     EvSend (Reply 500 (ServerCjs.failure
                       "Conversion failed: sharpInstance.bmp is not a function"))];
           elapsed := 0 |})) /\
  (forall (enc : Encoder) (msg : string),
     let inv := SharpToFile (path f) (Some enc)
                  (ServerCjs.replaced_output (path f) format) in
     let st1 := after_run w inv None (push (EvAdapter "ImageConverter") (initial fs)) in
     ServerCjs.image_encoder format = Some enc ->
     sharp_has enc = true ->
     verdict (behaves w inv fs) None = Errored msg ->
     ServerCjs.post_convert w request (initial fs)
       = (Ret tt,
          with_files (Fs.unlinkSync (path f) (files st1))
            (push (EvSend (Reply 500 (ServerCjs.failure ("Conversion failed: " ++ msg))))
               st1))).
Proof.
  intros request Hf Hc. subst request.
  apply String.eqb_neq in Hf.
  split.
  - intros Hbmp.
    unfold ServerCjs.post_convert. cbn [file outputFormat missing]. rewrite Hf, Hc.
    unfold ServerCjs.dispatch. cbn [String.eqb Ascii.eqb Bool.eqb].
    unfold ServerCjs.ImageConverter_convert, ServerCjs.image_encoder. rewrite Hbmp.
    cbn [String.eqb Ascii.eqb Bool.eqb orb sharp_has].
    unfold try_catch, bind, log, throw. rewrite unlink_if_exists_run. reflexivity.
  - intros enc msg inv st1 Henc Hhas Hv.
    unfold ServerCjs.post_convert. cbn [file outputFormat missing]. rewrite Hf, Hc.
    unfold ServerCjs.dispatch. cbn [String.eqb Ascii.eqb Bool.eqb].
    unfold ServerCjs.ImageConverter_convert. rewrite Henc, Hhas. fold inv.
    unfold try_catch at 1. unfold try_catch at 1.
    unfold bind at 1. unfold bind at 1. unfold log.
    unfold bind at 1. unfold run_tool.
    change (files (push (EvAdapter "ImageConverter") (initial fs))) with fs.
    rewrite Hv. fold st1.
    unfold bind. rewrite unlink_if_exists_run. reflexivity.
Qed.

Lemma X14_server_image_failure_witness :
  responses (trace (snd (ServerCjs.post_convert (Samples.healthy [])
     (Samples.request "photo.png" "uploads/3f2a" "bmp")
     (initial [("uploads/3f2a", "png bytes")]))))
  = [Reply 500 (ServerCjs.failure
       "Conversion failed: sharpInstance.bmp is not a function")] /\
  responses (trace (snd (ServerCjs.post_convert Samples.failing
     (Samples.request "photo.png" "uploads/3f2a" "WebP")
     (initial [("uploads/3f2a", "png bytes")]))))
  = [Reply 500 (ServerCjs.failure
       "Conversion failed: Input file contains unsupported image format")] /\
  invocations (trace (snd (ServerCjs.post_convert Samples.failing
     (Samples.request "photo.png" "uploads/3f2a" "WebP")
     (initial [("uploads/3f2a", "png bytes")]))))
  = [(SharpToFile "uploads/3f2a" (Some (EncWebp 90)) ".webpuploads/3f2a", None)].
Proof.
  unfold Samples.request.
  destruct (X14_server_image_failure (Samples.healthy [])
              (Samples.upload "photo.png" "uploads/3f2a") "bmp"
              [("uploads/3f2a", "png bytes")]) as [Hbmp _];
    [discriminate | reflexivity |].
  destruct (X14_server_image_failure Samples.failing
              (Samples.upload "photo.png" "uploads/3f2a") "WebP"
              [("uploads/3f2a", "png bytes")]) as [_ Hsharp];
    [discriminate | reflexivity |].
  rewrite (Hbmp eq_refl).
  rewrite (Hsharp (EncWebp 90) "Input file contains unsupported image format"
             eq_refl eq_refl eq_refl).
  repeat split; reflexivity.
Defined.

(** X15. server.cjs, a document job when LibreOffice is not installed: if the
    probe [which soffice || which libreoffice] fails, no conversion command is
    started; the converter writes its note (or, for the target TXT, the basic
    text) into the upload's directory and the request ends as a download of
    it. *)
Theorem X15_server_document_without_libreoffice
    (w : World) (f : File) (format : string) (fs : Fs.t) (d : N) :
  let probe := behaves w (Exec ServerCjs.which_command) fs in
  let ph := ServerCjs.document_placeholder w (path f) format in
  let result := ServerCjs.post_convert w
                  {| file := Some f; outputFormat := Some format |} (initial fs) in
  format <> "" ->
  ServerCjs.getFileCategory (originalname f) = "documents" ->
  run_time probe = Some d -> run_ok probe = false ->
  dir_exists w (Path.dirname (fst ph)) = true ->
  fst result = Ret tt /\
  invocations (trace (snd result)) = [(Exec ServerCjs.which_command, None)] /\
  responses (trace (snd result))
    = [Download (fst ph)
         (Path.parse_name (originalname f) ++ "." ++ toLowerCase format)
         (Some (snd ph))].
Proof.
  intros probe ph result Hf Hc Hd Hok Hdir. subst result.
  assert (Htry : ServerCjs.document_try w (path f) format
                   (push (EvAdapter "DocumentConverter") (initial fs))
                 = (Throw (command_failed ServerCjs.which_command (run_msg probe)),
                    after_run w (Exec ServerCjs.which_command) None
                      (push (EvAdapter "DocumentConverter") (initial fs)))).
  { unfold ServerCjs.document_try. unfold bind at 1.
    rewrite Probing.exec_ended
      by (change (files (push (EvAdapter "DocumentConverter") (initial fs))) with fs;
          fold probe; now rewrite Hd).
    change (files (push (EvAdapter "DocumentConverter") (initial fs))) with fs.
    fold probe. now rewrite Hok. }
  assert (Hrun :
    ServerCjs.post_convert w {| file := Some f; outputFormat := Some format |} (initial fs)
    = (Ret tt,
       with_files
         (Fs.unlinkSync (fst ph)
            (Fs.unlinkSync (path f)
               (Fs.writeFileSync (fst ph) (snd ph)
                  (files (after_run w (Exec ServerCjs.which_command) None
                            (push (EvAdapter "DocumentConverter") (initial fs)))))))
         (push (EvSend (Download (fst ph)
                          (Path.parse_name (originalname f) ++ "." ++ toLowerCase format)
                          (Some (snd ph))))
            (after_run w (Exec ServerCjs.which_command) None
               (push (EvAdapter "DocumentConverter") (initial fs)))))).
  { unfold ServerCjs.post_convert. cbn [file outputFormat missing].
    apply String.eqb_neq in Hf. rewrite Hf, Hc.
    unfold ServerCjs.dispatch. cbn [String.eqb Ascii.eqb Bool.eqb].
    unfold ServerCjs.DocumentConverter_convert.
    unfold try_catch at 1. unfold try_catch at 1. unfold bind at 1. unfold bind at 1.
    unfold log. unfold try_catch at 1. rewrite Htry.
    rewrite Degradation.document_fallback_run by exact Hdir. fold ph.
    rewrite (Degradation.server_deliver (path f) (fst ph) _ (snd ph))
      by (cbn [files with_files]; apply FsFacts.read_write).
    reflexivity. }
  rewrite Hrun. repeat split.
Qed.

Lemma X15_server_document_without_libreoffice_witness :
  responses (trace (snd (ServerCjs.post_convert Samples.bare
     (Samples.request "report.docx" "uploads/3f2a" "txt")
     (initial [("uploads/3f2a", "docx bytes")]))))
  = [Download "uploads/3f2a.txt" "report.txt"
       (Some (ServerCjs.txt_content "2024-05-01T10:00:00.000Z" "uploads/3f2a"))].
Proof.
  destruct (X15_server_document_without_libreoffice Samples.bare
              (Samples.upload "report.docx" "uploads/3f2a") "txt"
              [("uploads/3f2a", "docx bytes")] 3)
    as (_ & _ & Hresp);
    [discriminate | reflexivity | reflexivity | reflexivity | reflexivity |].
  exact Hresp.
Defined.

Module DocumentJob.

(** The state of part_001's document conversion once LibreOffice has exited
    with code 0. *)
Lemma spawned (w : World) (inputPath outputPath format : string) (st : St) (d : N) :
  let inv := SpawnProc "libreoffice"
               ["--headless"; "--convert-to"; toLowerCase format;
                "--outdir"; Path.dirname outputPath; inputPath] in
  let generatedFile :=
    Path.join (Path.dirname outputPath)
      (Path.basename_ext inputPath (Path.extname inputPath) ++ "." ++ toLowerCase format) in
  let st1 := after_run w inv None (push (EvAdapter "convertDocument") st) in
  run_time (behaves w inv (files st)) = Some d ->
  run_end (behaves w inv (files st)) = Exited 0 ->
  Part001.convertDocument w inputPath outputPath format st
    = (e <- existsSync generatedFile ;;
       if e then in_callback (moveSync generatedFile outputPath)
       else throw "Conversion failed - output file not found")%js st1.
Proof.
  intros inv generatedFile st1 Hd Hend.
  unfold Part001.convertDocument. fold inv. fold generatedFile.
  unfold bind at 1. unfold log. unfold bind at 1. unfold spawn. fold inv.
  change (files (push (EvAdapter "convertDocument") st)) with (files st).
  rewrite Hd, Hend. reflexivity.
Qed.

End DocumentJob.

(** X16. part_001, a document job that LibreOffice completes: when the tool
    exits with code 0, its file [{outputs}/{stored base}.{format in small
    letters}] is on disk, nothing sits at the planned output path yet, and
    that path is one Express serves under a plain file name, the file is
    moved to the output path, sent under the name [{original base}.{format}],
    and afterwards the stored upload and the output are removed. *)
Theorem X16_part001_document_delivery
    (w : World) (f : File) (format : string) (fs : Fs.t) (d : N) (content : string)
    (cwd : string) :
  let outputPath := Part001.output_path w (originalname f) format in
  let inv := SpawnProc "libreoffice"
               ["--headless"; "--convert-to"; toLowerCase format;
                "--outdir"; Path.dirname outputPath; path f] in
  let generatedFile :=
    Path.join (Path.dirname outputPath)
      (Path.basename_ext (path f) (Path.extname (path f)) ++ "." ++ toLowerCase format) in
  let st1 := after_run w inv None (push (EvAdapter "convertDocument") (initial fs)) in
  format <> "" ->
  Part001.getFileCategory (originalname f) = "document" ->
  run_time (behaves w inv fs) = Some d ->
  run_end (behaves w inv fs) = Exited 0 ->
  Fs.read generatedFile (files st1) = Some content ->
  Fs.existsSync outputPath (files st1) = false ->
  served cwd outputPath = true ->
  plain_name (Part001.output_file_name (originalname f) format) = true ->
  Part001.post_convert w {| file := Some f; outputFormat := Some format |} (initial fs)
    = (Ret tt,
       with_files
         (Fs.unlinkSync outputPath
            (Fs.unlinkSync (path f)
               (Fs.writeFileSync outputPath content
                  (Fs.unlinkSync generatedFile (files st1)))))
         (push (EvSend (Download outputPath
                          (Part001.output_file_name (originalname f) format)
                          (Some content))) st1)).
Proof.
  intros outputPath inv generatedFile st1 Hf Hc Hd Hend Hread Hfree _ _.
  unfold Part001.post_convert. cbn [file outputFormat missing].
  apply String.eqb_neq in Hf. rewrite Hf, Hc.
  unfold Part001.dispatch. cbn [String.eqb Ascii.eqb Bool.eqb orb].
  fold outputPath.
  unfold try_catch at 1. unfold try_catch at 1. unfold bind at 1.
  rewrite (DocumentJob.spawned w (path f) outputPath format (initial fs) d Hd Hend).
  fold inv. fold generatedFile. fold st1.
  assert (Hgen : Fs.existsSync generatedFile (files st1) = true)
    by (apply FsFacts.exists_read; eauto).
  unfold bind at 1. unfold existsSync at 1. rewrite Hgen.
  unfold in_callback, moveSync. rewrite Hread, Hfree.
  unfold update_fs. unfold bind at 1. unfold existsSync.
  cbn [files with_files]. rewrite FsFacts.exists_write. cbn [negb].
  unfold bind at 1. unfold res_download, log.
  cbn [files with_files]. rewrite FsFacts.read_write.
  unfold bind. rewrite !unlink_if_exists_run. reflexivity.
Qed.

Lemma X16_part001_document_delivery_witness :
  responses (trace (snd (Part001.post_convert
     (Samples.healthy [("/app/outputs/7c1d-report.pdf", "pdf bytes")])
     (Samples.request "report.docx" "/app/uploads/7c1d-report.docx" "pdf")
     (initial [("/app/uploads/7c1d-report.docx", "docx bytes")]))))
  = [Download "/app/outputs/report.pdf" "report.pdf" (Some "pdf bytes")] /\
  files (snd (Part001.post_convert
     (Samples.healthy [("/app/outputs/7c1d-report.pdf", "pdf bytes")])
     (Samples.request "report.docx" "/app/uploads/7c1d-report.docx" "pdf")
     (initial [("/app/uploads/7c1d-report.docx", "docx bytes")]))) = [].
Proof.
  unfold Samples.request.
  rewrite (X16_part001_document_delivery
             (Samples.healthy [("/app/outputs/7c1d-report.pdf", "pdf bytes")])
             (Samples.upload "report.docx" "/app/uploads/7c1d-report.docx") "pdf"
             [("/app/uploads/7c1d-report.docx", "docx bytes")] 1500 "pdf bytes" "/srv");
    [split; reflexivity | discriminate | reflexivity | reflexivity | reflexivity
     | reflexivity | reflexivity | reflexivity | reflexivity].
Defined.

(** X17. part_001, a document job whose output path is taken: when
    LibreOffice exits with code 0 and has written its file, but a file
    already sits at the planned output path (as after another job for a file
    of the same name), moving LibreOffice's file there throws inside the
    [close] listener; the promise is never settled, no response is written
    and the stored upload stays on disk. *)
Theorem X17_part001_document_output_taken
    (w : World) (f : File) (format : string) (fs : Fs.t) (d : N) (content : string) :
  let outputPath := Part001.output_path w (originalname f) format in
  let inv := SpawnProc "libreoffice"
               ["--headless"; "--convert-to"; toLowerCase format;
                "--outdir"; Path.dirname outputPath; path f] in
  let generatedFile :=
    Path.join (Path.dirname outputPath)
      (Path.basename_ext (path f) (Path.extname (path f)) ++ "." ++ toLowerCase format) in
  let st1 := after_run w inv None (push (EvAdapter "convertDocument") (initial fs)) in
  format <> "" ->
  Part001.getFileCategory (originalname f) = "document" ->
  run_time (behaves w inv fs) = Some d ->
  run_end (behaves w inv fs) = Exited 0 ->
  Fs.read generatedFile (files st1) = Some content ->
  generatedFile <> outputPath ->
  Fs.existsSync outputPath (files st1) = true ->
  Part001.post_convert w {| file := Some f; outputFormat := Some format |} (initial fs)
    = (Halt (Uncaught "dest already exists."), st1).
Proof.
  intros outputPath inv generatedFile st1 Hf Hc Hd Hend Hread Hne Htaken.
  unfold Part001.post_convert. cbn [file outputFormat missing].
  apply String.eqb_neq in Hf. rewrite Hf, Hc.
  unfold Part001.dispatch. cbn [String.eqb Ascii.eqb Bool.eqb orb].
  fold outputPath.
  unfold try_catch at 1. unfold try_catch at 1. unfold bind at 1.
  rewrite (DocumentJob.spawned w (path f) outputPath format (initial fs) d Hd Hend).
  fold inv. fold generatedFile. fold st1.
  assert (Hgen : Fs.existsSync generatedFile (files st1) = true)
    by (apply FsFacts.exists_read; eauto).
  unfold bind at 1. unfold existsSync at 1. rewrite Hgen.
  unfold in_callback, moveSync. rewrite Hread, Htaken. reflexivity.
Qed.

Lemma X17_part001_document_output_taken_witness :
  Part001.post_convert
     (Samples.healthy [("/app/outputs/7c1d-report.pdf", "pdf bytes")])
     (Samples.request "report.docx" "/app/uploads/7c1d-report.docx" "pdf")
     (initial [("/app/uploads/7c1d-report.docx", "docx bytes");
               ("/app/outputs/report.pdf", "another job's pdf")])
  = (Halt (Uncaught "dest already exists."),
     {| files := [("/app/uploads/7c1d-report.docx", "docx bytes");
                  ("/app/outputs/report.pdf", "another job's pdf");
                  ("/app/outputs/7c1d-report.pdf", "pdf bytes")];
        trace := [EvAdapter "convertDocument";
                  EvRun (SpawnProc "libreoffice"
                           ["--headless"; "--convert-to"; "pdf"; "--outdir";
                            "/app/outputs"; "/app/uploads/7c1d-report.docx"]) None];
        elapsed := 1500 |}).
Proof.
  unfold Samples.request.
  rewrite (X17_part001_document_output_taken
             (Samples.healthy [("/app/outputs/7c1d-report.pdf", "pdf bytes")])
             (Samples.upload "report.docx" "/app/uploads/7c1d-report.docx") "pdf"
             [("/app/uploads/7c1d-report.docx", "docx bytes");
              ("/app/outputs/report.pdf", "another job's pdf")] 1500 "pdf bytes");
    [reflexivity | discriminate | reflexivity | reflexivity | reflexivity
     | reflexivity | discriminate | reflexivity].
Defined.

(** ** server.cjs: the output path derived from the stored upload *)

Module Replace.

Lemma lower_dollar (c : ascii) :
  Ascii.eqb (lower_ascii c) "$" = Ascii.eqb c "$".
Proof. destruct c as [[] [] [] [] [] [] [] []]; reflexivity. Qed.

Lemma no_dollar_lower (s : string) : no_dollar (toLowerCase s) = no_dollar s.
Proof.
  unfold toLowerCase. induction s as [|c s IH]; simpl; [reflexivity |].
  now rewrite lower_dollar, IH.
Qed.

(** Without a dollar sign the replacement text is inserted as it is. *)
Lemma expand_plain (matched before after repl : string) :
  no_dollar repl = true -> expand matched before after repl = repl.
Proof.
  induction repl as [|c r IH]; simpl; [reflexivity |].
  destruct (Ascii.eqb c "$"); [discriminate |].
  simpl. intros H. now rewrite IH.
Qed.

Lemma append_empty (s : string) : s ++ "" = s.
Proof. induction s as [|c s IH]; simpl; [reflexivity | now rewrite IH]. Qed.

Lemma append_assoc (a b c : string) : (a ++ b) ++ c = a ++ b ++ c.
Proof. induction a as [|x a IH]; simpl; [reflexivity | now rewrite IH]. Qed.

Lemma length_append (a b : string) :
  String.length (a ++ b) = String.length a + String.length b.
Proof. induction a as [|x a IH]; simpl; [reflexivity | now rewrite IH]. Qed.

Lemma substring_head (a b : string) : String.substring 0 (String.length a) (a ++ b) = a.
Proof. induction a as [|x a IH]; simpl; [now destruct b | now rewrite IH]. Qed.

Lemma substring_nothing (n : nat) (s : string) : String.substring n 0 s = "".
Proof.
  revert s. induction n as [|n IH]; intros [|c s]; simpl; try reflexivity. apply IH.
Qed.

End Replace.

(** X18. The output path of server.cjs's image and media converters, for a
    target format free of dollar signs.  (a) When the stored upload has no
    extension -- as the files multer names itself -- the empty extension
    matches at the very start of the path, and the output path is
    [.{format}] put in front of the whole stored path.  (b) When the stored
    path is [{stem}{extension}] and the extension first occurs at its end,
    the output path is [{stem}.{format in small letters}]. *)
Theorem X18_server_replaced_output (inputPath format : string) :
  no_dollar format = true ->
  (Path.extname inputPath = "" ->
   ServerCjs.replaced_output inputPath format = "." ++ toLowerCase format ++ inputPath) /\
  (forall stem,
      inputPath = stem ++ Path.extname inputPath ->
      String.index 0 (Path.extname inputPath) inputPath = Some (String.length stem) ->
      ServerCjs.replaced_output inputPath format = stem ++ "." ++ toLowerCase format).
Proof.
  intros Hplain.
  assert (Hrepl : forall m b a,
             expand m b a ("." ++ toLowerCase format) = "." ++ toLowerCase format).
  { intros m b a. apply Replace.expand_plain. simpl. now rewrite Replace.no_dollar_lower. }
  unfold ServerCjs.replaced_output, replace. split.
  - intros Hext. rewrite Hext.
    assert (Hidx : String.index 0 "" inputPath = Some 0) by (destruct inputPath; reflexivity).
    rewrite Hidx, Hrepl. cbn [String.length Nat.add].
    rewrite Nat.sub_0_r, Degradation.substring_all.
    destruct inputPath; reflexivity.
  - intros stem Hsplit Hidx. rewrite Hidx, Hrepl.
    set (ext := Path.extname inputPath) in *.
    assert (Hlen : String.length inputPath = String.length stem + String.length ext)
      by (rewrite Hsplit at 1; apply Replace.length_append).
    rewrite Hlen, Nat.sub_diag, Replace.substring_nothing.
    rewrite Hsplit at 1. rewrite Replace.substring_head.
    now rewrite Replace.append_empty.
Qed.

Lemma X18_server_replaced_output_witness :
  ServerCjs.replaced_output "uploads/3f2a" "WebP" = ".webpuploads/3f2a" /\
  ServerCjs.replaced_output "uploads/3f2a.png" "WebP" = "uploads/3f2a.webp".
Proof.
  destruct (X18_server_replaced_output "uploads/3f2a" "WebP" eq_refl) as [Hnone _].
  destruct (X18_server_replaced_output "uploads/3f2a.png" "WebP" eq_refl) as [_ Hext].
  split.
  - apply Hnone. reflexivity.
  - apply (Hext "uploads/3f2a"); reflexivity.
Defined.

(** X19. part_000, a document job whose LibreOffice run does not succeed --
    the tool is missing, exits with an error, or is killed at the 30 second
    timeout: the handler answers 500 [Conversion failed] with the details
    [LibreOffice conversion failed: Command failed: {command}], and removes
    the stored upload; nothing is downloaded. *)
Theorem X19_part000_document_failure
    (w : World) (f : File) (format : string) (fs : Fs.t) (input : string) :
  let inputExt := slice1 (toLowerCase (Path.extname (originalname f))) in
  let tempInputPath :=
    Path.join (Path.join (Path.join (app_dir w) "temp") (uuid w)) (Path.basename (path f)) in
  let command :=
    Part000.libreoffice_command format (Part000.uploadsDir w) tempInputPath in
  let r := behaves w (Exec command) (Fs.writeFileSync tempInputPath input fs) in
  let result := Part000.post_convert w
                  {| file := Some f; outputFormat := Some format |} (initial fs) in
  format <> "" ->
  includes Part000.image_formats inputExt && includes Part000.image_formats format = false ->
  includes Part000.media_formats inputExt = false ->
  includes Part000.document_formats inputExt = true ->
  Fs.read (path f) fs = Some input ->
  verdict r (Some 30000%N) <> Succeeded ->
  fst result = Ret tt /\
  responses (trace (snd result))
    = [Reply 500 (Part000.failure
         ("LibreOffice conversion failed: " ++ command_failed command (run_msg r)))] /\
  Fs.existsSync (path f) (files (snd result)) = false.
Proof.
  intros inputExt tempInputPath command r result Hf Himg Hmedia Hdoc Hread Hv.
  subst result.
  set (st0 := with_files (Fs.writeFileSync tempInputPath input fs) (initial fs)).
  assert (Hconv :
    Part000.convertWithLibreOffice w (path f) (Part000.uploadsDir w) format (initial fs)
    = (Throw ("LibreOffice conversion failed: " ++ command_failed command (run_msg r)),
       with_files (Fs.removeSync (Path.join (Path.join (app_dir w) "temp") (uuid w))
                     (files (after_run w (Exec command) (Some 30000%N) st0)))
         (after_run w (Exec command) (Some 30000%N) st0))).
  { unfold Part000.convertWithLibreOffice. fold tempInputPath. fold command.
    unfold bind at 1. unfold copyFileSync. cbn [files initial]. rewrite Hread.
    unfold update_fs at 1. cbn [files initial]. fold st0.
    unfold bind at 1. unfold attempt.
    destruct (Timeouts.exec_with_timeout w command 30000 st0) as [[_ Hs] | [-> _]];
      [now elim Hv |].
    reflexivity. }
  assert (Hrun : exists st',
    Part000.post_convert w {| file := Some f; outputFormat := Some format |} (initial fs)
      = (Ret tt, st') /\
    responses (trace st')
      = [Reply 500 (Part000.failure
           ("LibreOffice conversion failed: " ++ command_failed command (run_msg r)))] /\
    Fs.existsSync (path f) (files st') = false).
  { unfold Part000.post_convert. cbn [file outputFormat missing].
    apply String.eqb_neq in Hf. rewrite Hf.
    unfold Part000.convert_body. fold inputExt. rewrite Himg, Hmedia, Hdoc.
    unfold try_catch at 1. unfold bind at 1. unfold bind at 1. unfold bind at 1.
    rewrite Hconv.
    cbn [Part000.cleanup]. unfold try_catch, bind.
    rewrite !unlink_if_exists_run. unfold res_json, log, ret.
    eexists. split; [reflexivity |]. split.
    - cbn [trace files with_files push after_run st0 initial app responses]. reflexivity.
    - cbn [files with_files push].
      apply FsFacts.exists_unlink_other, FsFacts.exists_unlink_same. }
  destruct Hrun as (st' & -> & Hresp & Hgone). repeat split; assumption.
Qed.

Lemma X19_part000_document_failure_witness :
  responses (trace (snd (Part000.post_convert Samples.stalled
     (Samples.request "report.docx" "/app/uploads/3f2a" "pdf")
     (initial [("/app/uploads/3f2a", "docx bytes")]))))
  = [Reply 500 (Part000.failure
       ("LibreOffice conversion failed: "
          ++ command_failed
               (Part000.libreoffice_command "pdf" "/app/uploads"
                  "/app/temp/9b2e4f0a-7c1d-4e8b-a3f6-5d0c1b2a3e4f/3f2a") ""))].
Proof.
  destruct (X19_part000_document_failure Samples.stalled
              (Samples.upload "report.docx" "/app/uploads/3f2a") "pdf"
              [("/app/uploads/3f2a", "docx bytes")] "docx bytes")
    as (_ & Hresp & _);
    [discriminate | reflexivity | reflexivity | reflexivity | reflexivity | discriminate |].
  exact Hresp.
Defined.

(** ** What the listings promise and what the handlers do *)

Module ListingFacts.
Import Listings.

Lemma unique_In (x : string) (arr : list string) : In x (unique arr) <-> In x arr.
Proof.
  induction arr as [|y arr IH]; simpl; [tauto |].
  rewrite filter_In, IH. split.
  - intros [-> | [H _]]; auto.
  - intros [-> | H]; [now left |].
    destruct (String.eqb_spec x y) as [-> | Hne]; [now left | right].
    split; [assumption | reflexivity].
Qed.

Lemma unique_NoDup (arr : list string) : NoDup (unique arr).
Proof.
  induction arr as [|y arr IH]; simpl; constructor.
  - rewrite filter_In. intros [_ H]. now rewrite String.eqb_refl in H.
  - now apply NoDup_filter.
Qed.

Lemma insert_perm (x : string) (l : list string) : Permutation (x :: l) (insert x l).
Proof.
  induction l as [|y l IH]; simpl; [reflexivity |].
  destruct (String.leb x y); [reflexivity |].
  rewrite perm_swap. now constructor.
Qed.

Lemma sort_perm (l : list string) : Permutation l (sort l).
Proof.
  induction l as [|x l IH]; simpl; [constructor |].
  rewrite <- insert_perm. now constructor.
Qed.

Lemma insert_sorted (x : string) (l : list string) :
  Sorted le l -> Sorted le (insert x l).
Proof.
  induction l as [|y l IH]; simpl; intros Hs; [repeat constructor |].
  destruct (String.leb x y) eqn:Hxy.
  - constructor; [assumption | now constructor].
  - inversion Hs as [|? ? Hl Hhd]; subst. constructor; [now apply IH |].
    assert (Hyx : le y x) by (destruct (String.leb_total x y); [congruence | assumption]).
    destruct l as [|z l]; simpl; [now constructor |].
    destruct (String.leb x z); constructor; [assumption |].
    now inversion Hhd.
Qed.

Lemma sort_sorted (l : list string) : Sorted le (sort l).
Proof.
  induction l as [|x l IH]; simpl; [constructor | now apply insert_sorted].
Qed.

End ListingFacts.

(** X20. The [formats] field of server.cjs's GET /api/formats, taken for any
    table of categories: it is in ascending order, lists no format twice, and
    lists exactly the formats that occur in some category.  For the table of
    server.cjs that is its 26 formats from AAC to WMV. *)
Theorem X20_server_formats_listing (table : list (string * list string)) :
  Sorted Listings.le (Listings.all_formats table) /\
  NoDup (Listings.all_formats table) /\
  (forall x, In x (Listings.all_formats table) <->
             exists category formats, In (category, formats) table /\ In x formats) /\
  Listings.all_formats ServerCjs.SUPPORTED_FORMATS
    = ["AAC"; "AVI"; "BMP"; "DOC"; "DOCX"; "FLAC"; "GIF"; "HTML"; "JPEG"; "JPG"; "M4A";
       "MKV"; "MOV"; "MP3"; "MP4"; "ODT"; "OGG"; "PDF"; "PNG"; "RTF"; "TIFF"; "TXT";
       "WAV"; "WEBM"; "WEBP"; "WMV"].
Proof.
  unfold Listings.all_formats.
  split; [apply ListingFacts.sort_sorted |].
  split.
  { eapply Permutation_NoDup; [apply ListingFacts.sort_perm | apply ListingFacts.unique_NoDup]. }
  split; [| reflexivity].
  intros x. split.
  - intros Hin.
    apply (Permutation_in x (Permutation_sym (ListingFacts.sort_perm _))) in Hin.
    apply (proj1 (ListingFacts.unique_In _ _)) in Hin. unfold Listings.flat in Hin.
    apply (proj1 (in_concat _ _)) in Hin. destruct Hin as [formats [Hrow Hx]].
    apply (proj1 (in_map_iff _ _ _)) in Hrow. destruct Hrow as [[category formats'] [Heq Hrow]].
    simpl in Heq. subst formats'. eauto.
  - intros (category & formats & Hrow & Hx).
    apply (Permutation_in x (ListingFacts.sort_perm _)).
    apply (proj2 (ListingFacts.unique_In _ _)). unfold Listings.flat.
    apply (proj2 (in_concat _ _)). exists formats. split; [| assumption].
    apply (proj2 (in_map_iff _ _ _)). now exists (category, formats).
Qed.

(** X21. What the listings advertise is classified accordingly: every format
    that server.cjs's [SUPPORTED_FORMATS] or part_001's GET /api/formats
    lists under a category is, as a file extension in either letter case,
    put into that very category by the variant's [getFileCategory]. *)
Theorem X21_listed_formats_are_classified (category format : string) (formats : list string) :
  In format formats ->
  (In (category, formats) ServerCjs.SUPPORTED_FORMATS ->
   ServerCjs.category_of (toLowerCase format) = category /\
   ServerCjs.getFileCategory ("file." ++ format) = category) /\
  (In (category, formats) Listings.part001_formats ->
   Part001.category_of (toLowerCase format) = category /\
   Part001.getFileCategory ("file." ++ toUpperCase format) = category).
Proof.
  intros Hin. split; intros Hrow.
  - cbv [ServerCjs.SUPPORTED_FORMATS In] in Hrow.
    repeat (destruct Hrow as [Hrow | Hrow];
            [injection Hrow as <- <-; cbv [In] in Hin;
             repeat (destruct Hin as [<- | Hin]; [split; reflexivity |]);
             destruct Hin |]).
    destruct Hrow.
  - cbv [Listings.part001_formats In] in Hrow.
    repeat (destruct Hrow as [Hrow | Hrow];
            [injection Hrow as <- <-; cbv [In] in Hin;
             repeat (destruct Hin as [<- | Hin]; [split; reflexivity |]);
             destruct Hin |]).
    destruct Hrow.
Qed.

Lemma X21_listed_formats_are_classified_witness :
  ServerCjs.getFileCategory "file.WEBM" = "video" /\
  Part001.getFileCategory "file.SVG" = "image".
Proof.
  split.
  - refine (proj2 (proj1 (X21_listed_formats_are_classified "video" "WEBM"
                            ["MP4"; "AVI"; "MOV"; "MKV"; "WEBM"; "WMV"] _) _));
      vm_compute; tauto.
  - refine (proj2 (proj2 (X21_listed_formats_are_classified "image" "svg"
                            ["jpg"; "jpeg"; "png"; "webp"; "gif"; "bmp"; "tiff"; "svg"; "ico"] _) _));
      vm_compute; tauto.
Defined.

(** X22. part_000 does not refuse what it advertises: for every source
    format and every target that GET /api/formats/:inputFormat lists for it,
    under any capabilities, the convert handler's own format tests let an
    upload with that extension and that target through to a backend -- the
    [Unsupported conversion] branch is not taken. *)
Theorem X22_part000_advertised_conversions_are_routed
    (capabilities : Part000.Capabilities) (inputFormat target : string)
    (targets : list string) :
  Part000.supportedFormats capabilities inputFormat = Part000.VArray targets ->
  In target targets ->
  let inputExt := toLowerCase inputFormat in
  (includes Part000.image_formats inputExt && includes Part000.image_formats target)
  || includes Part000.media_formats inputExt
  || includes Part000.document_formats inputExt = true.
Proof.
  intros Hlist Hin inputExt. unfold Part000.supportedFormats in Hlist. fold inputExt in Hlist.
  unfold Part000.get in Hlist.
  destruct (Part000.own_property (Part000.formatMap capabilities) inputExt) as [l |] eqn:Hown.
  2:{ unfold Part000.object_prototype in Hlist.
      destruct (inputExt =? "__proto__"); [discriminate |].
      destruct (includes _ inputExt); [discriminate |].
      injection Hlist as <-. destruct Hin. }
  injection Hlist as <-.
  destruct capabilities as [s ff lo].
  cbv [Part000.formatMap Part000.own_property Part000.ffmpeg Part000.libreoffice] in Hown.
  clearbody inputExt.
  repeat match type of Hown with
         | (if ?k =? ?e then _ else _) = _ =>
             destruct (String.eqb_spec k e) as [<- | _];
             [ injection Hown as <-;
               try (destruct ff); try (destruct lo); cbv [In] in Hin;
               repeat (destruct Hin as [<- | Hin]; [reflexivity |]);
               destruct Hin
             | ]
         end.
  discriminate Hown.
Qed.

Lemma X22_part000_advertised_conversions_are_routed_witness :
  (includes Part000.image_formats "png" && includes Part000.image_formats "webp")
  || includes Part000.media_formats "png"
  || includes Part000.document_formats "png" = true.
Proof.
  apply (X22_part000_advertised_conversions_are_routed Part000.all_available "PNG" "webp"
           ["jpg"; "jpeg"; "webp"; "tiff"; "bmp"]); [reflexivity | simpl; tauto].
Defined.




